(** * minio: query parsing, the donut driver facade and the disk layer

    A shallow embedding of
      - pkg/api/resources.go            (query-string parsing),
      - the donut driver facade         (bucket and object operations over
                                         the [donut.Donut] interface),
      - pkg/storage/donut/disk/disk.go  (opening a disk, the files and
                                         directories below it),
    followed by the properties established about them.

    Conventions of the embedding.
      - Go [string] is [string] (a sequence of 8-bit characters), [[]byte]
        is [list Byte.byte], [int] and [int64] are [Z] with the 64-bit
        wrap-around written out ([int64_wrap]).
      - A Go map is a [gmap]; the order in which [range] visits it is
        unspecified, so it is supplied by a [RangeOrder] oracle of which
        only "some permutation of the entries" is known.
      - A function returning [(value, error)] returns a [result]; the
        two functions that return a byte count next to the error keep the
        pair.  A run-time panic is the [Panic] outcome.
      - [iodine.New(err, params)] decorates an error with a stack trace and
        a parameter map and keeps its kind ([iodine.ToError] gives it
        back); the embedding keeps the kind only.
      - The read/write lock of the driver serialises the operations; each
        operation is modelled as one atomic step on the store.
      - The file system that the methods of [Disk] and the two
        functions laying out the disks of a node work on is a state
        with the operations of package os that they call ([GoOS]);
        path/filepath is embedded after the Go library, on Unix.
      - [Start] makes channels and starts a goroutine, and
        [GetFSInfo] formats sizes in floating point ([formatBytes]):
        they are not part of the embedding. *)

From Stdlib Require Import ZArith Lia Ascii String List.
From Stdlib.Strings Require Import Byte.
From stdpp Require Import base option list gmap strings pretty sorting.

Local Open Scope string_scope.
Local Open Scope list_scope.
Local Open Scope Z_scope.

(** ** Results and outcomes *)

Inductive result (E A : Type) : Type :=
| Ok (a : A)
| Err (e : E).
Arguments Ok {E A} a.
Arguments Err {E A} e.

Inductive outcome (A : Type) : Type :=
| Ret (a : A)
| Panic (msg : string).
Arguments Ret {A} a.
Arguments Panic {A} msg.

(** ** 64-bit integers *)

Definition minInt64 : Z := - 2 ^ 63.
Definition maxInt64 : Z := 2 ^ 63 - 1.

Definition is_int64 (z : Z) : Prop := minInt64 <= z <= maxInt64.

Definition int64_wrap (z : Z) : Z := (z + 2 ^ 63) mod 2 ^ 64 - 2 ^ 63.

Definition int64_add (a b : Z) : Z := int64_wrap (a + b).
Definition int64_sub (a b : Z) : Z := int64_wrap (a - b).

(** ** Iteration order of [range] over a map *)

Class RangeOrder := {
  range : ∀ {A : Type}, gmap string A → list (string * A);
  range_perm : ∀ (A : Type) (m : gmap string A), range m ≡ₚ map_to_list m
}.

(** ** Package strings *)

Module GoStrings.

Fixpoint HasPrefix (s p : string) : bool :=
  match p, s with
  | EmptyString, _ => true
  | String a p', String b s' => if Ascii.eqb a b then HasPrefix s' p' else false
  | String _ _, EmptyString => false
  end.

Fixpoint Contains (s substr : string) : bool :=
  if HasPrefix s substr then true
  else match s with
       | EmptyString => false
       | String _ s' => Contains s' substr
       end.

(** The six ASCII white-space characters: \t \n \v \f \r and space. *)
Definition asciiSpace (c : ascii) : bool :=
  let n := N_of_ascii c in
  ((9 <=? n) && (n <=? 13) || (n =? 32))%N.

(** UTF-8 encodings on two bytes of U+0085 and U+00A0. *)
Definition space2 (c d : ascii) : bool :=
  let (a, b) := (N_of_ascii c, N_of_ascii d) in
  ((a =? 194) && ((b =? 133) || (b =? 160)))%N.

(** UTF-8 encodings on three bytes of U+1680, U+2000..U+200A, U+2028,
    U+2029, U+202F, U+205F and U+3000: with the two above and the ASCII
    ones, all the runes for which [unicode.IsSpace] holds. *)
Definition space3 (c d e : ascii) : bool :=
  let '(a, b, f) := (N_of_ascii c, N_of_ascii d, N_of_ascii e) in
  ((a =? 225) && (b =? 154) && (f =? 128)
   || (a =? 226) && (b =? 128)
      && ((128 <=? f) && (f <=? 138) || (f =? 168) || (f =? 169) || (f =? 175))
   || (a =? 226) && (b =? 129) && (f =? 159)
   || (a =? 227) && (b =? 128) && (f =? 128))%N.

Fixpoint TrimLeftSpace (s : string) : string :=
  match s with
  | EmptyString => s
  | String c r =>
      if asciiSpace c then TrimLeftSpace r
      else match r with
           | EmptyString => s
           | String d r1 =>
               if space2 c d then TrimLeftSpace r1
               else match r1 with
                    | EmptyString => s
                    | String e r2 =>
                        if space3 c d e then TrimLeftSpace r2 else s
                    end
           end
  end.

(** The same from the end, on the reversed list of bytes: the last rune
    is found by stepping back to the nearest byte that starts a rune. *)
Fixpoint trimRevSpace (l : list ascii) : list ascii :=
  match l with
  | [] => l
  | c :: r =>
      if asciiSpace c then trimRevSpace r
      else match r with
           | [] => l
           | d :: r1 =>
               if space2 d c then trimRevSpace r1
               else match r1 with
                    | [] => l
                    | e :: r2 =>
                        if space3 e d c then trimRevSpace r2 else l
                    end
           end
  end.

Definition TrimRightSpace (s : string) : string :=
  string_of_list_ascii
    (rev (trimRevSpace (rev (list_ascii_of_string s)))).

Definition TrimSpace (s : string) : string :=
  TrimRightSpace (TrimLeftSpace s).


(** [Join(elems, sep)]. *)
Fixpoint Join (elems : list string) (sep : string) : string :=
  match elems with
  | [] => ""
  | [e] => e
  | e :: rest => e +:+ sep +:+ Join rest sep
  end.

End GoStrings.

(** ** Package strconv *)

Module GoStrconv.

Inductive NumError := ErrSyntax | ErrRange.

Definition digit (c : ascii) : option Z :=
  let n := N_of_ascii c in
  if ((48 <=? n) && (n <=? 57))%N then Some (Z.of_N n - 48) else None.

Fixpoint digits (s : string) (acc : Z) : option Z :=
  match s with
  | EmptyString => Some acc
  | String c r =>
      match digit c with
      | Some d => digits r (acc * 10 + d)
      | None => None
      end
  end.

(** An optional sign followed by the digits. *)
Definition splitSign (s : string) : bool * string :=
  match s with
  | String "+" r => (false, r)
  | String "-" r => (true, r)
  | _ => (false, s)
  end.

(** [Atoi]: base 10, the machine [int] being 64 bits wide.  A syntax
    error gives 0; a value out of range gives the nearest bound. *)
Definition Atoi (s : string) : Z * option NumError :=
  let (neg, body) := splitSign s in
  match body with
  | EmptyString => (0, Some ErrSyntax)
  | _ =>
      match digits body 0 with
      | None => (0, Some ErrSyntax)
      | Some n =>
          if negb neg && (maxInt64 <? n) then (maxInt64, Some ErrRange)
          else if neg && (- minInt64 <? n) then (minInt64, Some ErrRange)
          else (if neg then - n else n, None)
      end
  end.

(** A well-formed decimal integer, as [Atoi] accepts it: an optional
    sign and at least one digit, nothing else. *)
Definition wellFormedInt (s : string) : bool :=
  let body := (splitSign s).2 in
  match body with
  | EmptyString => false
  | _ => match digits body 0 with Some _ => true | None => false end
  end.

(** [FormatInt(i, 10)]. *)
Definition FormatInt (i : Z) : string := pretty i.


(** [Itoa(i)] is [FormatInt(int64(i), 10)]. *)
Definition Itoa (i : Z) : string := FormatInt i.

End GoStrconv.

(** ** Package encoding/base64 (the standard, padded encoding) *)

Module GoBase64.

Definition decodeMap (c : ascii) : option N :=
  let n := N_of_ascii c in
  (if (65 <=? n) && (n <=? 90) then Some (n - 65)
   else if (97 <=? n) && (n <=? 122) then Some (n - 71)
   else if (48 <=? n) && (n <=? 57) then Some (n + 4)
   else if n =? 43 then Some 62
   else if n =? 47 then Some 63
   else None)%N.

Definition isPad (c : ascii) : bool := (N_of_ascii c =? 61)%N.
Definition isNewline (c : ascii) : bool :=
  let n := N_of_ascii c in ((n =? 10) || (n =? 13))%N.

Definition byteOf (n : N) : byte := byte_of_ascii (ascii_of_N (n mod 256)).

(** Four 6-bit values give three bytes. *)
Definition quantum (a b c d : N) : list byte :=
  let v := (a * 2 ^ 18 + b * 2 ^ 12 + c * 2 ^ 6 + d)%N in
  [byteOf (v / 2 ^ 16); byteOf (v / 2 ^ 8); byteOf v].

(** The input without its line breaks, cut in groups of four; only the
    last group may end in one or two padding characters. *)
Fixpoint decodeQuanta (l : list ascii) : option (list byte) :=
  match l with
  | [] => Some []
  | a :: b :: c :: d :: r =>
      match decodeMap a, decodeMap b with
      | Some x, Some y =>
          match decodeMap c, decodeMap d with
          | Some z, Some w =>
              match decodeQuanta r with
              | Some bs => Some (quantum x y z w ++ bs)
              | None => None
              end
          | Some z, None =>
              if isPad d && bool_decide (r = [])
              then Some (take 2 (quantum x y z 0)) else None
          | None, _ =>
              if isPad c && isPad d && bool_decide (r = [])
              then Some (take 1 (quantum x y 0 0)) else None
          end
      | _, _ => None
      end
  | _ => None
  end.

(** [StdEncoding.DecodeString]: [None] is [CorruptInputError]. *)
Definition DecodeString (s : string) : option (list byte) :=
  decodeQuanta (filter (λ c, isNewline c = false) (list_ascii_of_string s)).

End GoBase64.

(** ** Package encoding/hex *)

Module GoHex.

Definition hextable : string := "0123456789abcdef".

Definition hexDigit (n : N) : ascii :=
  match String.get (N.to_nat n) hextable with
  | Some c => c
  | None => "0"%char
  end.

Fixpoint EncodeToString (src : list byte) : string :=
  match src with
  | [] => ""
  | v :: r =>
      String (hexDigit (Byte.to_N v / 16))
        (String (hexDigit (Byte.to_N v mod 16)) (EncodeToString r))
  end.

End GoHex.

(** ** Package io *)

Module GoIO.

Inductive Error :=
| EOF
| ReadError (msg : string).

(** A reader: the bytes it still delivers, and how it ends after them,
    cleanly (end of stream) or with a read error. *)
Record Reader := {
  pending : list byte;
  failure : option string
}.

Definition endOf (r : Reader) : Error :=
  match failure r with
  | Some msg => ReadError msg
  | None => EOF
  end.

(** [CopyN(dst, src, n)] for a destination that accepts every write:
    the bytes handed to [dst], the reader afterwards, and the pair
    [(written, err)].  At most [n] bytes are read, and none when
    [n <= 0]: the limited reader is then empty at once. *)
Definition CopyN (src : Reader) (n : Z)
  : list byte * Reader * (Z * option Error) :=
  let k := Z.to_nat (Z.min n (Z.of_nat (length (pending src)))) in
  let chunk := take k (pending src) in
  let rest := {| pending := drop k (pending src);
                 failure := failure src |} in
  let written := Z.of_nat (length chunk) in
  if written =? n then (chunk, rest, (n, None))
  else if written <? n then (chunk, rest, (written, Some (endOf src)))
  else (chunk, rest, (written, None)).

End GoIO.

(** ** Package sort *)

Module GoSort.
Section Sort.
Context {A : Type} (Less : A → A → bool).

Fixpoint place (x : A) (l : list A) : list A :=
  match l with
  | [] => [x]
  | y :: r => if Less x y then x :: l else y :: place x r
  end.

(** [sort.Sort] orders a slice by [Less] and is not stable.  The
    embedding fixes one algorithm, insertion; on the slices sorted
    here every algorithm that orders by [Less] gives the same
    result up to elements with equal keys. *)
Definition Sort (l : list A) : list A := foldr place [] l.
End Sort.
End GoSort.

(** Indexing a slice: out of range is a run-time panic. *)
Definition index {A : Type} (l : list A) (i : Z) : outcome A :=
  if (0 <=? i) && (i <? Z.of_nat (length l)) then
    match l !! Z.to_nat i with
    | Some x => Ret x
    | None => Panic "index out of range"
    end
  else Panic "index out of range".

(** ** Package path/filepath, on Unix: the separator is the slash and
    there are no volume names *)

Module GoFilepath.

Definition Separator : ascii := "/"%char.

Definition IsPathSeparator (c : ascii) : bool := Ascii.eqb c Separator.

(** The buffer that [Clean] writes to is held last byte first; [out.w]
    is its length. *)

(** A ".." element when [out.w > dotdot]: [out.w--], then back until the
    byte just dropped is a separator or [dotdot] is reached. *)
Fixpoint backtrack (dotdot : nat) (out : list ascii) : list ascii :=
  match out with
  | [] => []
  | c :: out' =>
      if (dotdot <? length out')%nat && negb (IsPathSeparator c)
      then backtrack dotdot out'
      else out'
  end.

(** [r+1 == n || os.IsPathSeparator(path[r+1])], on what follows. *)
Definition endsElement (rest : list ascii) : bool :=
  match rest with
  | [] => true
  | c :: _ => IsPathSeparator c
  end.

(** The loop of [Clean] over the bytes not yet read.  The inner loop
    that copies a real path element is the mode [copying]: it ends at
    the separator, which the outer loop then skips. *)
Fixpoint scan (rooted : bool) (path : list ascii) (copying : bool)
    (out : list ascii) (dotdot : nat) : list ascii :=
  match path with
  | [] => out
  | c :: rest =>
      if copying then
        if IsPathSeparator c then scan rooted rest false out dotdot
        else scan rooted rest true (c :: out) dotdot
      else if IsPathSeparator c then
        (* empty path element *)
        scan rooted rest false out dotdot
      else if Ascii.eqb c "." && endsElement rest then
        (* . element *)
        scan rooted rest false out dotdot
      else
        let element :=
          (* real path element: add slash if needed, copy element *)
          let w := length out in
          let out :=
            if rooted && negb (w =? 1)%nat || negb rooted && negb (w =? 0)%nat
            then Separator :: out else out in
          scan rooted rest true (c :: out) dotdot in
        match rest with
        | d :: rest2 =>
            if Ascii.eqb c "." && Ascii.eqb d "." && endsElement rest2 then
              (* .. element: remove to last separator *)
              if (dotdot <? length out)%nat then
                (* can backtrack *)
                scan rooted rest2 false (backtrack dotdot out) dotdot
              else if negb rooted then
                (* cannot backtrack, but not rooted, so append .. element *)
                let out :=
                  if (0 <? length out)%nat then Separator :: out else out in
                let out := "."%char :: "."%char :: out in
                scan rooted rest2 false out (length out)
              else scan rooted rest2 false out dotdot
            else element
        | [] => element
        end
  end.

(** [Clean] returns the shortest path name equivalent to [path] by
    purely lexical processing. *)
Definition Clean (path : string) : string :=
  match list_ascii_of_string path with
  | [] => "."
  | c :: rest =>
      let rooted := IsPathSeparator c in
      let out :=
        if rooted then scan true rest false [Separator] 1
        else scan false (c :: rest) false [] 0 in
      (* Turn empty string into "." *)
      let out := match out with [] => ["."%char] | _ => out end in
      string_of_list_ascii (rev out)
  end.

(** [Join] joins the elements with the separator, ignoring the empty
    ones at the front, and cleans the result. *)
Fixpoint Join (elem : list string) : string :=
  match elem with
  | [] => ""
  | e :: rest =>
      if String.eqb e "" then Join rest
      else Clean (GoStrings.Join elem "/")
  end.

(** The bytes of a path, last first, back to and with the last
    separator: [for i >= 0 && !os.IsPathSeparator(path[i]) { i-- }]. *)
Fixpoint upToSeparator (reversed : list ascii) : list ascii :=
  match reversed with
  | [] => []
  | c :: before =>
      if IsPathSeparator c then reversed else upToSeparator before
  end.

(** [Dir] returns all but the last element of [path], cleaned. *)
Definition Dir (path : string) : string :=
  Clean (string_of_list_ascii
           (rev (upToSeparator (rev (list_ascii_of_string path))))).

End GoFilepath.

(** ** Package os, as far as the two files use it

    The file system is a state of type [FS] with the five operations
    below; [File] is the type of open files.  What an operation of the
    program asked of the file system is kept as a list of [Call]s. *)

Module GoOS.

Definition Errno : Type := Z.
Definition ENOENT : Errno := 2.

(** [os.IsNotExist], on error numbers. *)
Definition IsNotExist (err : Errno) : bool := err =? ENOENT.

Definition O_RDONLY : Z := 0.
Definition O_WRONLY : Z := 1.
Definition O_CREATE : Z := 64.

(** The permissions 0700 and 0600. *)
Definition perm0700 : Z := 448.
Definition perm0600 : Z := 384.

Module FileMode.
Definition t : Type := Z.

Definition ModeDir : t := Z.shiftl 1 31.
Definition ModeSymlink : t := Z.shiftl 1 27.
Definition ModeDevice : t := Z.shiftl 1 26.
Definition ModeNamedPipe : t := Z.shiftl 1 25.
Definition ModeSocket : t := Z.shiftl 1 24.
Definition ModeCharDevice : t := Z.shiftl 1 21.
Definition ModeIrregular : t := Z.shiftl 1 19.

(** Mask for the type bits. For regular files, none will be set. *)
Definition ModeType : t :=
  Z.lor ModeDir
    (Z.lor ModeSymlink
       (Z.lor ModeNamedPipe
          (Z.lor ModeSocket
             (Z.lor ModeDevice (Z.lor ModeCharDevice ModeIrregular))))).

Definition IsDir (m : t) : bool := negb (Z.land m ModeDir =? 0).
Definition IsRegular (m : t) : bool := Z.land m ModeType =? 0.
End FileMode.

Module FileInfo.
Record t := mk {
  Name : string;
  Size : Z;
  Mode : FileMode.t;
  ModTime : Z
}.

Definition IsDir (fi : t) : bool := FileMode.IsDir (Mode fi).
End FileInfo.

Class FileSystem (FS File : Type) := {
  stat : string → FS → result Errno FileInfo.t;
  mkdirAll : string → FileMode.t → FS → option Errno * FS;
  openFile : string → Z → FileMode.t → FS → result Errno File * FS;
  readdir : File → Z → FS → result Errno (list FileInfo.t) * FS;
  close : File → FS → option Errno * FS
}.

Inductive Call (File : Type) :=
| CallStat (name : string)
| CallMkdirAll (path : string) (perm : FileMode.t)
| CallOpenFile (name : string) (flag : Z) (perm : FileMode.t)
| CallReaddir (f : File) (n : Z)
| CallClose (f : File).
Arguments CallStat {File} name.
Arguments CallMkdirAll {File} path perm.
Arguments CallOpenFile {File} name flag perm.
Arguments CallReaddir {File} f n.
Arguments CallClose {File} f.

(** The path that a call names, if it names one. *)
Definition callPath {File} (c : Call File) : option string :=
  match c with
  | CallStat name => Some name
  | CallMkdirAll path _ => Some path
  | CallOpenFile name _ _ => Some name
  | CallReaddir _ _ | CallClose _ => None
  end.

(** A computation on the file system: a value, the file system
    afterwards and the calls made. *)
Definition IO (FS File A : Type) : Type := FS → A * FS * list (Call File).

Global Instance IO_ret {FS File} : MRet (IO FS File) :=
  λ A a fs, (a, fs, []).

Global Instance IO_bind {FS File} : MBind (IO FS File) :=
  λ A B f m fs,
    let '(a, fs', t) := m fs in
    let '(b, fs'', t') := f a fs' in
    (b, fs'', t ++ t').

Section OS.
Context {FS File : Type} `{!FileSystem FS File}.

Definition Stat (name : string) : IO FS File (result Errno FileInfo.t) :=
  λ fs, (stat name fs, fs, [CallStat name]).

Definition MkdirAll (path : string) (perm : FileMode.t)
  : IO FS File (option Errno) :=
  λ fs, ((mkdirAll path perm fs).1, (mkdirAll path perm fs).2,
         [CallMkdirAll path perm]).

Definition OpenFile (name : string) (flag : Z) (perm : FileMode.t)
  : IO FS File (result Errno File) :=
  λ fs, ((openFile name flag perm fs).1, (openFile name flag perm fs).2,
         [CallOpenFile name flag perm]).

(** [Open] opens the named file for reading. *)
Definition Open (name : string) : IO FS File (result Errno File) :=
  OpenFile name O_RDONLY 0.

Definition Readdir (f : File) (n : Z)
  : IO FS File (result Errno (list FileInfo.t)) :=
  λ fs, ((readdir f n fs).1, (readdir f n fs).2, [CallReaddir f n]).

Definition Close (f : File) : IO FS File (option Errno) :=
  λ fs, ((close f fs).1, (close f fs).2, [CallClose f]).
End OS.

End GoOS.

(** ** Package donut: the interface the driver is written against

    The erasure-coded store itself is behind the [donut.Donut] interface;
    the driver only calls its methods.  [D] is the state of the store:
    the reading methods are functions of it, the writing ones also give
    the next state. *)

Module donut.

(** The kinds of error of the layer, after the taxonomy of the spec
    (section 7); the driver tells [BucketExists] from the others and
    passes the others on. *)
Inductive Error :=
| BucketExists
| BucketNotFound
| ObjectNotFound
| BadDigest
| ObjectCorrupted
| InsufficientShards
| IOFailure (msg : string).

Module BucketMetadata.
Record t := mk { Created : Z; ACL : string }.
End BucketMetadata.

Module ObjectMetadata.
Record t := mk {
  Metadata : gmap string string;
  Created : Z;
  MD5Sum : string;
  Size : Z
}.
End ObjectMetadata.

Class Donut (D : Type) := {
  ListBuckets : D → result Error (gmap string BucketMetadata.t);
  MakeBucket : D → string → string → option Error * D;
  GetBucketMetadata : D → string → result Error BucketMetadata.t;
  SetBucketMetadata : D → string → gmap string string → option Error * D;
  GetObject : D → string → string → result Error (GoIO.Reader * Z);
  GetObjectMetadata : D → string → string → result Error ObjectMetadata.t;
  ListObjects : D → string → string → string → string → Z
                → result Error (list string * list string * bool);
  PutObject : D → string → string → string → GoIO.Reader
              → gmap string string → result Error string * D
}.

End donut.

(** ** Package drivers: the records and errors shared with the HTTP layer *)

Module drivers.

Inductive Error :=
| InternalError
| InvalidACL (acl : string)
| BucketNameInvalid (bucket : string)
| BucketExists (bucket : string)
| BucketNotFound (bucket : string)
| ObjectNameInvalid (object : string)
| ObjectNotFound (bucket object : string)
| InvalidRange (start length : Z)
| APINotImplemented (api : string)
| CorruptInput
| Lower (e : donut.Error)
| IOError (e : GoIO.Error).

Module BucketMetadata.
Record t := mk { Name : string; Created : Z; ACL : string }.
End BucketMetadata.

Module ObjectMetadata.
Record t := mk {
  Bucket : string;
  Key : string;
  ContentType : string;
  Created : Z;
  Md5 : string;
  Size : Z
}.
End ObjectMetadata.

Module BucketResourcesMetadata.
Record t := mk {
  Prefix : string;
  Marker : string;
  NextMarker : string;
  Maxkeys : Z;
  Delimiter : string;
  IsTruncated : bool;
  CommonPrefixes : list string;
  EncodingType : string
}.

Definition zero : t := mk "" "" "" 0 "" false [] "".

Definition setPrefix (x : string) (v : t) : t :=
  mk x (Marker v) (NextMarker v) (Maxkeys v) (Delimiter v)
     (IsTruncated v) (CommonPrefixes v) (EncodingType v).
Definition setMarker (x : string) (v : t) : t :=
  mk (Prefix v) x (NextMarker v) (Maxkeys v) (Delimiter v)
     (IsTruncated v) (CommonPrefixes v) (EncodingType v).
Definition setNextMarker (x : string) (v : t) : t :=
  mk (Prefix v) (Marker v) x (Maxkeys v) (Delimiter v)
     (IsTruncated v) (CommonPrefixes v) (EncodingType v).
Definition setMaxkeys (x : Z) (v : t) : t :=
  mk (Prefix v) (Marker v) (NextMarker v) x (Delimiter v)
     (IsTruncated v) (CommonPrefixes v) (EncodingType v).
Definition setDelimiter (x : string) (v : t) : t :=
  mk (Prefix v) (Marker v) (NextMarker v) (Maxkeys v) x
     (IsTruncated v) (CommonPrefixes v) (EncodingType v).
Definition setIsTruncated (x : bool) (v : t) : t :=
  mk (Prefix v) (Marker v) (NextMarker v) (Maxkeys v) (Delimiter v)
     x (CommonPrefixes v) (EncodingType v).
Definition setCommonPrefixes (x : list string) (v : t) : t :=
  mk (Prefix v) (Marker v) (NextMarker v) (Maxkeys v) (Delimiter v)
     (IsTruncated v) x (EncodingType v).
Definition setEncodingType (x : string) (v : t) : t :=
  mk (Prefix v) (Marker v) (NextMarker v) (Maxkeys v) (Delimiter v)
     (IsTruncated v) (CommonPrefixes v) x.
End BucketResourcesMetadata.

Module ObjectResourcesMetadata.
Record t := mk {
  UploadID : string;
  PartNumberMarker : Z;
  MaxParts : Z;
  EncodingType : string
}.

Definition zero : t := mk "" 0 0 "".

Definition setUploadID (x : string) (v : t) : t :=
  mk x (PartNumberMarker v) (MaxParts v) (EncodingType v).
Definition setPartNumberMarker (x : Z) (v : t) : t :=
  mk (UploadID v) x (MaxParts v) (EncodingType v).
Definition setMaxParts (x : Z) (v : t) : t :=
  mk (UploadID v) (PartNumberMarker v) x (EncodingType v).
Definition setEncodingType (x : string) (v : t) : t :=
  mk (UploadID v) (PartNumberMarker v) (MaxParts v) x.
End ObjectResourcesMetadata.

(** What the driver uses of the package and is declared outside the
    files at hand: the name and ACL predicates, and the method
    [IsDelimiterSet] of the bucket resources.  The driver is parametric
    in them. *)
Class Helpers := {
  IsValidBucket : string → bool;
  IsValidObjectName : string → bool;
  IsValidBucketACL : string → bool;
  IsDelimiterSet : BucketResourcesMetadata.t → bool
}.

End drivers.

(** ** pkg/api/resources.go *)

Module api.
Import drivers.

Section Resources.
Context `{RangeOrder}.

(** One turn of the loop of [getBucketResources]: [value[0]] is read
    only in the case that matches the key. *)
Definition bucketResource (v : BucketResourcesMetadata.t)
    (key : string) (value : list string)
  : outcome BucketResourcesMetadata.t :=
  if String.eqb key "prefix" then
    match index value 0 with
    | Ret x => Ret (BucketResourcesMetadata.setPrefix x v)
    | Panic m => Panic m
    end
  else if String.eqb key "marker" then
    match index value 0 with
    | Ret x => Ret (BucketResourcesMetadata.setMarker x v)
    | Panic m => Panic m
    end
  else if String.eqb key "max-keys" then
    match index value 0 with
    | Ret x => Ret (BucketResourcesMetadata.setMaxkeys (GoStrconv.Atoi x).1 v)
    | Panic m => Panic m
    end
  else if String.eqb key "delimiter" then
    match index value 0 with
    | Ret x => Ret (BucketResourcesMetadata.setDelimiter x v)
    | Panic m => Panic m
    end
  else if String.eqb key "encoding-type" then
    match index value 0 with
    | Ret x => Ret (BucketResourcesMetadata.setEncodingType x v)
    | Panic m => Panic m
    end
  else Ret v.

Fixpoint bucketResources (v : BucketResourcesMetadata.t)
    (l : list (string * list string))
  : outcome BucketResourcesMetadata.t :=
  match l with
  | [] => Ret v
  | (key, value) :: l' =>
      match bucketResource v key value with
      | Ret v' => bucketResources v' l'
      | Panic m => Panic m
      end
  end.

(** parse bucket url queries *)
Definition getBucketResources (values : gmap string (list string))
  : outcome BucketResourcesMetadata.t :=
  bucketResources BucketResourcesMetadata.zero (range values).

Definition objectResource (v : ObjectResourcesMetadata.t)
    (key : string) (value : list string)
  : outcome ObjectResourcesMetadata.t :=
  if String.eqb key "uploadId" then
    match index value 0 with
    | Ret x => Ret (ObjectResourcesMetadata.setUploadID x v)
    | Panic m => Panic m
    end
  else if String.eqb key "part-number-marker" then
    match index value 0 with
    | Ret x =>
        Ret (ObjectResourcesMetadata.setPartNumberMarker (GoStrconv.Atoi x).1 v)
    | Panic m => Panic m
    end
  else if String.eqb key "max-parts" then
    match index value 0 with
    | Ret x => Ret (ObjectResourcesMetadata.setMaxParts (GoStrconv.Atoi x).1 v)
    | Panic m => Panic m
    end
  else if String.eqb key "encoding-type" then
    match index value 0 with
    | Ret x => Ret (ObjectResourcesMetadata.setEncodingType x v)
    | Panic m => Panic m
    end
  else Ret v.

Fixpoint objectResources (v : ObjectResourcesMetadata.t)
    (l : list (string * list string))
  : outcome ObjectResourcesMetadata.t :=
  match l with
  | [] => Ret v
  | (key, value) :: l' =>
      match objectResource v key value with
      | Ret v' => objectResources v' l'
      | Panic m => Panic m
      end
  end.

(** parse object url queries *)
Definition getObjectResources (values : gmap string (list string))
  : outcome ObjectResourcesMetadata.t :=
  objectResources ObjectResourcesMetadata.zero (range values).

(** check if req query values have acl: the body of the loop returns
    in both of its cases, so only the first key visited is looked
    at. *)
Definition isRequestBucketACL (values : gmap string (list string)) : bool :=
  match range values with
  | [] => false
  | (key, _) :: _ => if String.eqb key "acl" then true else false
  end.
End Resources.
End api.

(** ** The donut driver *)

Module driver.
Import drivers.

(** The calls made on the store, in order: what an operation did
    below the facade. *)
Inductive Call :=
| CallListBuckets
| CallMakeBucket (bucket acl : string)
| CallGetBucketMetadata (bucket : string)
| CallSetBucketMetadata (bucket : string) (metadata : gmap string string)
| CallGetObject (bucket object : string)
| CallGetObjectMetadata (bucket object : string)
| CallListObjects (bucket prefix marker delimiter : string) (maxkeys : Z)
| CallPutObject (bucket object expectedMD5Sum : string)
                (metadata : gmap string string).

(** donutDriver - creates a new single disk drivers driver using donut;
    [donut] is [None] when the store could not be opened. *)
Record donutDriver (D : Type) := mkDriver {
  donut : option D;
  paths : list string
}.
Arguments mkDriver {D} donut paths.
Arguments donut {D} d.
Arguments paths {D} d.

(** An operation of the driver: from the driver to a value, the driver
    afterwards and the calls made, unless it panics. *)
Definition Op (D A : Type) : Type :=
  donutDriver D → outcome (A * donutDriver D * list Call).

Global Instance Op_ret {D} : MRet (Op D) :=
  λ A a d, Ret (a, d, []).

Global Instance Op_bind {D} : MBind (Op D) :=
  λ A B f m d,
    match m d with
    | Panic msg => Panic msg
    | Ret (a, d', t) =>
        match f a d' with
        | Panic msg => Panic msg
        | Ret (b, d'', t') => Ret (b, d'', t ++ t')
        end
    end.

Definition panic {D A} (msg : string) : Op D A := λ _, Panic msg.

Definition lift {D A} (o : outcome A) : Op D A :=
  λ d, match o with
       | Ret a => Ret (a, d, [])
       | Panic msg => Panic msg
       end.

(** [d.donut == nil] *)
Definition donutIsNil {D} : Op D bool :=
  λ d, Ret (match donut d with None => true | Some _ => false end, d, []).

(** A method of the store that only reads; on a nil store the call is a
    nil dereference. *)
Definition reading {D A} (c : Call) (f : D → A) : Op D A :=
  λ d, match donut d with
       | Some s => Ret (f s, d, [c])
       | None => Panic "nil pointer dereference"
       end.

(** A method of the store that may change it. *)
Definition writing {D A} (c : Call) (f : D → A * D) : Op D A :=
  λ d, match donut d with
       | Some s => Ret ((f s).1, mkDriver (Some (f s).2) (paths d), [c])
       | None => Panic "nil pointer dereference"
       end.

Section NodeDiskMap.
Context {FS File : Type} `{!GoOS.FileSystem FS File}.

(** [for i := 0; i < len(nodes["localhost"]); i++], with [count] rounds
    left.  The directory of a disk is created when [Stat] says that it
    does not exist; no other error is looked at, nor the result of
    [MkdirAll]. *)
Fixpoint createNodeDiskMap_loop (p : string) (count : nat) (i : Z)
    (nodes : gmap string (list string))
  : GoOS.IO FS File (gmap string (list string)) :=
  match count with
  | O => mret nodes
  | S count' =>
      let diskPath := GoFilepath.Join [p; GoStrconv.Itoa i] in
      st ← GoOS.Stat diskPath;
      _ ← match st with
          | Err err =>
              if GoOS.IsNotExist err
              then _ ← GoOS.MkdirAll diskPath GoOS.perm0700; mret ()
              else mret ()
          | Ok _ => mret ()
          end;
      createNodeDiskMap_loop p count' (i + 1)
        (<[ "localhost" :=
              <[ Z.to_nat i := diskPath ]> (nodes !!! "localhost") ]> nodes)
  end.

(** This is a dummy nodeDiskMap: sixteen disks below one path. *)
Definition createNodeDiskMap (p : string)
  : GoOS.IO FS File (gmap string (list string)) :=
  let nodes : gmap string (list string) :=
    <[ "localhost" := replicate 16 "" ]> ∅ in
  createNodeDiskMap_loop p (length (nodes !!! "localhost")) 0 nodes.

(** [for i, p := range paths] *)
Fixpoint createNodeDiskMapFromSlice_loop (paths : list string) (i : Z)
    (diskPaths : list string) : GoOS.IO FS File (list string) :=
  match paths with
  | [] => mret diskPaths
  | p :: paths' =>
      let diskPath := GoFilepath.Join [p; GoStrconv.Itoa i] in
      st ← GoOS.Stat diskPath;
      _ ← match st with
          | Err err =>
              if GoOS.IsNotExist err
              then _ ← GoOS.MkdirAll diskPath GoOS.perm0700; mret ()
              else mret ()
          | Ok _ => mret ()
          end;
      createNodeDiskMapFromSlice_loop paths' (i + 1)
        (<[ Z.to_nat i := diskPath ]> diskPaths)
  end.

(** The same from the paths of the command line: one disk per path. *)
Definition createNodeDiskMapFromSlice (paths : list string)
  : GoOS.IO FS File (gmap string (list string)) :=
  diskPaths ← createNodeDiskMapFromSlice_loop paths 0
                (replicate (length paths) "");
  mret (<[ "localhost" := diskPaths ]> ∅).
End NodeDiskMap.

Section Driver.
Context `{RangeOrder} `{Helpers} {D : Type} `{!donut.Donut D}.

(** byBucketName is a type for sorting bucket metadata by bucket name *)
Definition byBucketName_Less (a b : BucketMetadata.t) : bool :=
  String.ltb (BucketMetadata.Name a) (BucketMetadata.Name b).

(** ListBuckets returns a list of buckets *)
Definition ListBuckets : Op D (result Error (list BucketMetadata.t)) :=
  isNil ← donutIsNil;
  if isNil : bool then mret (Err InternalError) else
  r ← reading CallListBuckets donut.ListBuckets;
  match r with
  | Err e => mret (Err (Lower e))
  | Ok buckets =>
      let results :=
        map (λ e : string * donut.BucketMetadata.t,
               BucketMetadata.mk e.1 (donut.BucketMetadata.Created e.2) "")
            (range buckets) in
      mret (Ok (GoSort.Sort byBucketName_Less results))
  end.

(** CreateBucket creates a new bucket *)
Definition CreateBucket (bucketName acl : string) : Op D (option Error) :=
  isNil ← donutIsNil;
  if isNil : bool then mret (Some InternalError) else
  if negb (IsValidBucketACL acl) then mret (Some (InvalidACL acl)) else
  if IsValidBucket bucketName && negb (GoStrings.Contains bucketName ".")
  then
    let acl := if String.eqb (GoStrings.TrimSpace acl) "" then "private"
               else acl in
    err ← writing (CallMakeBucket bucketName acl)
                  (λ s, donut.MakeBucket s bucketName acl);
    match err with
    | Some donut.BucketExists => mret (Some (BucketExists bucketName))
    | Some e => mret (Some (Lower e))
    | None => mret None
    end
  else mret (Some (BucketNameInvalid bucketName)).

(** GetBucketMetadata retrieves an bucket's metadata *)
Definition GetBucketMetadata (bucketName : string)
  : Op D (result Error BucketMetadata.t) :=
  isNil ← donutIsNil;
  if isNil : bool then mret (Err InternalError) else
  if negb (IsValidBucket bucketName) || GoStrings.Contains bucketName "."
  then mret (Err (BucketNameInvalid bucketName)) else
  r ← reading (CallGetBucketMetadata bucketName)
              (λ s, donut.GetBucketMetadata s bucketName);
  match r with
  | Err _ => mret (Err (BucketNotFound bucketName))
  | Ok metadata =>
      mret (Ok (BucketMetadata.mk bucketName
                  (donut.BucketMetadata.Created metadata)
                  (donut.BucketMetadata.ACL metadata)))
  end.

(** SetBucketMetadata sets bucket's metadata *)
Definition SetBucketMetadata (bucketName acl : string)
  : Op D (option Error) :=
  isNil ← donutIsNil;
  if isNil : bool then mret (Some InternalError) else
  if negb (IsValidBucket bucketName) || GoStrings.Contains bucketName "."
  then mret (Some (BucketNameInvalid bucketName)) else
  let acl := if String.eqb (GoStrings.TrimSpace acl) "" then "private"
             else acl in
  let bucketMetadata : gmap string string := {[ "acl" := acl ]} in
  err ← writing (CallSetBucketMetadata bucketName bucketMetadata)
                (λ s, donut.SetBucketMetadata s bucketName bucketMetadata);
  match err with
  | Some _ => mret (Some (BucketNotFound bucketName))
  | None => mret None
  end.

(** GetObject retrieves an object and writes it to a writer: the
    bytes written to the writer, and the pair of results. *)
Definition GetObject (bucketName objectName : string)
  : Op D (list byte * (Z * option Error)) :=
  isNil ← donutIsNil;
  if isNil : bool then mret ([], (0, Some InternalError)) else
  if negb (IsValidBucket bucketName) || GoStrings.Contains bucketName "."
  then mret ([], (0, Some (BucketNameInvalid bucketName))) else
  if negb (IsValidObjectName objectName)
     || String.eqb (GoStrings.TrimSpace objectName) ""
  then mret ([], (0, Some (ObjectNameInvalid objectName))) else
  r ← reading (CallGetObject bucketName objectName)
              (λ s, donut.GetObject s bucketName objectName);
  match r with
  | Err _ => mret ([], (0, Some (ObjectNotFound bucketName objectName)))
  | Ok (reader, size) =>
      let '(out, _, (n, err)) := GoIO.CopyN reader size in
      mret (out, (n, IOError <$> err))
  end.

(** The end of [GetPartialObject], once the range is accepted:
    [start] bytes are copied to [ioutil.Discard], then [length] bytes
    to the writer; an error of either copy is returned with count 0. *)
Definition copyRange (reader : GoIO.Reader) (start length : Z)
  : list byte * (Z * option Error) :=
  let '(_, reader', (_, err)) := GoIO.CopyN reader start in
  match err with
  | Some e => ([], (0, Some (IOError e)))
  | None =>
      let '(out, _, (n, err)) := GoIO.CopyN reader' length in
      match err with
      | Some e => (out, (0, Some (IOError e)))
      | None => (out, (n, None))
      end
  end.

(** GetPartialObject retrieves an object range and writes it to a
    writer *)
Definition GetPartialObject (bucketName objectName : string)
    (start length : Z)
  : Op D (list byte * (Z * option Error)) :=
  isNil ← donutIsNil;
  if isNil : bool then mret ([], (0, Some InternalError)) else
  if negb (IsValidBucket bucketName) || GoStrings.Contains bucketName "."
  then mret ([], (0, Some (BucketNameInvalid bucketName))) else
  if negb (IsValidObjectName objectName)
     || String.eqb (GoStrings.TrimSpace objectName) ""
  then mret ([], (0, Some (ObjectNameInvalid objectName))) else
  if start <? 0
  then mret ([], (0, Some (InvalidRange start length))) else
  r ← reading (CallGetObject bucketName objectName)
              (λ s, donut.GetObject s bucketName objectName);
  match r with
  | Err _ => mret ([], (0, Some (ObjectNotFound bucketName objectName)))
  | Ok (reader, size) =>
      if (start >? size)
         || (int64_sub (int64_add start length) 1 >? size)
      then mret ([], (0, Some (InvalidRange start length)))
      else mret (copyRange reader start length)
  end.

(** GetObjectMetadata retrieves an object's metadata *)
Definition GetObjectMetadata (bucketName objectName : string)
  : Op D (result Error ObjectMetadata.t) :=
  isNil ← donutIsNil;
  if isNil : bool then mret (Err InternalError) else
  if negb (IsValidBucket bucketName) || GoStrings.Contains bucketName "."
  then mret (Err (BucketNameInvalid bucketName)) else
  if negb (IsValidObjectName objectName)
     || String.eqb (GoStrings.TrimSpace objectName) ""
  then mret (Err (ObjectNameInvalid objectName)) else
  r ← reading (CallGetObjectMetadata bucketName objectName)
              (λ s, donut.GetObjectMetadata s bucketName objectName);
  match r with
  | Err _ => mret (Err (ObjectNotFound bucketName objectName))
  | Ok metadata =>
      mret (Ok (ObjectMetadata.mk bucketName objectName
                  (default "" (donut.ObjectMetadata.Metadata metadata
                                 !! "contentType"))
                  (donut.ObjectMetadata.Created metadata)
                  (donut.ObjectMetadata.MD5Sum metadata)
                  (donut.ObjectMetadata.Size metadata)))
  end.

Definition byObjectKey_Less (a b : ObjectMetadata.t) : bool :=
  String.ltb (ObjectMetadata.Key a) (ObjectMetadata.Key b).

(** The loop of [ListObjects] over the keys: one metadata record per
    key, with the key, the creation time and the size. *)
Fixpoint listMetadata (bucketName : string) (actualObjects : list string)
    (results : list ObjectMetadata.t)
  : Op D (result Error (list ObjectMetadata.t)) :=
  match actualObjects with
  | [] => mret (Ok results)
  | objectName :: rest =>
      r ← reading (CallGetObjectMetadata bucketName objectName)
                  (λ s, donut.GetObjectMetadata s bucketName objectName);
      match r with
      | Err e => mret (Err (Lower e))
      | Ok objectMetadata =>
          let metadata :=
            ObjectMetadata.mk "" objectName ""
              (donut.ObjectMetadata.Created objectMetadata) ""
              (donut.ObjectMetadata.Size objectMetadata) in
          listMetadata bucketName rest (results ++ [metadata])
      end
  end.

(** ListObjects - returns list of objects *)
Definition ListObjects (bucketName : string)
    (resources : BucketResourcesMetadata.t)
  : Op D (result Error (list ObjectMetadata.t * BucketResourcesMetadata.t)) :=
  isNil ← donutIsNil;
  if isNil : bool then mret (Err InternalError) else
  if negb (IsValidBucket bucketName) || GoStrings.Contains bucketName "."
  then mret (Err (BucketNameInvalid bucketName)) else
  if negb (IsValidObjectName (BucketResourcesMetadata.Prefix resources))
  then mret (Err (ObjectNameInvalid
                    (BucketResourcesMetadata.Prefix resources))) else
  r ← reading (CallListObjects bucketName
                 (BucketResourcesMetadata.Prefix resources)
                 (BucketResourcesMetadata.Marker resources)
                 (BucketResourcesMetadata.Delimiter resources)
                 (BucketResourcesMetadata.Maxkeys resources))
              (λ s, donut.ListObjects s bucketName
                      (BucketResourcesMetadata.Prefix resources)
                      (BucketResourcesMetadata.Marker resources)
                      (BucketResourcesMetadata.Delimiter resources)
                      (BucketResourcesMetadata.Maxkeys resources));
  match r with
  | Err e => mret (Err (Lower e))
  | Ok (actualObjects, commonPrefixes, isTruncated) =>
      let resources :=
        BucketResourcesMetadata.setIsTruncated isTruncated
          (BucketResourcesMetadata.setCommonPrefixes commonPrefixes
             resources) in
      resources ←
        (if BucketResourcesMetadata.IsTruncated resources
            && IsDelimiterSet resources
         then
           last ← lift (index actualObjects
                          (Z.of_nat (length actualObjects) - 1));
           mret (BucketResourcesMetadata.setNextMarker last resources)
         else mret resources);
      listed ← listMetadata bucketName actualObjects [];
      match listed with
      | Err e => mret (Err e)
      | Ok results =>
          mret (Ok (GoSort.Sort byObjectKey_Less results, resources))
      end
  end.

(** CreateObject creates a new object *)
Definition CreateObject (bucketName objectName contentType
    expectedMD5Sum : string) (size : Z) (reader : GoIO.Reader)
  : Op D (result Error string) :=
  isNil ← donutIsNil;
  if isNil : bool then mret (Err InternalError) else
  if negb (IsValidBucket bucketName) || GoStrings.Contains bucketName "."
  then mret (Err (BucketNameInvalid bucketName)) else
  if negb (IsValidObjectName objectName)
     || String.eqb (GoStrings.TrimSpace objectName) ""
  then mret (Err (ObjectNameInvalid objectName)) else
  let contentType :=
    if String.eqb (GoStrings.TrimSpace contentType) ""
    then "application/octet-stream" else contentType in
  let metadata : gmap string string :=
    <[ "contentLength" := GoStrconv.FormatInt size ]>
      (<[ "contentType" := GoStrings.TrimSpace contentType ]> ∅) in
  let put (expectedMD5Sum : string) : Op D (result Error string) :=
    r ← writing (CallPutObject bucketName objectName expectedMD5Sum metadata)
                (λ s, donut.PutObject s bucketName objectName
                        expectedMD5Sum reader metadata);
    match r with
    | Err e => mret (Err (Lower e))
    | Ok calculatedMD5Sum => mret (Ok calculatedMD5Sum)
    end in
  if negb (String.eqb (GoStrings.TrimSpace expectedMD5Sum) "") then
    match GoBase64.DecodeString (GoStrings.TrimSpace expectedMD5Sum) with
    | None => mret (Err CorruptInput)
    | Some expectedMD5SumBytes =>
        put (GoHex.EncodeToString expectedMD5SumBytes)
    end
  else put expectedMD5Sum.

Definition ListMultipartUploads (bucket : string) : Op D (option Error) :=
  mret (Some (APINotImplemented "ListMultipartUploads")).
Definition NewMultipartUpload (bucket key contentType : string)
  : Op D (result Error string) :=
  mret (Err (APINotImplemented "NewMultipartUpload")).
Definition CreateObjectPart (bucket key uploadID : string) (partID : Z)
    (contentType expectedMD5Sum : string) (size : Z)
  : Op D (result Error string) :=
  mret (Err (APINotImplemented "CreateObjectPart")).
Definition CompleteMultipartUpload (bucket key uploadID : string)
  : Op D (result Error string) :=
  mret (Err (APINotImplemented "CompleteMultipartUpload")).
Definition ListObjectParts (bucket key : string) : Op D (option Error) :=
  mret (Some (APINotImplemented "ListObjectParts")).
Definition AbortMultipartUpload (bucket key uploadID : string)
  : Op D (option Error) :=
  mret (Some (APINotImplemented "AbortMultipartUpload")).
End Driver.
End driver.

(** ** pkg/storage/donut/disk/disk.go *)

Module disk.

(** [syscall.Errno], by its number. *)
Definition Errno : Type := Z.
Definition ENOENT : Errno := 2.
Definition ENOTDIR : Errno := 20.

Inductive Error :=
| InvalidArgument
| UnsupportedFilesystem (fsType : string)
| SysError (e : Errno).

Record Statfs_t := mkStatfs {
  Type_ : Z;
  Bsize : Z;
  Blocks : Z;
  Bfree : Z
}.

Record FileInfo := mkFileInfo {
  IsDir : bool;
  IsRegular : bool
}.

(** The file system as the two system calls of [New] see it. *)
Class OS := {
  Statfs : string → result Errno Statfs_t;
  Stat : string → result Errno FileInfo
}.

(** [getFSType] maps the magic number of a file system to its name and
    every other number to "UNKNOWN"; its table is declared outside the
    files at hand, so [New] is parametric in it. *)
Class FSTable := {
  getFSType : Z → string
}.

(** Disk container for disk parameters *)
Record Disk := mkDisk {
  path : string;
  fsInfo : gmap string string
}.

Section Disk.
Context `{OS} `{FSTable}.

(** New - instantiate new disk *)
Definition New (diskPath : string) : result Error Disk :=
  if String.eqb diskPath "" then Err InvalidArgument else
  match Statfs diskPath with
  | Err e => Err (SysError e)
  | Ok s =>
      match Stat diskPath with
      | Err e => Err (SysError e)
      | Ok st =>
          if negb (IsDir st) then Err (SysError ENOTDIR) else
          let fsType := getFSType (Type_ s) in
          if negb (String.eqb fsType "UNKNOWN") then
            Ok (mkDisk diskPath
                  (<[ "MountPoint" := diskPath ]>
                     (<[ "FSType" := fsType ]> ∅)))
          else
            Err (UnsupportedFilesystem (GoStrconv.FormatInt (Type_ s)))
      end
  end.

(** GetPath - get root disk path *)
Definition GetPath (d : Disk) : string := path d.
End Disk.

Section Files.
Context {FS File : Type} `{!GoOS.FileSystem FS File}.

(** MakeDir - make a directory inside disk root path *)
Definition MakeDir (disk : Disk) (dirname : string)
  : GoOS.IO FS File (option Error) :=
  err ← GoOS.MkdirAll (GoFilepath.Join [path disk; dirname]) GoOS.perm0700;
  mret (SysError <$> err).

(** ListDir - list a directory inside disk root path, get only
    directories.  [defer dir.Close()] runs on the way out, once the
    directory is opened. *)
Definition ListDir (disk : Disk) (dirname : string)
  : GoOS.IO FS File (result Error (list GoOS.FileInfo.t)) :=
  opened ← GoOS.Open (GoFilepath.Join [path disk; dirname]);
  match opened with
  | Err err => mret (Err (SysError err))
  | Ok dir =>
      contents ← GoOS.Readdir dir (-1);
      _ ← GoOS.Close dir;
      match contents with
      | Err err => mret (Err (SysError err))
      | Ok contents =>
          (* Include only directories, ignore everything else *)
          mret (Ok (List.filter GoOS.FileInfo.IsDir contents))
      end
  end.

(** ListFiles - list a directory inside disk root path, get only files *)
Definition ListFiles (disk : Disk) (dirname : string)
  : GoOS.IO FS File (result Error (list GoOS.FileInfo.t)) :=
  opened ← GoOS.Open (GoFilepath.Join [path disk; dirname]);
  match opened with
  | Err err => mret (Err (SysError err))
  | Ok dir =>
      contents ← GoOS.Readdir dir (-1);
      _ ← GoOS.Close dir;
      match contents with
      | Err err => mret (Err (SysError err))
      | Ok contents =>
          (* Include only regular files, ignore everything else *)
          mret (Ok (List.filter
                      (λ content,
                         GoOS.FileMode.IsRegular (GoOS.FileInfo.Mode content))
                      contents))
      end
  end.

(** CreateFile - create a file inside disk root path *)
Definition CreateFile (disk : Disk) (filename : string)
  : GoOS.IO FS File (result Error File) :=
  if String.eqb filename "" then mret (Err InvalidArgument) else
  let filePath := GoFilepath.Join [path disk; filename] in
  (* Create directories if they don't exist *)
  err ← GoOS.MkdirAll (GoFilepath.Dir filePath) GoOS.perm0700;
  match err with
  | Some err => mret (Err (SysError err))
  | None =>
      dataFile ← GoOS.OpenFile filePath
                   (Z.lor GoOS.O_WRONLY GoOS.O_CREATE) GoOS.perm0600;
      match dataFile with
      | Err err => mret (Err (SysError err))
      | Ok dataFile => mret (Ok dataFile)
      end
  end.

(** OpenFile - read a file inside disk root path *)
Definition OpenFile (disk : Disk) (filename : string)
  : GoOS.IO FS File (result Error File) :=
  if String.eqb filename "" then mret (Err InvalidArgument) else
  dataFile ← GoOS.Open (GoFilepath.Join [path disk; filename]);
  match dataFile with
  | Err err => mret (Err (SysError err))
  | Ok dataFile => mret (Ok dataFile)
  end.
End Files.
End disk.

(** ** Instances to run the embedding on *)

(** Two orders in which [range] may visit a map. *)
Program Definition ascending : RangeOrder :=
  {| range := λ A m, map_to_list m |}.
Next Obligation. reflexivity. Qed.

Program Definition descending : RangeOrder :=
  {| range := λ A m, reverse (map_to_list m) |}.
Next Obligation. intros A m. apply reverse_Permutation. Qed.

(** The orders that visit a given key first, and last, when the map
    holds it. *)
Definition rangeKeyFirst {A : Type} (key : string) (m : gmap string A)
  : list (string * A) :=
  match m !! key with
  | Some v => (key, v) :: map_to_list (delete key m)
  | None => map_to_list m
  end.

Definition rangeKeyLast {A : Type} (key : string) (m : gmap string A)
  : list (string * A) :=
  match m !! key with
  | Some v => map_to_list (delete key m) ++ [(key, v)]
  | None => map_to_list m
  end.

Program Definition keyFirst (key : string) : RangeOrder :=
  {| range := λ A m, rangeKeyFirst key m |}.
Next Obligation.
  intros key A m. unfold rangeKeyFirst.
  destruct (m !! key) as [v|] eqn:Hkey; [|reflexivity].
  exact (map_to_list_delete m key v Hkey).
Qed.

Program Definition keyLast (key : string) : RangeOrder :=
  {| range := λ A m, rangeKeyLast key m |}.
Next Obligation.
  intros key A m. unfold rangeKeyLast.
  destruct (m !! key) as [v|] eqn:Hkey; [|reflexivity].
  rewrite <- (map_to_list_delete m key v Hkey).
  apply (Permutation_app_comm _ [(key, v)]).
Qed.

Module specmodel.

Definition bucketChar (c : ascii) : bool :=
  let n := N_of_ascii c in
  ((97 <=? n) && (n <=? 122) || (48 <=? n) && (n <=? 57) || (n =? 45))%N.

(** Modelled from the spec: the helpers of package drivers are
    declared outside the files at hand.  A bucket name is made of
    "lowercase letters, digits, hyphens; 3-63 chars"; the ACLs are
    "exactly {private, public-read, public-read-write,
    authenticated-read}" and "empty string defaults to private"; of the
    object-name predicate nothing more is said, and every name is
    accepted here; the next marker is set "when a delimiter is set",
    taken here as a delimiter that is not the empty string. *)
Definition helpers : drivers.Helpers := {|
  drivers.IsValidBucket := λ name,
    forallb bucketChar (list_ascii_of_string name)
    && (3 <=? Z.of_nat (String.length name))
    && (Z.of_nat (String.length name) <=? 63);
  drivers.IsValidObjectName := λ _, true;
  drivers.IsValidBucketACL := λ acl,
    bool_decide (acl ∈ [""; "private"; "public-read"; "public-read-write";
                        "authenticated-read"]);
  drivers.IsDelimiterSet := λ v,
    negb (String.eqb (drivers.BucketResourcesMetadata.Delimiter v) "")
|}.

(** A store in memory: the buckets, the objects with their payload,
    and the answer [ListObjects] gives (the listing algorithm plays no
    part in what follows, so its answer is a field). *)
Record Store := mkStore {
  buckets : gmap string donut.BucketMetadata.t;
  objects : gmap (string * string) (list byte * donut.ObjectMetadata.t);
  listing : list string * list string * bool;
  clock : Z
}.

Section Store.
(** The MD5 digest in lowercase hexadecimal. *)
Variable md5hex : list byte → string.

(** Modelled from the spec: the write pipeline of the donut layer
    ([PutObject]) is not among the files at hand.  It keeps "a
    running MD5 over the raw payload"; "on end-of-stream, if the
    running MD5 is not the expected MD5 (when supplied), delete all
    shards for this object and fail with BadDigest"; otherwise it
    writes the per-object metadata and returns the calculated MD5.
    An expected MD5 is supplied when it is not the empty string. *)
Definition PutObject (s : Store) (bucket object expectedMD5Sum : string)
    (reader : GoIO.Reader) (metadata : gmap string string)
  : result donut.Error string * Store :=
  match GoIO.failure reader with
  | Some msg => (Err (donut.IOFailure msg), s)
  | None =>
      let payload := GoIO.pending reader in
      let calculated := md5hex payload in
      if negb (String.eqb expectedMD5Sum "")
         && negb (String.eqb expectedMD5Sum calculated)
      then (Err donut.BadDigest, s)
      else
        (Ok calculated,
         mkStore (buckets s)
           (<[ (bucket, object) :=
                 (payload,
                  donut.ObjectMetadata.mk metadata (clock s) calculated
                    (Z.of_nat (length payload))) ]> (objects s))
           (listing s) (clock s + 1))
  end.

Definition store_donut : donut.Donut Store := {|
  donut.ListBuckets := λ s, Ok (buckets s);
  donut.MakeBucket := λ s name acl,
    match buckets s !! name with
    | Some _ => (Some donut.BucketExists, s)
    | None =>
        (None,
         mkStore (<[ name := donut.BucketMetadata.mk (clock s) acl ]>
                    (buckets s))
                 (objects s) (listing s) (clock s + 1))
    end;
  donut.GetBucketMetadata := λ s name,
    match buckets s !! name with
    | Some md => Ok md
    | None => Err donut.BucketNotFound
    end;
  donut.SetBucketMetadata := λ s name metadata,
    match buckets s !! name with
    | Some md =>
        (None,
         mkStore (<[ name := donut.BucketMetadata.mk
                               (donut.BucketMetadata.Created md)
                               (default "" (metadata !! "acl")) ]>
                    (buckets s))
                 (objects s) (listing s) (clock s))
    | None => (Some donut.BucketNotFound, s)
    end;
  donut.GetObject := λ s bucket object,
    match objects s !! (bucket, object) with
    | Some (payload, md) =>
        Ok (GoIO.Build_Reader payload None, donut.ObjectMetadata.Size md)
    | None => Err donut.ObjectNotFound
    end;
  donut.GetObjectMetadata := λ s bucket object,
    match objects s !! (bucket, object) with
    | Some (_, md) => Ok md
    | None => Err donut.ObjectNotFound
    end;
  donut.ListObjects := λ s _ _ _ _ _, Ok (listing s);
  donut.PutObject := PutObject
|}.
End Store.
End specmodel.

(** The values the examples below are run on. *)
Module example.
Import specmodel.

(** A digest function standing for MD5 in the examples (the bytes
    themselves in hexadecimal); no property below depends on which
    function it is. *)
Definition digest (payload : list byte) : string :=
  GoHex.EncodeToString payload.

Definition abc : list byte := [x61; x62; x63]%byte.

Definition store : Store :=
  mkStore
    (<[ "photos" := donut.BucketMetadata.mk 1 "private" ]>
       (<[ "music" := donut.BucketMetadata.mk 2 "public-read" ]> ∅))
    (<[ ("photos", "cat") :=
          (abc,
           donut.ObjectMetadata.mk
             (<[ "contentType" := "image/jpeg" ]> ∅) 7
             "900150983cd24fb0d6963f7d28e17f72" 3) ]> ∅)
    (["cat"], [], false)
    10.

(** The same store answering a listing with no key, one common prefix
    and the truncation flag. *)
Definition truncated : Store :=
  mkStore (buckets store) (objects store) ([], ["a/"], true) (clock store).

Definition opened (s : Store) : driver.donutDriver Store :=
  driver.mkDriver (Some s) ["/mnt/disk"].

Definition closed : driver.donutDriver Store :=
  driver.mkDriver None ["/mnt/disk"].


(** A file system with a directory on ext4 (magic number 0xEF53), a
    regular file on it, and a directory on a file system that the
    table does not know. *)
Definition os : disk.OS := {|
  disk.Statfs := λ p,
    if String.eqb p "/mnt/disk" then Ok (disk.mkStatfs 61267 4096 1000 500)
    else if String.eqb p "/mnt/file" then Ok (disk.mkStatfs 61267 4096 1000 500)
    else if String.eqb p "/mnt/other" then Ok (disk.mkStatfs 4919 4096 1000 500)
    else Err disk.ENOENT;
  disk.Stat := λ p,
    if String.eqb p "/mnt/disk" then Ok (disk.mkFileInfo true false)
    else if String.eqb p "/mnt/file" then Ok (disk.mkFileInfo false true)
    else if String.eqb p "/mnt/other" then Ok (disk.mkFileInfo true false)
    else Err disk.ENOENT
|}.

Definition fstable : disk.FSTable := {|
  disk.getFSType := λ t, if t =? 61267 then "EXT4" else "UNKNOWN"
|}.
End example.

(** A store for the examples on listings: the bucket photos holds two
    objects, and the store lists them, for the request below, the later
    key first, with a common prefix and more to come. *)
Module catalogue.

Definition dog : list byte := [x64; x6f; x67; x73]%byte.

Definition store : specmodel.Store :=
  specmodel.mkStore
    (specmodel.buckets example.store)
    (<[ ("photos", "pets-dog") :=
          (dog,
           donut.ObjectMetadata.mk
             (<[ "contentType" := "image/png" ]> ∅) 9
             "0cc175b9c0f1b6a831c399e269772661" 4) ]>
       (<[ ("photos", "pets-cat") :=
             (example.abc,
              donut.ObjectMetadata.mk
                (<[ "contentType" := "image/jpeg" ]> ∅) 7
                "900150983cd24fb0d6963f7d28e17f72" 3) ]> ∅))
    (["pets-dog"; "pets-cat"], ["pets-a/"], true)
    10.

(** prefix=pets-, marker=pets-b, max-keys=2, delimiter=/,
    encoding-type=url *)
Definition request : drivers.BucketResourcesMetadata.t :=
  drivers.BucketResourcesMetadata.mk "pets-" "pets-b" "" 2 "/" false [] "url".

Definition cat : drivers.ObjectMetadata.t :=
  drivers.ObjectMetadata.mk "" "pets-cat" "" 7 "" 3.
Definition dogRecord : drivers.ObjectMetadata.t :=
  drivers.ObjectMetadata.mk "" "pets-dog" "" 9 "" 4.

(** What ListObjects answers on this store and request. *)
Definition answer : drivers.BucketResourcesMetadata.t :=
  drivers.BucketResourcesMetadata.mk "pets-" "pets-b" "pets-cat" 2 "/" true
    ["pets-a/"] "url".

Definition calls : list driver.Call :=
  [driver.CallListObjects "photos" "pets-" "pets-b" "/" 2;
   driver.CallGetObjectMetadata "photos" "pets-dog";
   driver.CallGetObjectMetadata "photos" "pets-cat"].
End catalogue.

(** A file system in memory for the examples on disks: the state is
    the list of the directories that exist, an open file is the path it
    was opened with, and every directory holds the same three entries:
    a directory, a regular file and a symbolic link. *)
Module memfs.

Definition FS : Type := list string.
Definition File : Type := string.

Definition entries : list GoOS.FileInfo.t :=
  [GoOS.FileInfo.mk "bucket" 4096 (Z.lor GoOS.FileMode.ModeDir 448) 1;
   GoOS.FileInfo.mk "object" 3 384 2;
   GoOS.FileInfo.mk "link" 6 (Z.lor GoOS.FileMode.ModeSymlink 511) 3].

Definition fileSystem : GoOS.FileSystem FS File := {|
  GoOS.stat := λ name fs,
    if bool_decide (name ∈ fs)
    then Ok (GoOS.FileInfo.mk name 4096 (Z.lor GoOS.FileMode.ModeDir 448) 1)
    else Err GoOS.ENOENT;
  GoOS.mkdirAll := λ path perm fs, (None, path :: fs);
  GoOS.openFile := λ name flag perm fs,
    if bool_decide (name ∈ fs) then (Ok name, fs) else (Err GoOS.ENOENT, fs);
  GoOS.readdir := λ f n fs, (Ok entries, fs);
  GoOS.close := λ f fs, (None, fs)
|}.

Definition disk0 : disk.Disk := disk.mkDisk "/mnt/disk" ∅.

Definition mounted : FS := ["/mnt/disk"].
End memfs.

(** ** Vocabulary of the statements *)

(** A digit of lowercase hexadecimal. *)
Definition lowerHex (c : ascii) : bool :=
  let n := N_of_ascii c in
  ((48 <=? n) && (n <=? 57) || (97 <=? n) && (n <=? 102))%N.

(** The orders of [byBucketName] and [byObjectKey]: by a string key. *)
Definition keyLess {A : Type} (key : A → string) (a b : A) : bool :=
  String.ltb (key a) (key b).
Definition keyLe {A : Type} (key : A → string) (a b : A) : Prop :=
  String.leb (key a) (key b) = true.
Definition keyLt {A : Type} (key : A → string) (a b : A) : Prop :=
  String.ltb (key a) (key b) = true.

(** The record [ListBuckets] builds for an entry of the store's map. *)
Definition bucketRecord (e : string * donut.BucketMetadata.t)
  : drivers.BucketMetadata.t :=
  drivers.BucketMetadata.mk e.1 (donut.BucketMetadata.Created e.2) "".

(** What a record of the listing holds: the key, and of the stored
    metadata the creation time and the size; the bucket, the content
    type and the MD5 digest are left empty. *)
Definition listedRecord {D : Type} `{!donut.Donut D} (s : D)
    (bucketName : string) (r : drivers.ObjectMetadata.t) : Prop :=
  drivers.ObjectMetadata.Md5 r = ""
  ∧ drivers.ObjectMetadata.Bucket r = ""
  ∧ drivers.ObjectMetadata.ContentType r = ""
  ∧ ∃ stored,
      donut.GetObjectMetadata s bucketName (drivers.ObjectMetadata.Key r)
      = Ok stored
      ∧ drivers.ObjectMetadata.Created r = donut.ObjectMetadata.Created stored
      ∧ drivers.ObjectMetadata.Size r = donut.ObjectMetadata.Size stored.

(** The metadata map handed to the store for a content type and a
    size. *)
Definition objectMetadata (contentType : string) (size : Z)
  : gmap string string :=
  <[ "contentLength" := GoStrconv.FormatInt size ]>
    (<[ "contentType" := contentType ]> ∅).

(** One call of [PutObject] on the store [s] and what the driver makes
    of its answer. *)
Definition putOutcome {D : Type} `{!donut.Donut D} (s : D) (ps : list string)
    (bucketName objectName expectedMD5Sum : string) (reader : GoIO.Reader)
    (metadata : gmap string string)
  : outcome (result drivers.Error string * driver.donutDriver D
             * list driver.Call) :=
  let answer := donut.PutObject s bucketName objectName expectedMD5Sum
                  reader metadata in
  Ret (match answer.1 with
       | Err e => Err (drivers.Lower e)
       | Ok calculatedMD5Sum => Ok calculatedMD5Sum
       end,
       driver.mkDriver (Some answer.2) ps,
       [driver.CallPutObject bucketName objectName expectedMD5Sum metadata]).

(** ** More vocabulary: what the query parsers compute *)



(** The keys that [getBucketResources] and [getObjectResources] read. *)
Definition bucketKeys : list string :=
  ["prefix"; "marker"; "max-keys"; "delimiter"; "encoding-type"].
Definition objectKeys : list string :=
  ["uploadId"; "part-number-marker"; "max-parts"; "encoding-type"].



(** ** Vocabulary on paths: a path by its elements *)

Module paths.

(** The elements of a path: the runs of bytes between separators, the
    empty ones included. *)
Fixpoint split (p : list ascii) : list (list ascii) :=
  match p with
  | [] => [[]]
  | c :: p' =>
      if GoFilepath.IsPathSeparator c then [] :: split p'
      else match split p' with
           | e :: es => (c :: e) :: es
           | [] => [[c]]
           end
  end.

Definition elements (path : string) : list string :=
  string_of_list_ascii <$> split (list_ascii_of_string path).

Definition dot : list ascii := ["."%char].
Definition dotdot : list ascii := ["."%char; "."%char].

(** What [Clean] does to its buffer for one element of the path. *)
Definition addSeparator (rooted : bool) (out : list ascii) : list ascii :=
  let w := length out in
  if rooted && negb (w =? 1)%nat || negb rooted && negb (w =? 0)%nat
  then GoFilepath.Separator :: out else out.

Definition step (rooted : bool) (st : list ascii * nat) (e : list ascii)
  : list ascii * nat :=
  if bool_decide (e = [] ∨ e = dot) then st
  else if bool_decide (e = dotdot) then
    if (st.2 <? length st.1)%nat then (GoFilepath.backtrack st.2 st.1, st.2)
    else if negb rooted then
      let out := if (0 <? length st.1)%nat
                 then GoFilepath.Separator :: st.1 else st.1 in
      let out := "."%char :: "."%char :: out in
      (out, length out)
    else st
  else (rev e ++ addSeparator rooted st.1, st.2).

(** The cleaned path as a number of leading ".." elements and a stack
    of names, the last one on top. *)
Definition stepNames (rooted : bool) (st : nat * list (list ascii))
    (e : list ascii) : nat * list (list ascii) :=
  if bool_decide (e = [] ∨ e = dot) then st
  else if bool_decide (e = dotdot) then
    match st.2 with
    | _ :: below => (st.1, below)
    | [] => if rooted then st else (S st.1, [])
    end
  else (st.1, e :: st.2).

Fixpoint bufUps (ups : nat) : list ascii :=
  match ups with
  | O => []
  | S k =>
      "."%char :: "."%char
      :: (if (0 <? length (bufUps k))%nat
          then GoFilepath.Separator :: bufUps k else bufUps k)
  end.

(** The buffer of [Clean], last byte first, for such a path. *)
Fixpoint buf (rooted : bool) (ups : nat) (names : list (list ascii))
  : list ascii :=
  match names with
  | [] => if rooted then [GoFilepath.Separator] else bufUps ups
  | e :: below => rev e ++ addSeparator rooted (buf rooted ups below)
  end.

Definition namesOf (rooted : bool) (p : list ascii) : nat * list (list ascii) :=
  foldl (stepNames rooted) (O, []) (split p).

Definition sepfree (e : list ascii) : Prop :=
  Forall (λ c, GoFilepath.IsPathSeparator c = false) e.

Definition real (e : list ascii) : Prop :=
  e ≠ [] ∧ e ≠ dot ∧ e ≠ dotdot ∧ sepfree e.

Definition render (rooted : bool) (st : nat * list (list ascii)) : string :=
  let out := buf rooted st.1 st.2 in
  string_of_list_ascii (rev (match out with [] => ["."%char] | _ => out end)).

(** The path as [Clean] reads it: rooted or not, and the elements after
    the leading separator. *)
Definition isRooted (path : string) : bool :=
  match list_ascii_of_string path with
  | c :: _ => GoFilepath.IsPathSeparator c
  | [] => false
  end.

Definition pathNames (path : string) : nat * list (list ascii) :=
  match list_ascii_of_string path with
  | c :: rest =>
      if GoFilepath.IsPathSeparator c then namesOf true rest
      else namesOf false (c :: rest)
  | [] => (O, [])
  end.

(** [p] is [root] or lies below it. *)
Definition under (root p : string) : Prop :=
  ∃ rest, p = root +:+ rest
          ∧ (rest = "" ∨ root = "/" ∨ GoStrings.HasPrefix rest "/" = true).

Definition startsElement (l : list ascii) : Prop :=
  match l with
  | c :: _ => GoFilepath.IsPathSeparator c = false
  | [] => True
  end.

Definition isDigit (c : ascii) : bool :=
  let n := N_of_ascii c in ((48 <=? n) && (n <=? 57))%N.

(** Paths and what the Go library gives for them: [Clean] (from the
    table of its tests), [Dir] and [Join] (from their documentation). *)
Definition cleanTable : list (string * string) :=
  [("abc", "abc"); ("abc/def", "abc/def"); ("a/b/c", "a/b/c"); (".", ".");
   ("..", ".."); ("../..", "../.."); ("../../abc", "../../abc");
   ("/abc", "/abc"); ("/", "/"); ("", "."); ("abc/", "abc");
   ("abc/def/", "abc/def"); ("a/b/c/", "a/b/c"); ("./", "."); ("../", "..");
   ("../../", "../.."); ("/abc/", "/abc"); ("abc//def//ghi", "abc/def/ghi");
   ("//abc", "/abc"); ("///abc", "/abc"); ("//abc//", "/abc");
   ("abc//", "abc"); ("abc/./def", "abc/def"); ("/./abc/def", "/abc/def");
   ("abc/.", "abc"); ("abc/def/ghi/../jkl", "abc/def/jkl");
   ("abc/def/../ghi/../jkl", "abc/jkl"); ("abc/def/..", "abc");
   ("abc/def/../..", "."); ("/abc/def/../..", "/");
   ("abc/def/../../..", ".."); ("/abc/def/../../..", "/");
   ("abc/def/../../../ghi/jkl/../../../mno", "../../mno");
   ("/../abc", "/abc"); ("abc/./../def", "def"); ("abc//./../def", "def");
   ("abc/../../././../def", "../../def")].

Definition dirTable : list (string * string) :=
  [("/foo/bar/baz.js", "/foo/bar"); ("/foo/bar/baz", "/foo/bar");
   ("/foo/bar/baz/", "/foo/bar/baz"); ("dev.txt", ".");
   ("../todo.txt", ".."); ("..", "."); (".", "."); ("/", "/"); ("", ".")].

Definition joinTable : list (list string * string) :=
  [(["a"; "b"; "c"], "a/b/c"); (["a"; "b/c"], "a/b/c");
   (["a/b"; "c"], "a/b/c"); (["a/b"; "/c"], "a/b/c");
   (["a/b"; "../../../xyz"], "../xyz"); (["a"; ""], "a"); ([""; "b"], "b");
   ([""; ""], ""); (["/"; "a"], "/a")].

End paths.

(** A call on the file system that names a path names one at or below
    [root]. *)
Definition confined {File : Type} (root : string) (c : GoOS.Call File)
  : Prop :=
  ∀ p, GoOS.callPath c = Some p → paths.under root p.

(** A name of a file or directory that has an element other than "."
    and the empty one. *)
Definition namesSomething (name : string) : Prop :=
  ∃ e, e ∈ paths.elements name ∧ e ≠ "" ∧ e ≠ ".".

(** What the layout of one disk asks of the file system [fs], and the
    file system [fs'] it leaves: Stat on the path and, when Stat
    answers that there is no such file or directory, MkdirAll on it with
    permissions 0700; on every other answer of Stat, nothing more. *)
Definition diskVisit {FS File : Type} `{!GoOS.FileSystem FS File}
    (fs : FS) (diskPath : string) (calls : list (GoOS.Call File)) (fs' : FS)
  : Prop :=
  (GoOS.stat diskPath fs = Err GoOS.ENOENT
   ∧ calls = [GoOS.CallStat diskPath;
              GoOS.CallMkdirAll diskPath GoOS.perm0700]
   ∧ fs' = (GoOS.mkdirAll diskPath GoOS.perm0700 fs).2)
  ∨ (GoOS.stat diskPath fs ≠ Err GoOS.ENOENT
     ∧ calls = [GoOS.CallStat diskPath]
     ∧ fs' = fs).

(** The disks visited in turn, each on the file system that the one
    before left. *)
Fixpoint diskVisits {FS File : Type} `{!GoOS.FileSystem FS File}
    (fs : FS) (disks : list string) (visits : list (list (GoOS.Call File)))
    (fs' : FS) : Prop :=
  match disks, visits with
  | [], [] => fs' = fs
  | diskPath :: disks, calls :: visits =>
      ∃ fs1, diskVisit fs diskPath calls fs1
             ∧ diskVisits fs1 disks visits fs'
  | _, _ => False
  end.

(** * Properties *)

(** ** 64-bit arithmetic *)

Lemma int64_wrap_id (z : Z) : is_int64 z → int64_wrap z = z.
Proof.
  unfold is_int64, int64_wrap, minInt64, maxInt64. intros Hz.
  rewrite Z.mod_small by lia. lia.
Qed.

Lemma int64_wrap_range (z : Z) : is_int64 (int64_wrap z).
Proof.
  unfold is_int64, int64_wrap, minInt64, maxInt64.
  pose proof (Z.mod_pos_bound (z + 2 ^ 63) (2 ^ 64)). lia.
Qed.

(** The last offset of a range, [start+length-1] as the machine computes
    it, is the integer [start + length - 1] whenever that one fits in 64
    bits (the sum [start + length] itself may overflow on the way). *)
Lemma last_offset_exact (start length : Z) :
  is_int64 (start + length - 1) →
  int64_sub (int64_add start length) 1 = start + length - 1.
Proof.
  intros Hfit. unfold int64_sub, int64_add, int64_wrap.
  replace ((start + length + 2 ^ 63) mod 2 ^ 64 - 2 ^ 63 - 1 + 2 ^ 63)
    with ((start + length + 2 ^ 63) mod 2 ^ 64 - 1) by lia.
  rewrite Zminus_mod_idemp_l.
  replace (start + length + 2 ^ 63 - 1) with (start + length - 1 + 2 ^ 63) by lia.
  apply (int64_wrap_id _ Hfit).
Qed.

(** ** The range check of GetPartialObject *)

Section PartialObject.
Import drivers driver.
Context `{RangeOrder} `{Helpers} {D : Type} `{!donut.Donut D}.

Lemma GetPartialObject_existing (s : D) (ps : list string)
    (bucketName objectName : string) (start length : Z)
    (reader : GoIO.Reader) (size : Z) :
  IsValidBucket bucketName = true →
  GoStrings.Contains bucketName "." = false →
  IsValidObjectName objectName = true →
  GoStrings.TrimSpace objectName ≠ "" →
  donut.GetObject s bucketName objectName = Ok (reader, size) →
  GetPartialObject bucketName objectName start length (mkDriver (Some s) ps)
  = if start <? 0
    then Ret ([], (0, Some (InvalidRange start length)),
              mkDriver (Some s) ps, [])
    else if (start >? size)
            || (int64_sub (int64_add start length) 1 >? size)
    then Ret ([], (0, Some (InvalidRange start length)),
              mkDriver (Some s) ps, [CallGetObject bucketName objectName])
    else Ret (copyRange reader start length,
              mkDriver (Some s) ps, [CallGetObject bucketName objectName]).
Proof.
  intros Hb Hdot Ho Hblank Hget.
  apply String.eqb_neq in Hblank.
  unfold GetPartialObject, mbind, Op_bind, donutIsNil, reading, mret, Op_ret.
  simpl. rewrite Hb, Hdot, Ho, Hblank. simpl.
  destruct (start <? 0); [reflexivity|].
  cbn. rewrite Hget.
  destruct ((start >? size) || _); reflexivity.
Qed.

Lemma copyRange_not_InvalidRange (reader : GoIO.Reader) (start length a b : Z) :
  (copyRange reader start length).2.2 ≠ Some (InvalidRange a b).
Proof.
  unfold copyRange.
  destruct (GoIO.CopyN reader start) as [[o1 r1] [n1 [e1|]]]; [discriminate|].
  destruct (GoIO.CopyN r1 length) as [[o2 r2] [n2 [e2|]]]; discriminate.
Qed.

Local Ltac refused :=
  split; [reflexivity|];
  split; [split; [intros _; lia|reflexivity]|];
  split; [intros Hn; exfalso; apply Hn; lia|assumption].

(** The range check in the arithmetic of the code.  On an existing
    object of size [size] (valid names, store opened) GetPartialObject
    returns, and its error is InvalidRange exactly when [start < 0], or
    [start > size], or [start + length - 1 > size], the last sum taken
    in 64 bits; otherwise the range is accepted and the result is that
    of the copying stage on the object's reader.  When
    [start + length - 1] fits in 64 bits the condition is the one on
    the integers. *)
Lemma GetPartialObject_InvalidRange_iff (s : D) (ps : list string)
    (bucketName objectName : string) (start length : Z)
    (reader : GoIO.Reader) (size : Z) :
  IsValidBucket bucketName = true →
  GoStrings.Contains bucketName "." = false →
  IsValidObjectName objectName = true →
  GoStrings.TrimSpace objectName ≠ "" →
  donut.GetObject s bucketName objectName = Ok (reader, size) →
  ∃ out n err t,
    GetPartialObject bucketName objectName start length
      (mkDriver (Some s) ps)
    = Ret (out, (n, err), mkDriver (Some s) ps, t)
    ∧ (err = Some (InvalidRange start length)
       ↔ start < 0 ∨ start > size
         ∨ int64_sub (int64_add start length) 1 > size)
    ∧ (¬ (start < 0 ∨ start > size
          ∨ int64_sub (int64_add start length) 1 > size) →
       (out, (n, err)) = copyRange reader start length
       ∧ t = [CallGetObject bucketName objectName])
    ∧ (is_int64 (start + length - 1) →
       int64_sub (int64_add start length) 1 = start + length - 1).
Proof.
  intros Hb Hdot Ho Hblank Hget.
  rewrite (GetPartialObject_existing s ps _ _ start length reader size)
    by assumption.
  assert (Hexact := last_offset_exact start length).
  destruct (Z.ltb_spec start 0) as [Hneg|Hpos].
  { exists [], 0, (Some (InvalidRange start length)), [].
    refused. }
  destruct (Z.gtb_spec start size) as [Hgt|Hle]; cbn [orb].
  { exists [], 0, (Some (InvalidRange start length)),
      [CallGetObject bucketName objectName].
    refused. }
  destruct (Z.gtb_spec (int64_sub (int64_add start length) 1) size)
    as [Hgt|Hle'].
  { exists [], 0, (Some (InvalidRange start length)),
      [CallGetObject bucketName objectName].
    refused. }
  pose proof (copyRange_not_InvalidRange reader start length start length)
    as Hcopy.
  destruct (copyRange reader start length) as [out [n err]] eqn:Hc.
  exists out, n, err, [CallGetObject bucketName objectName].
  split; [reflexivity|]. split; [|split; [split; reflexivity|exact Hexact]].
  split.
  - intros ->. exfalso. apply Hcopy. reflexivity.
  - intros [?|[?|?]]; lia.
Qed.

(** The copy of a whole stream, then of one more byte. *)
Lemma CopyN_all (reader : GoIO.Reader) :
  GoIO.CopyN reader (Z.of_nat (List.length (GoIO.pending reader)))
  = (GoIO.pending reader,
     GoIO.Build_Reader [] (GoIO.failure reader),
     (Z.of_nat (List.length (GoIO.pending reader)), None)).
Proof.
  unfold GoIO.CopyN. rewrite Z.min_id, Nat2Z.id.
  rewrite firstn_all, drop_all, Z.eqb_refl. reflexivity.
Qed.

Lemma CopyN_drained (f : option string) (n : Z) :
  0 < n →
  GoIO.CopyN (GoIO.Build_Reader [] f) n
  = ([], GoIO.Build_Reader [] f,
     (0, Some (GoIO.endOf (GoIO.Build_Reader [] f)))).
Proof.
  intros Hn. unfold GoIO.CopyN. cbn [GoIO.pending GoIO.failure].
  rewrite take_nil, drop_nil. change (Z.of_nat (List.length [])) with 0.
  destruct (Z.eqb_spec 0 n); [lia|].
  destruct (Z.ltb_spec 0 n); [reflexivity|lia].
Qed.

(** The half of C2 that holds: on an object whose stream has exactly
    [size] bytes, the empty range at [start = size] is served, with no
    byte and no error. *)
Lemma GetPartialObject_empty_at_end (s : D) (ps : list string)
    (bucketName objectName : string) (reader : GoIO.Reader) (size : Z) :
  IsValidBucket bucketName = true →
  GoStrings.Contains bucketName "." = false →
  IsValidObjectName objectName = true →
  GoStrings.TrimSpace objectName ≠ "" →
  donut.GetObject s bucketName objectName = Ok (reader, size) →
  Z.of_nat (List.length (GoIO.pending reader)) = size →
  is_int64 size →
  GetPartialObject bucketName objectName size 0 (mkDriver (Some s) ps)
  = Ret ([], (0, None), mkDriver (Some s) ps,
         [CallGetObject bucketName objectName]).
Proof.
  intros Hb Hdot Ho Hblank Hget Hlen Hsize.
  rewrite (GetPartialObject_existing s ps _ _ size 0 reader size)
    by assumption.
  rewrite last_offset_exact
    by (unfold is_int64, minInt64, maxInt64 in *; lia).
  destruct (Z.ltb_spec size 0); [lia|].
  destruct (Z.gtb_spec size size); [lia|].
  destruct (Z.gtb_spec (size + 0 - 1) size); [lia|]. cbn [orb].
  unfold copyRange. rewrite <- Hlen at 1. rewrite CopyN_all.
  reflexivity.
Qed.

(** C2.  On an object whose stream has exactly [size] bytes, the
    one-byte range at [start = size] passes the range check
    ([size + 1 - 1] is not above [size]): the call discards the whole
    stream, finds no byte left to copy and fails with the end-of-stream
    error, not with InvalidRange. *)
Theorem GetPartialObject_one_past_end (s : D) (ps : list string)
    (bucketName objectName : string) (reader : GoIO.Reader) (size : Z) :
  IsValidBucket bucketName = true →
  GoStrings.Contains bucketName "." = false →
  IsValidObjectName objectName = true →
  GoStrings.TrimSpace objectName ≠ "" →
  donut.GetObject s bucketName objectName = Ok (reader, size) →
  Z.of_nat (List.length (GoIO.pending reader)) = size →
  GoIO.failure reader = None →
  is_int64 size →
  GetPartialObject bucketName objectName size 1 (mkDriver (Some s) ps)
  = Ret ([], (0, Some (IOError GoIO.EOF)), mkDriver (Some s) ps,
         [CallGetObject bucketName objectName]).
Proof.
  intros Hb Hdot Ho Hblank Hget Hlen Hfail Hsize.
  rewrite (GetPartialObject_existing s ps _ _ size 1 reader size)
    by assumption.
  rewrite last_offset_exact
    by (unfold is_int64, minInt64, maxInt64 in *; lia).
  destruct (Z.ltb_spec size 0); [lia|].
  destruct (Z.gtb_spec size size); [lia|].
  destruct (Z.gtb_spec (size + 1 - 1) size); [lia|]. cbn [orb].
  unfold copyRange. rewrite <- Hlen at 1. rewrite CopyN_all.
  rewrite CopyN_drained by lia. unfold GoIO.endOf. cbn.
  rewrite Hfail. reflexivity.
Qed.
End PartialObject.

(** The range check on the three-byte object photos/cat, range (1, 2). *)
Lemma GetPartialObject_InvalidRange_iff_witness :
  ∃ out n err t,
    @driver.GetPartialObject specmodel.helpers specmodel.Store
      (specmodel.store_donut example.digest) "photos" "cat" 1 2
      (driver.mkDriver (Some example.store) ["/mnt/disk"])
    = Ret (out, (n, err),
           driver.mkDriver (Some example.store) ["/mnt/disk"], t)
    ∧ (err = Some (drivers.InvalidRange 1 2)
       ↔ 1 < 0 ∨ 1 > 3 ∨ int64_sub (int64_add 1 2) 1 > 3)
    ∧ (¬ (1 < 0 ∨ 1 > 3 ∨ int64_sub (int64_add 1 2) 1 > 3) →
       (out, (n, err))
       = driver.copyRange (GoIO.Build_Reader example.abc None) 1 2
       ∧ t = [driver.CallGetObject "photos" "cat"])
    ∧ (is_int64 (1 + 2 - 1) → int64_sub (int64_add 1 2) 1 = 1 + 2 - 1).
Proof.
  apply (@GetPartialObject_InvalidRange_iff specmodel.helpers
           specmodel.Store (specmodel.store_donut example.digest)
           example.store ["/mnt/disk"] "photos" "cat" 1 2
           (GoIO.Build_Reader example.abc None) 3);
    [reflexivity|reflexivity|reflexivity|vm_compute; discriminate|reflexivity].
Defined.

(** The wrap-around at work, on the same object: with [start = 2] and
    the largest [length], [start+length-1] wraps to the least 64-bit
    integer, the range is accepted, and the copy ends at the end of the
    stream after one byte. *)
Example GetPartialObject_wrapping_range :
  int64_sub (int64_add 2 maxInt64) 1 = minInt64
  ∧ @driver.GetPartialObject specmodel.helpers specmodel.Store
      (specmodel.store_donut example.digest) "photos" "cat" 2 maxInt64
      (driver.mkDriver (Some example.store) ["/mnt/disk"])
    = Ret ([x63%byte], (0, Some (drivers.IOError GoIO.EOF)),
           driver.mkDriver (Some example.store) ["/mnt/disk"],
           [driver.CallGetObject "photos" "cat"]).
Proof. split; vm_compute; reflexivity. Qed.

(** C2 on the three-byte object photos/cat: the range (3, 1) ends in the
    end-of-stream error. *)
Lemma GetPartialObject_one_past_end_witness :
  @driver.GetPartialObject specmodel.helpers specmodel.Store
    (specmodel.store_donut example.digest) "photos" "cat" 3 1
    (driver.mkDriver (Some example.store) ["/mnt/disk"])
  = Ret ([], (0, Some (drivers.IOError GoIO.EOF)),
         driver.mkDriver (Some example.store) ["/mnt/disk"],
         [driver.CallGetObject "photos" "cat"]).
Proof.
  apply (@GetPartialObject_one_past_end specmodel.helpers
           specmodel.Store (specmodel.store_donut example.digest)
           example.store ["/mnt/disk"] "photos" "cat"
           (GoIO.Build_Reader example.abc None) 3);
    [reflexivity|reflexivity|reflexivity|vm_compute; discriminate
    |reflexivity|reflexivity|reflexivity|vm_compute; split; discriminate].
Defined.

(** The empty range at the end of the three-byte object photos/cat. *)
Lemma GetPartialObject_empty_at_end_witness :
  @driver.GetPartialObject specmodel.helpers specmodel.Store
    (specmodel.store_donut example.digest) "photos" "cat" 3 0
    (driver.mkDriver (Some example.store) ["/mnt/disk"])
  = Ret ([], (0, None), driver.mkDriver (Some example.store) ["/mnt/disk"],
         [driver.CallGetObject "photos" "cat"]).
Proof.
  apply (@GetPartialObject_empty_at_end specmodel.helpers
           specmodel.Store (specmodel.store_donut example.digest)
           example.store ["/mnt/disk"] "photos" "cat"
           (GoIO.Build_Reader example.abc None) 3);
    [reflexivity|reflexivity|reflexivity|vm_compute; discriminate
    |reflexivity|reflexivity|vm_compute; split; discriminate].
Defined.

(** ** Query parsing *)

Section Queries.
Import drivers.
Context `{RangeOrder}.

Lemma range_elem {A : Type} (m : gmap string A) (k : string) (x : A) :
  (k, x) ∈ range m ↔ m !! k = Some x.
Proof. rewrite (range_perm A m). apply elem_of_map_to_list. Qed.

Lemma range_NoDup_keys {A : Type} (m : gmap string A) :
  NoDup (range m).*1.
Proof. rewrite (range_perm A m). apply NoDup_fst_map_to_list. Qed.

Lemma index_first {A : Type} (x : A) (l : list A) : index (x :: l) 0 = Ret x.
Proof.
  unfold index. cbn [List.length].
  destruct (Z.ltb_spec 0 (Z.of_nat (S (List.length l)))); [reflexivity|lia].
Qed.








(** What [isRequestBucketACL] computes: whether the first key that
    [range] visits is acl. *)
Lemma isRequestBucketACL_first (values : gmap string (list string)) :
  api.isRequestBucketACL values = true
  ↔ ∃ value rest, range values = ("acl", value) :: rest.
Proof.
  unfold api.isRequestBucketACL.
  destruct (range values) as [|[key value] rest].
  - split; [discriminate|]. intros (? & ? & ?). discriminate.
  - destruct (String.eqb_spec key "acl") as [->|Hne].
    + split; [eauto|reflexivity].
    + split; [discriminate|]. intros (? & ? & Heq). congruence.
Qed.

(** The direction of C3 that holds: an answer [true] means the key is
    there. *)
Lemma isRequestBucketACL_sound (values : gmap string (list string)) :
  api.isRequestBucketACL values = true → is_Some (values !! "acl").
Proof.
  unfold api.isRequestBucketACL. intros Htrue.
  destruct (range values) as [|[key value] rest] eqn:Hr; [discriminate|].
  destruct (String.eqb_spec key "acl") as [->|]; [|discriminate].
  exists value. apply range_elem. rewrite Hr. left.
Qed.
End Queries.

(** C3.  Query values holding both acl and prefix, visited with prefix
    first: the key acl is present and [isRequestBucketACL] answers
    [false]; visited in the other order it answers [true]. *)
Theorem isRequestBucketACL_misses_acl :
  let values : gmap string (list string) :=
    <[ "acl" := [""] ]> (<[ "prefix" := ["a"] ]> ∅) in
  values !! "acl" = Some [""]
  ∧ @range descending _ values = [("prefix", ["a"]); ("acl", [""])]
  ∧ @api.isRequestBucketACL descending values = false
  ∧ @api.isRequestBucketACL ascending values = true.
Proof. vm_compute. repeat split. Qed.

(** X2.  When the answer of [isRequestBucketACL] depends on the order
    in which [range] visits the map: without the key acl it is [false]
    in every order; with acl as the only key it is [true] in every
    order; with acl and another key there is an order in which it is
    [true] and an order in which it is [false]. *)
Theorem isRequestBucketACL_order (values : gmap string (list string)) :
  (values !! "acl" = None →
   ∀ order : RangeOrder, @api.isRequestBucketACL order values = false)
  ∧ (∀ value, values = {[ "acl" := value ]} →
     ∀ order : RangeOrder, @api.isRequestBucketACL order values = true)
  ∧ (is_Some (values !! "acl") →
     (∃ key, key ≠ "acl" ∧ is_Some (values !! key)) →
     ∃ first last : RangeOrder,
       @api.isRequestBucketACL first values = true
       ∧ @api.isRequestBucketACL last values = false).
Proof.
  split; [|split].
  - intros Hnone order. unfold api.isRequestBucketACL.
    destruct (range values) as [|[key value] rest] eqn:Hr; [reflexivity|].
    assert (Hkey : values !! key = Some value)
      by (apply (@range_elem order); rewrite Hr; left).
    destruct (String.eqb_spec key "acl") as [->|]; [congruence|reflexivity].
  - intros value -> order. unfold api.isRequestBucketACL.
    pose proof (@range_perm order _ ({[ "acl" := value ]}
                                     : gmap string (list string))) as Hperm.
    rewrite map_to_list_singleton in Hperm.
    apply Permutation_singleton_r in Hperm.
    by rewrite Hperm.
  - intros [value Hacl] (key & Hne & [other Hkey]).
    exists (keyFirst "acl"), (keyLast "acl").
    unfold api.isRequestBucketACL. cbn [range keyFirst keyLast].
    unfold rangeKeyFirst, rangeKeyLast. rewrite Hacl. split; [reflexivity|].
    destruct (map_to_list (delete "acl" values)) as [|[k v] rest] eqn:Hl.
    + exfalso. apply map_to_list_empty_iff in Hl.
      apply (f_equal (λ m, m !! key)) in Hl.
      rewrite lookup_delete_ne, lookup_empty in Hl by done. congruence.
    + cbn [app].
      assert (Hin : (k, v) ∈ map_to_list (delete "acl" values))
        by (rewrite Hl; left).
      apply elem_of_map_to_list in Hin.
      destruct (String.eqb_spec k "acl") as [->|]; [|reflexivity].
      rewrite lookup_delete_eq in Hin. discriminate.
Qed.

(** X2 on the query values of C3: acl and prefix. *)
Lemma isRequestBucketACL_order_witness :
  let values : gmap string (list string) :=
    <[ "acl" := [""] ]> (<[ "prefix" := ["a"] ]> ∅) in
  ∃ first last : RangeOrder,
    @api.isRequestBucketACL first values = true
    ∧ @api.isRequestBucketACL last values = false.
Proof.
  intros values.
  apply (proj2 (proj2 (isRequestBucketACL_order values))).
  - exists [""]. vm_compute. reflexivity.
  - exists "prefix". split; [discriminate|].
    exists ["a"]. vm_compute. reflexivity.
Defined.


(** A value that is a well-formed integer and does not fit is not 0: the
    nearest bound of the 64-bit range is recorded. *)
Example Atoi_out_of_range :
  GoStrconv.wellFormedInt "99999999999999999999" = true
  ∧ GoStrconv.Atoi "99999999999999999999"
    = (maxInt64, Some GoStrconv.ErrRange)
  ∧ GoStrconv.Atoi "12x" = (0, Some GoStrconv.ErrSyntax)
  ∧ GoStrconv.Atoi "-42" = (-42, None).
Proof. repeat split; vm_compute; reflexivity. Qed.

(** ** The order of strings, and sorting by a string key *)

Lemma ascii_compare_lt_trans (a b c : ascii) :
  Ascii.compare a b = Lt → Ascii.compare b c = Lt → Ascii.compare a c = Lt.
Proof.
  unfold Ascii.compare. rewrite !N.compare_lt_iff. lia.
Qed.

Lemma string_compare_lt_trans (s1 : string) :
  ∀ s2 s3, String.compare s1 s2 = Lt → String.compare s2 s3 = Lt →
           String.compare s1 s3 = Lt.
Proof.
  induction s1 as [|a s1 IH]; intros [|b s2] [|c s3]; cbn; try congruence.
  destruct (Ascii.compare a b) eqn:Hab; try discriminate;
    destruct (Ascii.compare b c) eqn:Hbc; try discriminate; intros H12 H23.
  - apply Ascii.compare_eq_iff in Hab, Hbc. subst.
    assert (Ascii.compare c c = Eq) as ->
        by (unfold Ascii.compare; apply N.compare_refl).
    eauto.
  - apply Ascii.compare_eq_iff in Hab. subst. rewrite Hbc. reflexivity.
  - apply Ascii.compare_eq_iff in Hbc. subst. rewrite Hab. reflexivity.
  - rewrite (ascii_compare_lt_trans a b c Hab Hbc). reflexivity.
Qed.

Lemma string_ltb_leb (a b : string) : String.ltb a b = true → String.leb a b = true.
Proof. unfold String.ltb, String.leb. destruct (String.compare a b); congruence. Qed.

Lemma string_nltb_leb (a b : string) : String.ltb a b = false → String.leb b a = true.
Proof.
  unfold String.ltb, String.leb. rewrite (String.compare_antisym b a).
  destruct (String.compare a b); cbn; congruence.
Qed.

Lemma string_leb_trans (a b c : string) :
  String.leb a b = true → String.leb b c = true → String.leb a c = true.
Proof.
  unfold String.leb.
  destruct (String.compare a b) eqn:Hab; try discriminate;
    destruct (String.compare b c) eqn:Hbc; try discriminate; intros _ _.
  - apply String.compare_eq_iff in Hab. subst. rewrite Hbc. reflexivity.
  - apply String.compare_eq_iff in Hab. subst. rewrite Hbc. reflexivity.
  - apply String.compare_eq_iff in Hbc. subst. rewrite Hab. reflexivity.
  - rewrite (string_compare_lt_trans a b c Hab Hbc). reflexivity.
Qed.

Lemma string_leb_ne_ltb (a b : string) :
  String.leb a b = true → a ≠ b → String.ltb a b = true.
Proof.
  unfold String.leb, String.ltb.
  destruct (String.compare a b) eqn:Hab; try congruence.
  apply String.compare_eq_iff in Hab. congruence.
Qed.

Section SortByKey.
Context {A : Type} (key : A → string).

Lemma place_Permutation (x : A) (l : list A) :
  GoSort.place (keyLess key) x l ≡ₚ x :: l.
Proof.
  induction l as [|y r IH]; cbn; [reflexivity|].
  destruct (keyLess key x y); [reflexivity|].
  rewrite IH. apply Permutation_swap.
Qed.

Lemma Sort_Permutation (l : list A) : GoSort.Sort (keyLess key) l ≡ₚ l.
Proof.
  induction l as [|x l IH]; cbn; [reflexivity|].
  rewrite place_Permutation. by rewrite IH.
Qed.

Lemma place_sorted (x : A) (l : list A) :
  StronglySorted (keyLe key) l →
  StronglySorted (keyLe key) (GoSort.place (keyLess key) x l).
Proof.
  induction 1 as [|y r Hr IH Hy]; cbn.
  { repeat constructor. }
  unfold keyLess at 1. destruct (String.ltb (key x) (key y)) eqn:Hxy.
  - constructor; [by constructor|].
    apply string_ltb_leb in Hxy. constructor; [exact Hxy|].
    eapply Forall_impl; [exact Hy|].
    intros z Hz. exact (string_leb_trans _ _ _ Hxy Hz).
  - constructor; [exact IH|].
    rewrite place_Permutation. constructor; [|exact Hy].
    exact (string_nltb_leb _ _ Hxy).
Qed.

Lemma Sort_sorted (l : list A) :
  StronglySorted (keyLe key) (GoSort.Sort (keyLess key) l).
Proof.
  induction l as [|x l IH]; cbn; [constructor|].
  apply place_sorted, IH.
Qed.

Lemma sorted_distinct_strict (l : list A) :
  StronglySorted (keyLe key) l → NoDup (key <$> l) →
  StronglySorted (keyLt key) l.
Proof.
  induction 1 as [|x r Hr IH Hx]; intros Hnd; [constructor|].
  rewrite fmap_cons in Hnd. apply NoDup_cons in Hnd as [Hnotin Hnd].
  constructor; [exact (IH Hnd)|].
  apply Forall_forall. intros y Hy.
  apply string_leb_ne_ltb.
  - rewrite Forall_forall in Hx. exact (Hx y Hy).
  - intros Heq. apply Hnotin. rewrite Heq.
    apply list_elem_of_fmap. exists y. split; [reflexivity|exact Hy].
Qed.

(** Sorting a slice whose keys are pairwise distinct gives it in
    strictly ascending order of key. *)
Lemma Sort_strict (l : list A) :
  NoDup (key <$> l) → StronglySorted (keyLt key) (GoSort.Sort (keyLess key) l).
Proof.
  intros Hnd. apply sorted_distinct_strict; [apply Sort_sorted|].
  by rewrite Sort_Permutation.
Qed.
End SortByKey.

(** ** ListBuckets *)

Section Buckets.
Import drivers driver.
Context `{RangeOrder} `{Helpers} {D : Type} `{!donut.Donut D}.

Lemma bucketRecord_names (l : list (string * donut.BucketMetadata.t)) :
  BucketMetadata.Name <$> (bucketRecord <$> l) = l.*1.
Proof. induction l as [|e l IH]; cbn; [reflexivity|]. by rewrite IH. Qed.

(** C7.  ListBuckets never panics and leaves the driver as it is; the
    records it returns are in strictly ascending order of bucket name;
    and whenever the store is opened and lists its buckets, ListBuckets
    does return records, one per bucket of the store. *)
Theorem ListBuckets_sorted (d : donutDriver D) :
  ∃ r t,
    ListBuckets d = Ret (r, d, t)
    ∧ (∀ results, r = Ok results →
         StronglySorted
           (λ a b, String.ltb (BucketMetadata.Name a) (BucketMetadata.Name b)
                   = true) results)
    ∧ (∀ s buckets, donut d = Some s → donut.ListBuckets s = Ok buckets →
         ∃ results, r = Ok results
           ∧ BucketMetadata.Name <$> results ≡ₚ (map_to_list buckets).*1).
Proof.
  destruct d as [[s|] ps]; unfold ListBuckets, mbind, Op_bind, donutIsNil,
    reading, mret, Op_ret; cbn.
  2:{ eexists _, _. split; [reflexivity|]. split; discriminate. }
  destruct (donut.ListBuckets s) as [buckets|e] eqn:Hlist.
  2:{ eexists _, _. split; [reflexivity|]. split; [discriminate|].
      intros s' buckets' [= <-] Hl. rewrite Hlist in Hl. discriminate. }
  eexists _, _. split; [reflexivity|]. split.
  - intros results [= <-].
    apply (Sort_strict BucketMetadata.Name).
    change (NoDup (BucketMetadata.Name <$> (bucketRecord <$> range buckets))).
    rewrite bucketRecord_names. rewrite (range_perm _ buckets).
    apply NoDup_fst_map_to_list.
  - intros s' buckets' [= <-] Hl. rewrite Hlist in Hl.
    injection Hl as <-. eexists. split; [reflexivity|].
    rewrite (Sort_Permutation BucketMetadata.Name).
    change (BucketMetadata.Name <$> (bucketRecord <$> range buckets)
            ≡ₚ (map_to_list buckets).*1).
    rewrite bucketRecord_names. by rewrite (range_perm _ buckets).
Qed.
End Buckets.

(** C7 on the example store, whichever way the map is visited: music,
    then photos. *)
Lemma ListBuckets_sorted_witness :
  ∃ r t,
    @driver.ListBuckets descending specmodel.Store
      (specmodel.store_donut example.digest) (example.opened example.store)
    = Ret (r, example.opened example.store, t)
    ∧ (∀ results, r = Ok results →
         StronglySorted
           (λ a b, String.ltb (drivers.BucketMetadata.Name a)
                     (drivers.BucketMetadata.Name b) = true) results)
    ∧ (∀ s buckets,
         driver.donut (example.opened example.store) = Some s →
         @donut.ListBuckets _ (specmodel.store_donut example.digest) s
         = Ok buckets →
         ∃ results, r = Ok results
           ∧ drivers.BucketMetadata.Name <$> results
             ≡ₚ (map_to_list buckets).*1).
Proof.
  apply (@ListBuckets_sorted descending specmodel.Store
           (specmodel.store_donut example.digest)).
Defined.

Example ListBuckets_example :
  @driver.ListBuckets descending specmodel.Store
    (specmodel.store_donut example.digest) (example.opened example.store)
  = Ret (Ok [drivers.BucketMetadata.mk "music" 2 "";
             drivers.BucketMetadata.mk "photos" 1 ""],
         example.opened example.store, [driver.CallListBuckets]).
Proof. vm_compute. reflexivity. Qed.

(** ** Bucket names with a dot *)

Ltac run_op :=
  unfold mbind, driver.Op_bind, driver.donutIsNil, driver.reading,
    driver.writing, mret, driver.Op_ret, driver.lift, driver.panic;
  cbn.

Section DottedNames.
Import drivers driver.
Context `{RangeOrder} `{Helpers} {D : Type} `{!donut.Donut D}.

(** C6, as amended.  On an opened store, a bucket name with a dot is
    refused with BucketNameInvalid by every operation of the facade
    that takes a bucket name, with no call made on the store and the
    driver unchanged; CreateBucket does so for a valid ACL (it checks
    the ACL before the name). *)
Theorem dotted_bucket_refused (s : D) (ps : list string)
    (bucketName : string) :
  GoStrings.Contains bucketName "." = true →
  let d := mkDriver (Some s) ps in
  (∀ acl, IsValidBucketACL acl = true →
     CreateBucket bucketName acl d
     = Ret (Some (BucketNameInvalid bucketName), d, []))
  ∧ GetBucketMetadata bucketName d
    = Ret (Err (BucketNameInvalid bucketName), d, [])
  ∧ (∀ acl, SetBucketMetadata bucketName acl d
            = Ret (Some (BucketNameInvalid bucketName), d, []))
  ∧ (∀ objectName,
       GetObject bucketName objectName d
       = Ret ([], (0, Some (BucketNameInvalid bucketName)), d, []))
  ∧ (∀ objectName start length,
       GetPartialObject bucketName objectName start length d
       = Ret ([], (0, Some (BucketNameInvalid bucketName)), d, []))
  ∧ (∀ objectName,
       GetObjectMetadata bucketName objectName d
       = Ret (Err (BucketNameInvalid bucketName), d, []))
  ∧ (∀ resources,
       ListObjects bucketName resources d
       = Ret (Err (BucketNameInvalid bucketName), d, []))
  ∧ (∀ objectName contentType expectedMD5Sum size reader,
       CreateObject bucketName objectName contentType expectedMD5Sum
         size reader d
       = Ret (Err (BucketNameInvalid bucketName), d, [])).
Proof.
  intros Hdot d. subst d.
  split.
  { intros acl Hacl. unfold CreateBucket. run_op.
    rewrite Hacl, Hdot, andb_false_r. reflexivity. }
  repeat split; intros;
    unfold GetBucketMetadata, SetBucketMetadata, GetObject,
      GetPartialObject, GetObjectMetadata, ListObjects, CreateObject;
    run_op; rewrite Hdot, orb_true_r; reflexivity.
Qed.
End DottedNames.

(** C6 on the name a.b: refused by the eight operations. *)
Lemma dotted_bucket_refused_witness :
  let d := driver.mkDriver (Some example.store) ["/mnt/disk"] in
  let refused := drivers.BucketNameInvalid "a.b" in
  @driver.CreateBucket specmodel.helpers specmodel.Store
    (specmodel.store_donut example.digest) "a.b" "private" d
  = Ret (Some refused, d, [])
  ∧ @driver.GetBucketMetadata specmodel.helpers specmodel.Store
      (specmodel.store_donut example.digest) "a.b" d
    = Ret (Err refused, d, [])
  ∧ @driver.SetBucketMetadata specmodel.helpers specmodel.Store
      (specmodel.store_donut example.digest) "a.b" "private" d
    = Ret (Some refused, d, [])
  ∧ @driver.GetObject specmodel.helpers specmodel.Store
      (specmodel.store_donut example.digest) "a.b" "cat" d
    = Ret ([], (0, Some refused), d, [])
  ∧ @driver.GetPartialObject specmodel.helpers specmodel.Store
      (specmodel.store_donut example.digest) "a.b" "cat" 0 1 d
    = Ret ([], (0, Some refused), d, [])
  ∧ @driver.GetObjectMetadata specmodel.helpers specmodel.Store
      (specmodel.store_donut example.digest) "a.b" "cat" d
    = Ret (Err refused, d, [])
  ∧ @driver.ListObjects specmodel.helpers specmodel.Store
      (specmodel.store_donut example.digest) "a.b"
      drivers.BucketResourcesMetadata.zero d
    = Ret (Err refused, d, [])
  ∧ @driver.CreateObject specmodel.helpers specmodel.Store
      (specmodel.store_donut example.digest) "a.b" "cat" "" "" 3
      (GoIO.Build_Reader example.abc None) d
    = Ret (Err refused, d, []).
Proof.
  intros d refused.
  destruct (@dotted_bucket_refused specmodel.helpers specmodel.Store
              (specmodel.store_donut example.digest) example.store
              ["/mnt/disk"] "a.b" eq_refl)
    as (Hcreate & Hget & Hset & Hobj & Hpart & Hmeta & Hlist & Hput).
  exact (conj (Hcreate "private" eq_refl)
          (conj Hget
          (conj (Hset "private")
          (conj (Hobj "cat")
          (conj (Hpart "cat" 0 1)
          (conj (Hmeta "cat")
          (conj (Hlist drivers.BucketResourcesMetadata.zero)
                (Hput "cat" "" "" 3 (GoIO.Build_Reader example.abc None))))))))).
Defined.

(** C6 as first stated does not hold: the name a.b has a dot, and
    CreateBucket answers InvalidACL for it when the ACL is not a valid
    one, and InternalError when the store is not opened; in both cases
    the error is not BucketNameInvalid. *)
Lemma dotted_bucket_other_errors :
  GoStrings.Contains "a.b" "." = true
  ∧ @driver.CreateBucket specmodel.helpers specmodel.Store
      (specmodel.store_donut example.digest) "a.b" "bogus"
      (example.opened example.store)
    = Ret (Some (drivers.InvalidACL "bogus"),
           example.opened example.store, [])
  ∧ @driver.CreateBucket specmodel.helpers specmodel.Store
      (specmodel.store_donut example.digest) "a.b" "private" example.closed
    = Ret (Some drivers.InternalError, example.closed, [])
  ∧ drivers.InvalidACL "bogus" ≠ drivers.BucketNameInvalid "a.b"
  ∧ drivers.InternalError ≠ drivers.BucketNameInvalid "a.b".
Proof. repeat split; discriminate. Qed.

(** ** ListObjects *)

Section Listing.
Import drivers driver.
Context `{RangeOrder} `{Helpers} {D : Type} `{!donut.Donut D}.

Lemma listMetadata_run (s : D) (ps : list string) (bucketName : string)
    (names : list string) :
  ∀ acc, ∃ r t,
    listMetadata bucketName names acc (mkDriver (Some s) ps)
    = Ret (r, mkDriver (Some s) ps, t)
    ∧ ∀ results, r = Ok results →
        ∃ rs, results = acc ++ rs
              ∧ ObjectMetadata.Key <$> rs = names
              ∧ Forall (listedRecord s bucketName) rs.
Proof.
  induction names as [|name names IH]; intros acc.
  { exists (Ok acc), []. split; [reflexivity|].
    intros results [= <-]. exists []. rewrite app_nil_r.
    repeat split. constructor. }
  cbn [listMetadata]. run_op.
  destruct (donut.GetObjectMetadata s bucketName name) as [stored|e] eqn:Hget.
  2:{ eexists _, _. split; [reflexivity|]. discriminate. }
  set (m := ObjectMetadata.mk "" name ""
              (donut.ObjectMetadata.Created stored) ""
              (donut.ObjectMetadata.Size stored)).
  destruct (IH (acc ++ [m])) as (r & t & Hrun & Hres).
  rewrite Hrun. eexists _, _. split; [reflexivity|].
  intros results Hok. destruct (Hres results Hok) as (rs & -> & Hkeys & Hall).
  exists (m :: rs). rewrite <- app_assoc. split; [reflexivity|].
  split; [cbn; by rewrite Hkeys|].
  constructor; [|exact Hall].
  repeat split. exists stored. repeat split. exact Hget.
Qed.

Lemma index_last {A : Type} (l : list A) (x : A) :
  index (l ++ [x]) (Z.of_nat (List.length (l ++ [x])) - 1) = Ret x.
Proof.
  unfold index. rewrite length_app. cbn [List.length].
  destruct (Z.leb_spec 0 (Z.of_nat (List.length l + 1) - 1)); [|lia].
  destruct (Z.ltb_spec (Z.of_nat (List.length l + 1) - 1)
              (Z.of_nat (List.length l + 1))); [|lia].
  cbn [andb].
  replace (Z.to_nat (Z.of_nat (List.length l + 1) - 1))
    with (List.length l + 0)%nat by lia.
  rewrite lookup_app_r by lia.
  replace (List.length l + 0 - List.length l)%nat with 0%nat by lia.
  reflexivity.
Qed.

Lemma index_last_nonempty {A : Type} (l : list A) :
  l ≠ [] → ∃ x, index l (Z.of_nat (List.length l) - 1) = Ret x.
Proof.
  intros Hne. destruct (exists_last Hne) as (l' & x & ->).
  exists x. apply index_last.
Qed.

(** C9.  ListObjects panics exactly when the store is opened, the
    names are valid, and the store answers the listing with no key,
    truncated, for resources on which [IsDelimiterSet] holds: the next
    marker is then read at position -1 of the empty list of keys.  In
    every other case it returns. *)
Theorem ListObjects_panics_iff (d : donutDriver D) (bucketName : string)
    (resources : BucketResourcesMetadata.t) :
  (∃ msg, ListObjects bucketName resources d = Panic msg)
  ↔ ∃ s commonPrefixes,
      donut d = Some s
      ∧ IsValidBucket bucketName = true
      ∧ GoStrings.Contains bucketName "." = false
      ∧ IsValidObjectName (BucketResourcesMetadata.Prefix resources) = true
      ∧ donut.ListObjects s bucketName
          (BucketResourcesMetadata.Prefix resources)
          (BucketResourcesMetadata.Marker resources)
          (BucketResourcesMetadata.Delimiter resources)
          (BucketResourcesMetadata.Maxkeys resources)
        = Ok ([], commonPrefixes, true)
      ∧ IsDelimiterSet
          (BucketResourcesMetadata.setIsTruncated true
             (BucketResourcesMetadata.setCommonPrefixes commonPrefixes
                resources)) = true.
Proof.
  destruct d as [[s|] ps]; unfold ListObjects; run_op.
  2:{ split; [intros [? [=]]|intros (? & ? & [=] & _)]. }
  destruct (IsValidBucket bucketName) eqn:Hb; cbn.
  2:{ split; [intros [? [=]]|intros (? & ? & _ & [=] & _)]. }
  destruct (GoStrings.Contains bucketName ".") eqn:Hdot; cbn.
  { split; [intros [? [=]]|intros (? & ? & _ & _ & [=] & _)]. }
  destruct (IsValidObjectName (BucketResourcesMetadata.Prefix resources))
    eqn:Hp; cbn.
  2:{ split; [intros [? [=]]|intros (? & ? & _ & _ & _ & [=] & _)]. }
  destruct (donut.ListObjects s bucketName _ _ _ _)
    as [[[keys cps] trunc]|e] eqn:Hlist; cbn.
  2:{ split; [intros [? [=]]|].
      intros (s' & ? & [= <-] & _ & _ & _ & Hl & _).
      rewrite Hlist in Hl. discriminate. }
  destruct trunc; cbn.
  2:{ destruct (listMetadata_run s ps bucketName keys [])
        as (r & t & -> & _).
      split.
      - destruct r; intros [? [=]].
      - intros (s' & ? & [= <-] & _ & _ & _ & Hl & _).
        rewrite Hlist in Hl. discriminate. }
  destruct (IsDelimiterSet _) eqn:Hd; cbn.
  2:{ destruct (listMetadata_run s ps bucketName keys [])
        as (r & t & -> & _).
      split.
      - destruct r; intros [? [=]].
      - intros (s' & cps' & [= <-] & _ & _ & _ & Hl & Hset).
        rewrite Hlist in Hl. injection Hl as _ <-.
        cbn in Hset. rewrite Hd in Hset. discriminate. }
  destruct keys as [|k keys].
  { cbn. split; [|eauto].
    intros _. exists s, cps. repeat split; assumption. }
  destruct (index_last_nonempty (k :: keys)) as [x ->]; [discriminate|].
  destruct (listMetadata_run s ps bucketName (k :: keys) [])
    as (r & t & -> & _).
  split.
  - destruct r; intros [? [=]].
  - intros (s' & ? & [= <-] & _ & _ & _ & Hl & _).
    rewrite Hlist in Hl. discriminate.
Qed.

(** C4.  Every record that ListObjects returns holds the key of an
    object of the store with the size and the creation time stored for
    it, and an empty MD5 digest: the digest stored at write time is
    read with the rest of the metadata and not copied to the record. *)
Theorem ListObjects_records_without_md5 (s : D) (ps : list string)
    (bucketName : string) (resources resources' : BucketResourcesMetadata.t)
    (results : list ObjectMetadata.t) (d' : donutDriver D) (t : list Call) :
  ListObjects bucketName resources (mkDriver (Some s) ps)
  = Ret (Ok (results, resources'), d', t) →
  Forall (listedRecord s bucketName) results.
Proof.
  unfold ListObjects; run_op.
  destruct (IsValidBucket bucketName); cbn; [|discriminate].
  destruct (GoStrings.Contains bucketName "."); cbn; [discriminate|].
  destruct (IsValidObjectName (BucketResourcesMetadata.Prefix resources));
    cbn; [|discriminate].
  destruct (donut.ListObjects s bucketName _ _ _ _)
    as [[[keys cps] trunc]|e]; cbn; [|discriminate].
  pose proof (listMetadata_run s ps bucketName keys [])
    as (r & t' & Hrun & Hres).
  assert (Hsorted : ∀ rs, r = Ok rs →
            Forall (listedRecord s bucketName)
              (GoSort.Sort byObjectKey_Less rs)).
  { intros rs Hok. destruct (Hres rs Hok) as (rs' & -> & _ & Hall).
    cbn [app]. apply Forall_forall. intros x Hx.
    rewrite Forall_forall in Hall. apply Hall.
    by rewrite (Sort_Permutation ObjectMetadata.Key) in Hx. }
  destruct (_ && _).
  - destruct (index keys _); [|discriminate]. cbn. rewrite Hrun.
    destruct r as [rs|e]; [|discriminate].
    intros [= <- _ _ _]. by apply Hsorted.
  - cbn. rewrite Hrun. destruct r as [rs|e]; [|discriminate].
    intros [= <- _ _ _]. by apply Hsorted.
Qed.
End Listing.

(** C9 on the store that answers with no key, truncated, to a listing
    with the delimiter /. *)
Lemma ListObjects_panics_iff_witness :
  ∃ msg,
    @driver.ListObjects specmodel.helpers specmodel.Store
      (specmodel.store_donut example.digest) "photos"
      (drivers.BucketResourcesMetadata.setDelimiter "/"
         drivers.BucketResourcesMetadata.zero)
      (example.opened example.truncated)
    = Panic msg.
Proof.
  apply (@ListObjects_panics_iff specmodel.helpers specmodel.Store
           (specmodel.store_donut example.digest)).
  exists example.truncated, ["a/"].
  repeat split.
Defined.

(** C4 on the example store: the object photos/cat is stored with the
    digest 9001...7f72, and its record in the listing has none. *)
Lemma ListObjects_records_without_md5_witness :
  let listed := drivers.ObjectMetadata.mk "" "cat" "" 7 "" 3 in
  @donut.GetObjectMetadata _ (specmodel.store_donut example.digest)
    example.store "photos" "cat"
  = Ok (donut.ObjectMetadata.mk (<[ "contentType" := "image/jpeg" ]> ∅) 7
          "900150983cd24fb0d6963f7d28e17f72" 3)
  ∧ @driver.ListObjects specmodel.helpers specmodel.Store
      (specmodel.store_donut example.digest) "photos"
      drivers.BucketResourcesMetadata.zero
      (driver.mkDriver (Some example.store) ["/mnt/disk"])
    = Ret (Ok ([listed], drivers.BucketResourcesMetadata.zero),
           driver.mkDriver (Some example.store) ["/mnt/disk"],
           [driver.CallListObjects "photos" "" "" "" 0;
            driver.CallGetObjectMetadata "photos" "cat"])
  ∧ Forall (@listedRecord specmodel.Store
              (specmodel.store_donut example.digest) example.store "photos")
      [listed].
Proof.
  intros listed.
  assert (Hrun :
    @driver.ListObjects specmodel.helpers specmodel.Store
      (specmodel.store_donut example.digest) "photos"
      drivers.BucketResourcesMetadata.zero
      (driver.mkDriver (Some example.store) ["/mnt/disk"])
    = Ret (Ok ([listed], drivers.BucketResourcesMetadata.zero),
           driver.mkDriver (Some example.store) ["/mnt/disk"],
           [driver.CallListObjects "photos" "" "" "" 0;
            driver.CallGetObjectMetadata "photos" "cat"]))
    by (vm_compute; reflexivity).
  split; [vm_compute; reflexivity|]. split; [exact Hrun|].
  exact (@ListObjects_records_without_md5 specmodel.helpers specmodel.Store
           (specmodel.store_donut example.digest) example.store
           ["/mnt/disk"] "photos" _ _ _ _ _ Hrun).
Defined.

(** ** CreateObject *)

Lemma hexDigits_lower (v : byte) :
  lowerHex (GoHex.hexDigit (Byte.to_N v / 16)) = true
  ∧ lowerHex (GoHex.hexDigit (Byte.to_N v mod 16)) = true.
Proof. destruct v; split; vm_compute; reflexivity. Qed.

Lemma EncodeToString_lower (src : list byte) :
  forallb lowerHex (list_ascii_of_string (GoHex.EncodeToString src)) = true.
Proof.
  induction src as [|v r IH]; [reflexivity|].
  cbn [GoHex.EncodeToString list_ascii_of_string forallb].
  destruct (hexDigits_lower v) as [-> ->]. exact IH.
Qed.

Lemma EncodeToString_length (src : list byte) :
  String.length (GoHex.EncodeToString src) = (2 * List.length src)%nat.
Proof.
  induction src as [|v r IH]; [reflexivity|].
  cbn [GoHex.EncodeToString String.length List.length]. rewrite IH. lia.
Qed.

Section Create.
Import drivers driver.
Context `{Helpers} {D : Type} `{!donut.Donut D}.

Lemma CreateObject_opened (s : D) (ps : list string)
    (bucketName objectName contentType expectedMD5Sum : string)
    (size : Z) (reader : GoIO.Reader) :
  IsValidBucket bucketName = true →
  GoStrings.Contains bucketName "." = false →
  IsValidObjectName objectName = true →
  GoStrings.TrimSpace objectName ≠ "" →
  CreateObject bucketName objectName contentType expectedMD5Sum size reader
    (mkDriver (Some s) ps)
  = let metadata :=
      objectMetadata
        (GoStrings.TrimSpace
           (if String.eqb (GoStrings.TrimSpace contentType) ""
            then "application/octet-stream" else contentType)) size in
    if String.eqb (GoStrings.TrimSpace expectedMD5Sum) "" then
      putOutcome s ps bucketName objectName expectedMD5Sum reader metadata
    else
      match GoBase64.DecodeString (GoStrings.TrimSpace expectedMD5Sum) with
      | None => Ret (Err CorruptInput, mkDriver (Some s) ps, [])
      | Some bytes =>
          putOutcome s ps bucketName objectName
            (GoHex.EncodeToString bytes) reader metadata
      end.
Proof.
  intros Hb Hdot Ho Hblank. apply String.eqb_neq in Hblank.
  unfold CreateObject, putOutcome, objectMetadata. run_op.
  rewrite Hb, Hdot, Ho, Hblank. cbn.
  destruct (String.eqb (GoStrings.TrimSpace expectedMD5Sum) ""); cbn.
  - destruct (donut.PutObject s _ _ _ _ _) as [[c|e] s']; reflexivity.
  - destruct (GoBase64.DecodeString _) as [bytes|]; [|reflexivity].
    cbn. destruct (donut.PutObject s _ _ _ _ _) as [[c|e] s']; reflexivity.
Qed.

Lemma default_contentType_trimmed :
  GoStrings.TrimSpace "application/octet-stream" = "application/octet-stream".
Proof. vm_compute. reflexivity. Qed.

Lemma objectMetadata_contentType (contentType : string) (size : Z) :
  objectMetadata contentType size !! "contentType" = Some contentType.
Proof.
  unfold objectMetadata.
  rewrite lookup_insert_ne by discriminate. apply lookup_insert_eq.
Qed.

End Create.

Section CreateChecked.
Import drivers driver.
Context `{Helpers}.

(** With the empty expected MD5 the store of the model does not
    compare digests. *)
Lemma CreateObject_unchecked (md5hex : list byte → string)
    (s0 : specmodel.Store) (ps : list string)
    (bucketName objectName contentType : string)
    (size : Z) (reader : GoIO.Reader) :
  IsValidBucket bucketName = true →
  GoStrings.Contains bucketName "." = false →
  IsValidObjectName objectName = true →
  GoStrings.TrimSpace objectName ≠ "" →
  ∃ r d' t,
    @CreateObject _ specmodel.Store (specmodel.store_donut md5hex)
      bucketName objectName contentType "" size reader
      (mkDriver (Some s0) ps)
    = Ret (r, d', t)
    ∧ r ≠ Err (Lower donut.BadDigest).
Proof.
  intros Hb Hdot Ho Hblank.
  rewrite (@CreateObject_opened _ specmodel.Store
             (specmodel.store_donut md5hex) s0 ps bucketName objectName
             contentType "" size reader Hb Hdot Ho Hblank).
  cbv zeta. change (GoStrings.TrimSpace "") with "".
  change (String.eqb "" "") with true. cbv iota.
  unfold putOutcome.
  eexists _, _, _. split; [reflexivity|].
  change (@donut.PutObject specmodel.Store (specmodel.store_donut md5hex))
    with (specmodel.PutObject md5hex).
  unfold specmodel.PutObject.
  destruct (GoIO.failure reader); [discriminate|].
  change (String.eqb "" "") with true. cbn [negb andb fst]. discriminate.
Qed.

Context {D : Type} `{!donut.Donut D}.

(** C5, as amended.  For a call of CreateObject with a valid bucket and
    key on an opened store:
    - a blank content type gives the same call as
      application/octet-stream, and the metadata of every PutObject
      made then holds that content type;
    - an expected MD5 that is not blank (not empty once its white
      space is trimmed) is trimmed and decoded from base64, the call
      failing with the decoding error when that fails, and otherwise
      the store is handed the bytes encoded in lowercase hexadecimal,
      two digits per byte;
    - an expected MD5 that is blank (empty, or white space only) is
      not decoded: the store is handed it as it was given, white space
      included;
    - with the empty expected MD5, on the store whose PutObject checks
      the digest as the spec says, the call returns and its result is
      not BadDigest. *)
Theorem CreateObject_normalises (md5hex : list byte → string)
    (s : D) (s0 : specmodel.Store) (ps : list string)
    (bucketName objectName contentType expectedMD5Sum : string)
    (size : Z) (reader : GoIO.Reader) :
  IsValidBucket bucketName = true →
  GoStrings.Contains bucketName "." = false →
  IsValidObjectName objectName = true →
  GoStrings.TrimSpace objectName ≠ "" →
  let d := mkDriver (Some s) ps in
  (GoStrings.TrimSpace contentType = "" →
     CreateObject bucketName objectName contentType expectedMD5Sum
       size reader d
     = CreateObject bucketName objectName "application/octet-stream"
         expectedMD5Sum size reader d
     ∧ ∀ r d' t b o e metadata,
         CreateObject bucketName objectName contentType expectedMD5Sum
           size reader d = Ret (r, d', t) →
         CallPutObject b o e metadata ∈ t →
         metadata !! "contentType" = Some "application/octet-stream")
  ∧ (GoStrings.TrimSpace expectedMD5Sum ≠ "" →
     match GoBase64.DecodeString (GoStrings.TrimSpace expectedMD5Sum) with
     | None =>
         CreateObject bucketName objectName contentType expectedMD5Sum
           size reader d
         = Ret (Err CorruptInput, d, [])
     | Some bytes =>
         CreateObject bucketName objectName contentType expectedMD5Sum
           size reader d
         = putOutcome s ps bucketName objectName
             (GoHex.EncodeToString bytes) reader
             (objectMetadata
                (GoStrings.TrimSpace
                   (if String.eqb (GoStrings.TrimSpace contentType) ""
                    then "application/octet-stream" else contentType))
                size)
         ∧ forallb lowerHex
             (list_ascii_of_string (GoHex.EncodeToString bytes)) = true
         ∧ String.length (GoHex.EncodeToString bytes)
           = (2 * List.length bytes)%nat
     end)
  ∧ (GoStrings.TrimSpace expectedMD5Sum = "" →
     CreateObject bucketName objectName contentType expectedMD5Sum
       size reader d
     = putOutcome s ps bucketName objectName expectedMD5Sum reader
         (objectMetadata
            (GoStrings.TrimSpace
               (if String.eqb (GoStrings.TrimSpace contentType) ""
                then "application/octet-stream" else contentType))
            size))
  ∧ (∃ r d' t,
       @CreateObject _ specmodel.Store (specmodel.store_donut md5hex)
         bucketName objectName contentType "" size reader
         (mkDriver (Some s0) ps)
       = Ret (r, d', t)
       ∧ r ≠ Err (Lower donut.BadDigest)).
Proof.
  intros Hb Hdot Ho Hblank d. subst d.
  split; [|split; [|split]].
  - intros Hct.
    rewrite !(CreateObject_opened s ps bucketName objectName _
                expectedMD5Sum size reader Hb Hdot Ho Hblank).
    cbv zeta. rewrite Hct, default_contentType_trimmed.
    change (String.eqb "" "") with true.
    change (String.eqb "application/octet-stream" "") with false.
    cbv iota. rewrite default_contentType_trimmed.
    split; [reflexivity|].
    intros r d' t b o e metadata Hrun Hcall.
    assert (Hmd : ∀ e', putOutcome s ps bucketName objectName e' reader
              (objectMetadata "application/octet-stream" size)
              = Ret (r, d', t) →
            metadata !! "contentType" = Some "application/octet-stream").
    { unfold putOutcome. intros e' [= _ _ <-].
      apply list_elem_of_singleton in Hcall. injection Hcall as _ _ _ ->.
      apply objectMetadata_contentType. }
    destruct (String.eqb (GoStrings.TrimSpace expectedMD5Sum) "");
      [exact (Hmd _ Hrun)|].
    destruct (GoBase64.DecodeString _); [exact (Hmd _ Hrun)|].
    injection Hrun as _ _ <-. inversion Hcall.
  - intros He. apply String.eqb_neq in He.
    rewrite (CreateObject_opened s ps bucketName objectName contentType
               expectedMD5Sum size reader Hb Hdot Ho Hblank).
    cbv zeta. rewrite He.
    destruct (GoBase64.DecodeString _) as [bytes|]; [|reflexivity].
    split; [reflexivity|].
    split; [apply EncodeToString_lower|apply EncodeToString_length].
  - intros He.
    rewrite (CreateObject_opened s ps bucketName objectName contentType
               expectedMD5Sum size reader Hb Hdot Ho Hblank).
    cbv zeta. rewrite He.
    change (String.eqb "" "") with true. reflexivity.
  - exact (CreateObject_unchecked md5hex s0 ps bucketName objectName
             contentType size reader Hb Hdot Ho Hblank).
Qed.
End CreateChecked.

(** C5 on the example store: the object photos/dog written with a blank
    content type and the base64 digest kAFQ...cg==, then with a digest
    of two spaces, then with the empty digest. *)
Lemma CreateObject_normalises_witness :
  let create :=
    @driver.CreateObject specmodel.helpers specmodel.Store
      (specmodel.store_donut example.digest) in
  let d := driver.mkDriver (Some example.store) ["/mnt/disk"] in
  let reader := GoIO.Build_Reader example.abc None in
  let expected := "kAFQmDzST7DWlj99KOF/cg==" in
  let handed (e : string) :=
    @putOutcome specmodel.Store (specmodel.store_donut example.digest)
      example.store ["/mnt/disk"] "photos" "dog" e reader
      (objectMetadata "application/octet-stream" 3) in
  (create "photos" "dog" "  " expected 3 reader d
   = create "photos" "dog" "application/octet-stream" expected 3 reader d
   ∧ ∀ r d' t b o e metadata,
       create "photos" "dog" "  " expected 3 reader d = Ret (r, d', t) →
       driver.CallPutObject b o e metadata ∈ t →
       metadata !! "contentType" = Some "application/octet-stream")
  ∧ create "photos" "dog" "  " expected 3 reader d
    = handed "900150983cd24fb0d6963f7d28e17f72"
  ∧ create "photos" "dog" "  " "  " 3 reader d = handed "  "
  ∧ create "photos" "dog" "  " "" 3 reader d = handed ""
  ∧ (∃ r d' t,
       create "photos" "dog" "  " "" 3 reader d = Ret (r, d', t)
       ∧ r ≠ Err (drivers.Lower donut.BadDigest)).
Proof.
  intros create d reader expected handed.
  assert (Hdog : GoStrings.TrimSpace "dog" ≠ "")
    by (vm_compute; discriminate).
  assert (Hexpected : GoStrings.TrimSpace expected ≠ "")
    by (vm_compute; discriminate).
  destruct (@CreateObject_normalises specmodel.helpers specmodel.Store
              (specmodel.store_donut example.digest) example.digest
              example.store example.store ["/mnt/disk"] "photos" "dog" "  "
              expected 3 reader eq_refl eq_refl eq_refl Hdog)
    as (Hct & Hdecoded & _ & Hunchecked).
  destruct (@CreateObject_normalises specmodel.helpers specmodel.Store
              (specmodel.store_donut example.digest) example.digest
              example.store example.store ["/mnt/disk"] "photos" "dog" "  "
              "  " 3 reader eq_refl eq_refl eq_refl Hdog)
    as (_ & _ & Hspaces & _).
  destruct (@CreateObject_normalises specmodel.helpers specmodel.Store
              (specmodel.store_donut example.digest) example.digest
              example.store example.store ["/mnt/disk"] "photos" "dog" "  "
              "" 3 reader eq_refl eq_refl eq_refl Hdog)
    as (_ & _ & Hempty & _).
  exact (conj (Hct eq_refl)
          (conj (proj1 (Hdecoded Hexpected))
          (conj (Hspaces eq_refl)
          (conj (Hempty eq_refl) Hunchecked)))).
Defined.

(** The same call run: the store is handed the digest in lowercase
    hexadecimal and the default content type; it compares (the digest of
    the examples differs, hence BadDigest), and does not when the
    expected digest is empty. *)
Example CreateObject_example :
  let create :=
    @driver.CreateObject specmodel.helpers specmodel.Store
      (specmodel.store_donut example.digest) in
  let d := driver.mkDriver (Some example.store) ["/mnt/disk"] in
  let reader := GoIO.Build_Reader example.abc None in
  create "photos" "dog" "  " "kAFQmDzST7DWlj99KOF/cg==" 3 reader d
  = Ret (Err (drivers.Lower donut.BadDigest), d,
         [driver.CallPutObject "photos" "dog"
            "900150983cd24fb0d6963f7d28e17f72"
            (objectMetadata "application/octet-stream" 3)])
  ∧ (∃ d', create "photos" "dog" "  " "" 3 reader d
           = Ret (Ok "616263", d',
                  [driver.CallPutObject "photos" "dog" ""
                     (objectMetadata "application/octet-stream" 3)]))
  ∧ create "photos" "dog" "  " "not base64" 3 reader d
    = Ret (Err drivers.CorruptInput, d, []).
Proof.
  cbv zeta. split; [vm_compute; reflexivity|].
  split; [eexists; vm_compute; reflexivity|vm_compute; reflexivity].
Qed.

(** C5 as first stated does not hold: an expected MD5 of one space is
    not empty, and the store is handed it as it is, neither decoded from
    base64 nor written in hexadecimal. *)
Lemma CreateObject_blank_digest_not_decoded :
  let create :=
    @driver.CreateObject specmodel.helpers specmodel.Store
      (specmodel.store_donut example.digest) in
  let d := driver.mkDriver (Some example.store) ["/mnt/disk"] in
  let reader := GoIO.Build_Reader example.abc None in
  " " ≠ ""
  ∧ create "photos" "dog" "text/plain" " " 3 reader d
    = Ret (Err (drivers.Lower donut.BadDigest), d,
           [driver.CallPutObject "photos" "dog" " "
              (objectMetadata "text/plain" 3)])
  ∧ forallb lowerHex (list_ascii_of_string " ") = false.
Proof.
  cbv zeta. split; [discriminate|].
  split; vm_compute; reflexivity.
Qed.

(** ** Opening a disk *)

Section DiskNew.
Import disk.
Context `{OS} `{FSTable}.

(** C8.  [New] fails with InvalidArgument on the empty path; on a path
    that exists (both system calls succeed) and is not a directory it
    fails with ENOTDIR; on a directory whose file-system type the table
    does not know it fails with UnsupportedFilesystem; and it succeeds
    exactly when the path is not empty, exists, is a directory and has
    a known file-system type, the disk then holding the path and the
    name of the type. *)
Theorem New_outcomes (diskPath : string) :
  (diskPath = "" → New diskPath = Err InvalidArgument)
  ∧ (∀ s st, diskPath ≠ "" → Statfs diskPath = Ok s →
       Stat diskPath = Ok st → IsDir st = false →
       New diskPath = Err (SysError ENOTDIR))
  ∧ (∀ s st, diskPath ≠ "" → Statfs diskPath = Ok s →
       Stat diskPath = Ok st → IsDir st = true →
       getFSType (Type_ s) = "UNKNOWN" →
       New diskPath
       = Err (UnsupportedFilesystem (GoStrconv.FormatInt (Type_ s))))
  ∧ (∀ d, New diskPath = Ok d
          ↔ ∃ s st, diskPath ≠ "" ∧ Statfs diskPath = Ok s
              ∧ Stat diskPath = Ok st ∧ IsDir st = true
              ∧ getFSType (Type_ s) ≠ "UNKNOWN"
              ∧ d = mkDisk diskPath
                      (<[ "MountPoint" := diskPath ]>
                         (<[ "FSType" := getFSType (Type_ s) ]> ∅))).
Proof.
  unfold New. repeat split.
  - intros ->. reflexivity.
  - intros s st Hne Hfs Hst Hdir. apply String.eqb_neq in Hne.
    rewrite Hne, Hfs, Hst, Hdir. reflexivity.
  - intros s st Hne Hfs Hst Hdir Hty. apply String.eqb_neq in Hne.
    rewrite Hne, Hfs, Hst, Hdir, Hty. reflexivity.
  - destruct (String.eqb_spec diskPath "") as [|Hne]; [discriminate|].
    destruct (Statfs diskPath) as [s|e]; [|discriminate].
    destruct (Stat diskPath) as [st|e]; [|discriminate].
    destruct (IsDir st) eqn:Hdir; cbn [negb]; [|discriminate].
    destruct (String.eqb_spec (getFSType (Type_ s)) "UNKNOWN") as [|Hty];
      cbn [negb]; [discriminate|].
    intros [= <-]. exists s, st. repeat split; assumption.
  - intros (s & st & Hne & Hfs & Hst & Hdir & Hty & ->).
    apply String.eqb_neq in Hne, Hty.
    rewrite Hne, Hfs, Hst, Hdir. cbn [negb]. rewrite Hty. reflexivity.
Qed.
End DiskNew.

(** The three failures and the success of [New], on the example file
    system. *)
Lemma New_outcomes_witness :
  @disk.New example.os example.fstable "" = Err disk.InvalidArgument
  ∧ @disk.New example.os example.fstable "/mnt/file"
    = Err (disk.SysError disk.ENOTDIR)
  ∧ @disk.New example.os example.fstable "/mnt/other"
    = Err (disk.UnsupportedFilesystem "4919")
  ∧ @disk.New example.os example.fstable "/mnt/disk"
    = Ok (disk.mkDisk "/mnt/disk"
            (<[ "MountPoint" := "/mnt/disk" ]> (<[ "FSType" := "EXT4" ]> ∅))).
Proof.
  split; [|split; [|split]].
  - apply (@New_outcomes example.os example.fstable ""). reflexivity.
  - apply (proj1 (proj2 (@New_outcomes example.os example.fstable "/mnt/file"))
             (disk.mkStatfs 61267 4096 1000 500) (disk.mkFileInfo false true));
      [discriminate|reflexivity..].
  - apply (proj1 (proj2 (proj2
             (@New_outcomes example.os example.fstable "/mnt/other")))
             (disk.mkStatfs 4919 4096 1000 500) (disk.mkFileInfo true false));
      [discriminate|reflexivity..].
  - apply (proj2 (proj2 (proj2
             (@New_outcomes example.os example.fstable "/mnt/disk")))).
    exists (disk.mkStatfs 61267 4096 1000 500), (disk.mkFileInfo true false).
    repeat split; [discriminate|discriminate].
Defined.

(** ** Query parsing: the records as functions of the map *)

Section QueryRecords.
Import drivers.

(** The loops on a list of entries with distinct keys, none of the keys
    read having an empty list of values: the result for the map that the
    list makes. *)
Lemma bucketResources_of_list (l : list (string * list string)) :
  ∀ v : BucketResourcesMetadata.t,
    NoDup l.*1 →
    Forall (λ e, e.1 ∈ bucketKeys → e.2 ≠ []) l →
    ∃ v', api.bucketResources v l = Ret v'
      ∧ BucketResourcesMetadata.Prefix v'
        = match (list_to_map l : gmap string (list string)) !! "prefix" with
          | Some (x :: _) => x
          | _ => BucketResourcesMetadata.Prefix v
          end
      ∧ BucketResourcesMetadata.Marker v'
        = match (list_to_map l : gmap string (list string)) !! "marker" with
          | Some (x :: _) => x
          | _ => BucketResourcesMetadata.Marker v
          end
      ∧ BucketResourcesMetadata.Maxkeys v'
        = match (list_to_map l : gmap string (list string)) !! "max-keys" with
          | Some (x :: _) => (GoStrconv.Atoi x).1
          | _ => BucketResourcesMetadata.Maxkeys v
          end
      ∧ BucketResourcesMetadata.Delimiter v'
        = match (list_to_map l : gmap string (list string)) !! "delimiter" with
          | Some (x :: _) => x
          | _ => BucketResourcesMetadata.Delimiter v
          end
      ∧ BucketResourcesMetadata.EncodingType v'
        = match (list_to_map l : gmap string (list string))
                !! "encoding-type" with
          | Some (x :: _) => x
          | _ => BucketResourcesMetadata.EncodingType v
          end
      ∧ BucketResourcesMetadata.NextMarker v'
        = BucketResourcesMetadata.NextMarker v
      ∧ BucketResourcesMetadata.IsTruncated v'
        = BucketResourcesMetadata.IsTruncated v
      ∧ BucketResourcesMetadata.CommonPrefixes v'
        = BucketResourcesMetadata.CommonPrefixes v.
Proof.
  induction l as [|[key value] l IH]; intros v Hnd Hok.
  { exists v. repeat split. }
  rewrite fmap_cons in Hnd. apply NoDup_cons in Hnd as [Hkey Hnd].
  inversion Hok as [|? ? Hv Hok']; subst. cbn [fst snd] in Hv, Hkey.
  assert (Hnone : (list_to_map l : gmap string (list string)) !! key = None)
    by (apply not_elem_of_list_to_map_1; exact Hkey).
  cbn [api.bucketResources list_to_map foldr]. unfold api.bucketResource.
  destruct (String.eqb_spec key "prefix") as [->|N1].
  { destruct value as [|x rest]; [exfalso; apply Hv; [set_solver|done]|].
    rewrite index_first.
    destruct (IH (BucketResourcesMetadata.setPrefix x v) Hnd Hok')
      as (v' & -> & H1 & H2 & H3 & H4 & H5 & H6 & H7 & H8).
    exists v'. split; [reflexivity|].
    rewrite lookup_insert_eq, !lookup_insert_ne by discriminate.
    rewrite H1, Hnone. repeat split; assumption. }
  destruct (String.eqb_spec key "marker") as [->|N2].
  { destruct value as [|x rest]; [exfalso; apply Hv; [set_solver|done]|].
    rewrite index_first.
    destruct (IH (BucketResourcesMetadata.setMarker x v) Hnd Hok')
      as (v' & -> & H1 & H2 & H3 & H4 & H5 & H6 & H7 & H8).
    exists v'. split; [reflexivity|].
    rewrite lookup_insert_eq, !lookup_insert_ne by discriminate.
    rewrite H2, Hnone. repeat split; assumption. }
  destruct (String.eqb_spec key "max-keys") as [->|N3].
  { destruct value as [|x rest]; [exfalso; apply Hv; [set_solver|done]|].
    rewrite index_first.
    destruct (IH (BucketResourcesMetadata.setMaxkeys (GoStrconv.Atoi x).1 v)
                Hnd Hok')
      as (v' & -> & H1 & H2 & H3 & H4 & H5 & H6 & H7 & H8).
    exists v'. split; [reflexivity|].
    rewrite lookup_insert_eq, !lookup_insert_ne by discriminate.
    rewrite H3, Hnone. repeat split; assumption. }
  destruct (String.eqb_spec key "delimiter") as [->|N4].
  { destruct value as [|x rest]; [exfalso; apply Hv; [set_solver|done]|].
    rewrite index_first.
    destruct (IH (BucketResourcesMetadata.setDelimiter x v) Hnd Hok')
      as (v' & -> & H1 & H2 & H3 & H4 & H5 & H6 & H7 & H8).
    exists v'. split; [reflexivity|].
    rewrite lookup_insert_eq, !lookup_insert_ne by discriminate.
    rewrite H4, Hnone. repeat split; assumption. }
  destruct (String.eqb_spec key "encoding-type") as [->|N5].
  { destruct value as [|x rest]; [exfalso; apply Hv; [set_solver|done]|].
    rewrite index_first.
    destruct (IH (BucketResourcesMetadata.setEncodingType x v) Hnd Hok')
      as (v' & -> & H1 & H2 & H3 & H4 & H5 & H6 & H7 & H8).
    exists v'. split; [reflexivity|].
    rewrite lookup_insert_eq, !lookup_insert_ne by discriminate.
    rewrite H5, Hnone. repeat split; assumption. }
  destruct (IH v Hnd Hok')
    as (v' & -> & H1 & H2 & H3 & H4 & H5 & H6 & H7 & H8).
  exists v'. split; [reflexivity|].
  rewrite (lookup_insert_ne _ key "prefix"), (lookup_insert_ne _ key "marker"),
    (lookup_insert_ne _ key "max-keys"), (lookup_insert_ne _ key "delimiter"),
    (lookup_insert_ne _ key "encoding-type") by assumption.
  repeat split; assumption.
Qed.

Lemma objectResources_of_list (l : list (string * list string)) :
  ∀ v : ObjectResourcesMetadata.t,
    NoDup l.*1 →
    Forall (λ e, e.1 ∈ objectKeys → e.2 ≠ []) l →
    ∃ v', api.objectResources v l = Ret v'
      ∧ ObjectResourcesMetadata.UploadID v'
        = match (list_to_map l : gmap string (list string)) !! "uploadId" with
          | Some (x :: _) => x
          | _ => ObjectResourcesMetadata.UploadID v
          end
      ∧ ObjectResourcesMetadata.PartNumberMarker v'
        = match (list_to_map l : gmap string (list string))
                !! "part-number-marker" with
          | Some (x :: _) => (GoStrconv.Atoi x).1
          | _ => ObjectResourcesMetadata.PartNumberMarker v
          end
      ∧ ObjectResourcesMetadata.MaxParts v'
        = match (list_to_map l : gmap string (list string)) !! "max-parts" with
          | Some (x :: _) => (GoStrconv.Atoi x).1
          | _ => ObjectResourcesMetadata.MaxParts v
          end
      ∧ ObjectResourcesMetadata.EncodingType v'
        = match (list_to_map l : gmap string (list string))
                !! "encoding-type" with
          | Some (x :: _) => x
          | _ => ObjectResourcesMetadata.EncodingType v
          end.
Proof.
  induction l as [|[key value] l IH]; intros v Hnd Hok.
  { exists v. repeat split. }
  rewrite fmap_cons in Hnd. apply NoDup_cons in Hnd as [Hkey Hnd].
  inversion Hok as [|? ? Hv Hok']; subst. cbn [fst snd] in Hv, Hkey.
  assert (Hnone : (list_to_map l : gmap string (list string)) !! key = None)
    by (apply not_elem_of_list_to_map_1; exact Hkey).
  cbn [api.objectResources list_to_map foldr]. unfold api.objectResource.
  destruct (String.eqb_spec key "uploadId") as [->|N1].
  { destruct value as [|x rest]; [exfalso; apply Hv; [set_solver|done]|].
    rewrite index_first.
    destruct (IH (ObjectResourcesMetadata.setUploadID x v) Hnd Hok')
      as (v' & -> & H1 & H2 & H3 & H4).
    exists v'. split; [reflexivity|].
    rewrite lookup_insert_eq, !lookup_insert_ne by discriminate.
    rewrite H1, Hnone. repeat split; assumption. }
  destruct (String.eqb_spec key "part-number-marker") as [->|N2].
  { destruct value as [|x rest]; [exfalso; apply Hv; [set_solver|done]|].
    rewrite index_first.
    destruct (IH (ObjectResourcesMetadata.setPartNumberMarker
                    (GoStrconv.Atoi x).1 v) Hnd Hok')
      as (v' & -> & H1 & H2 & H3 & H4).
    exists v'. split; [reflexivity|].
    rewrite lookup_insert_eq, !lookup_insert_ne by discriminate.
    rewrite H2, Hnone. repeat split; assumption. }
  destruct (String.eqb_spec key "max-parts") as [->|N3].
  { destruct value as [|x rest]; [exfalso; apply Hv; [set_solver|done]|].
    rewrite index_first.
    destruct (IH (ObjectResourcesMetadata.setMaxParts (GoStrconv.Atoi x).1 v)
                Hnd Hok')
      as (v' & -> & H1 & H2 & H3 & H4).
    exists v'. split; [reflexivity|].
    rewrite lookup_insert_eq, !lookup_insert_ne by discriminate.
    rewrite H3, Hnone. repeat split; assumption. }
  destruct (String.eqb_spec key "encoding-type") as [->|N4].
  { destruct value as [|x rest]; [exfalso; apply Hv; [set_solver|done]|].
    rewrite index_first.
    destruct (IH (ObjectResourcesMetadata.setEncodingType x v) Hnd Hok')
      as (v' & -> & H1 & H2 & H3 & H4).
    exists v'. split; [reflexivity|].
    rewrite lookup_insert_eq, !lookup_insert_ne by discriminate.
    rewrite H4, Hnone. repeat split; assumption. }
  destruct (IH v Hnd Hok') as (v' & -> & H1 & H2 & H3 & H4).
  exists v'. split; [reflexivity|].
  rewrite (lookup_insert_ne _ key "uploadId"),
    (lookup_insert_ne _ key "part-number-marker"),
    (lookup_insert_ne _ key "max-parts"),
    (lookup_insert_ne _ key "encoding-type") by assumption.
  repeat split; assumption.
Qed.

(** A key that is read and has no value stops either loop with a panic,
    wherever it stands in the list. *)
Lemma bucketResources_panics (l : list (string * list string)) (key : string) :
  key ∈ bucketKeys → (key, []) ∈ l →
  ∀ v, ∃ msg, api.bucketResources v l = Panic msg.
Proof.
  intros Hkey. induction l as [|[k value] l IH]; intros Hin v.
  { inversion Hin. }
  cbn [api.bucketResources].
  apply elem_of_cons in Hin as [[= <- <-]|Hin].
  - unfold api.bucketResource, bucketKeys in *.
    repeat (apply elem_of_cons in Hkey as [->|Hkey]; [cbn; eauto|]).
    inversion Hkey.
  - destruct (api.bucketResource v k value) as [v1|msg]; [|eauto].
    exact (IH Hin v1).
Qed.

Lemma objectResources_panics (l : list (string * list string)) (key : string) :
  key ∈ objectKeys → (key, []) ∈ l →
  ∀ v, ∃ msg, api.objectResources v l = Panic msg.
Proof.
  intros Hkey. induction l as [|[k value] l IH]; intros Hin v.
  { inversion Hin. }
  cbn [api.objectResources].
  apply elem_of_cons in Hin as [[= <- <-]|Hin].
  - unfold api.objectResource, objectKeys in *.
    repeat (apply elem_of_cons in Hkey as [->|Hkey]; [cbn; eauto|]).
    inversion Hkey.
  - destruct (api.objectResource v k value) as [v1|msg]; [|eauto].
    exact (IH Hin v1).
Qed.

Context `{RangeOrder}.




(** X5.  The parsers panic exactly on the query values in which a key
    they read is present with an empty list of values ([value[0]] is
    then out of range): the keys they do not read never matter. *)
Theorem query_parsers_panic_iff (values : gmap string (list string)) :
  ((∃ msg, api.getBucketResources values = Panic msg)
   ↔ ∃ key, key ∈ bucketKeys ∧ values !! key = Some [])
  ∧ ((∃ msg, api.getObjectResources values = Panic msg)
     ↔ ∃ key, key ∈ objectKeys ∧ values !! key = Some []).
Proof.
  split; split.
  - intros [msg Hp].
    destruct (decide (Exists (λ key, values !! key = Some []) bucketKeys))
      as [Hex|Hno].
    + apply Exists_exists in Hex. exact Hex.
    + unfold api.getBucketResources in Hp.
      destruct (bucketResources_of_list (range values)
                  BucketResourcesMetadata.zero (range_NoDup_keys values))
        as (v' & Hret & _); [|rewrite Hret in Hp; discriminate].
      apply Forall_forall. intros [k vs] Hin. cbn. intros Hk ->.
      apply range_elem in Hin. apply Hno, Exists_exists. eauto.
  - intros (key & Hkey & Hempty). apply range_elem in Hempty.
    exact (bucketResources_panics _ key Hkey Hempty _).
  - intros [msg Hp].
    destruct (decide (Exists (λ key, values !! key = Some []) objectKeys))
      as [Hex|Hno].
    + apply Exists_exists in Hex. exact Hex.
    + unfold api.getObjectResources in Hp.
      destruct (objectResources_of_list (range values)
                  ObjectResourcesMetadata.zero (range_NoDup_keys values))
        as (v' & Hret & _); [|rewrite Hret in Hp; discriminate].
      apply Forall_forall. intros [k vs] Hin. cbn. intros Hk ->.
      apply range_elem in Hin. apply Hno, Exists_exists. eauto.
  - intros (key & Hkey & Hempty). apply range_elem in Hempty.
    exact (objectResources_panics _ key Hkey Hempty _).
Qed.
End QueryRecords.



(** ** Copies of a stream *)

Lemma CopyN_prefix (reader : GoIO.Reader) (n : Z) :
  0 <= n <= Z.of_nat (List.length (GoIO.pending reader)) →
  GoIO.CopyN reader n
  = (take (Z.to_nat n) (GoIO.pending reader),
     GoIO.Build_Reader (drop (Z.to_nat n) (GoIO.pending reader))
       (GoIO.failure reader),
     (n, None)).
Proof.
  intros Hn. unfold GoIO.CopyN.
  rewrite Z.min_l by lia. rewrite length_take.
  rewrite Nat.min_l by lia. rewrite Z2Nat.id by lia.
  rewrite Z.eqb_refl. reflexivity.
Qed.

Lemma CopyN_short (reader : GoIO.Reader) (n : Z) :
  Z.of_nat (List.length (GoIO.pending reader)) < n →
  GoIO.CopyN reader n
  = (GoIO.pending reader,
     GoIO.Build_Reader [] (GoIO.failure reader),
     (Z.of_nat (List.length (GoIO.pending reader)),
      Some (GoIO.endOf reader))).
Proof.
  intros Hn. unfold GoIO.CopyN.
  rewrite Z.min_r by lia. rewrite Nat2Z.id.
  rewrite firstn_all, drop_all.
  destruct (Z.eqb_spec (Z.of_nat (List.length (GoIO.pending reader))) n);
    [lia|].
  destruct (Z.ltb_spec (Z.of_nat (List.length (GoIO.pending reader))) n);
    [reflexivity|lia].
Qed.

Lemma CopyN_negative (reader : GoIO.Reader) (n : Z) :
  n < 0 →
  GoIO.CopyN reader n
  = ([], GoIO.Build_Reader (GoIO.pending reader) (GoIO.failure reader),
     (0, None)).
Proof.
  intros Hn. unfold GoIO.CopyN.
  replace (Z.to_nat (Z.min n (Z.of_nat (List.length (GoIO.pending reader)))))
    with 0%nat by lia.
  rewrite take_0, drop_0. change (Z.of_nat (List.length [])) with 0.
  destruct (Z.eqb_spec 0 n); [lia|].
  destruct (Z.ltb_spec 0 n); [lia|reflexivity].
Qed.

(** What a copy reports: with no error the count is the number of bytes
    handed over. *)
Lemma CopyN_count (reader : GoIO.Reader) (n : Z) :
  (GoIO.CopyN reader n).2.2 = None →
  (GoIO.CopyN reader n).2.1 = Z.of_nat (List.length (GoIO.CopyN reader n).1.1).
Proof.
  unfold GoIO.CopyN.
  set (k := Z.to_nat (Z.min n (Z.of_nat (List.length (GoIO.pending reader))))).
  destruct (Z.eqb_spec (Z.of_nat (List.length (take k (GoIO.pending reader)))) n)
    as [Heq|Hne]; cbn; [congruence|].
  destruct (Z.ltb_spec (Z.of_nat (List.length (take k (GoIO.pending reader)))) n);
    cbn; [discriminate|reflexivity].
Qed.

(** ** GetPartialObject: the ranges served *)

Section Ranges.
Import drivers driver.
Context `{Helpers} {D : Type} `{!donut.Donut D}.

(** X6.  A negative start is refused with InvalidRange before the store
    is asked for the object: whether the object exists plays no part and
    no call is made. *)
Theorem GetPartialObject_negative_start (s : D) (ps : list string)
    (bucketName objectName : string) (start length : Z) :
  IsValidBucket bucketName = true →
  GoStrings.Contains bucketName "." = false →
  IsValidObjectName objectName = true →
  GoStrings.TrimSpace objectName ≠ "" →
  start < 0 →
  GetPartialObject bucketName objectName start length (mkDriver (Some s) ps)
  = Ret ([], (0, Some (InvalidRange start length)), mkDriver (Some s) ps, []).
Proof.
  intros Hb Hdot Ho Hblank Hneg. apply String.eqb_neq in Hblank.
  unfold GetPartialObject. run_op. rewrite Hb, Hdot, Ho, Hblank. cbn.
  destruct (Z.ltb_spec start 0); [reflexivity|lia].
Qed.

(** X7.  On an object whose stream has exactly [size] bytes, a range
    with [0 <= start], [0 <= length] and [start + length <= size] is
    served in full: the writer receives the bytes [start] to
    [start + length - 1] of the payload, the count is [length] and there
    is no error. *)
Theorem GetPartialObject_range (s : D) (ps : list string)
    (bucketName objectName : string) (start length : Z)
    (reader : GoIO.Reader) (size : Z) :
  IsValidBucket bucketName = true →
  GoStrings.Contains bucketName "." = false →
  IsValidObjectName objectName = true →
  GoStrings.TrimSpace objectName ≠ "" →
  donut.GetObject s bucketName objectName = Ok (reader, size) →
  Z.of_nat (List.length (GoIO.pending reader)) = size →
  is_int64 size →
  0 <= start → 0 <= length → start + length <= size →
  GetPartialObject bucketName objectName start length (mkDriver (Some s) ps)
  = Ret (take (Z.to_nat length) (drop (Z.to_nat start) (GoIO.pending reader)),
         (length, None), mkDriver (Some s) ps,
         [CallGetObject bucketName objectName]).
Proof.
  intros Hb Hdot Ho Hblank Hget Hlen Hsize Hs Hl Hend.
  rewrite (GetPartialObject_existing s ps _ _ start length reader size)
    by assumption.
  rewrite last_offset_exact
    by (unfold is_int64, minInt64, maxInt64 in *; lia).
  destruct (Z.ltb_spec start 0); [lia|].
  destruct (Z.gtb_spec start size); [lia|].
  destruct (Z.gtb_spec (start + length - 1) size); [lia|]. cbn [orb].
  unfold copyRange. rewrite CopyN_prefix by lia.
  rewrite CopyN_prefix by (cbn; rewrite length_drop; lia).
  reflexivity.
Qed.

(** X8.  A negative length is not refused: with [0 <= start <= size] on
    an object whose stream has [size] bytes (and [start + length - 1]
    within 64 bits), the call discards [start] bytes, writes nothing and
    succeeds with count 0. *)
Theorem GetPartialObject_negative_length (s : D) (ps : list string)
    (bucketName objectName : string) (start length : Z)
    (reader : GoIO.Reader) (size : Z) :
  IsValidBucket bucketName = true →
  GoStrings.Contains bucketName "." = false →
  IsValidObjectName objectName = true →
  GoStrings.TrimSpace objectName ≠ "" →
  donut.GetObject s bucketName objectName = Ok (reader, size) →
  Z.of_nat (List.length (GoIO.pending reader)) = size →
  0 <= start <= size → length < 0 → is_int64 (start + length - 1) →
  GetPartialObject bucketName objectName start length (mkDriver (Some s) ps)
  = Ret ([], (0, None), mkDriver (Some s) ps,
         [CallGetObject bucketName objectName]).
Proof.
  intros Hb Hdot Ho Hblank Hget Hlen Hs Hl Hfit.
  rewrite (GetPartialObject_existing s ps _ _ start length reader size)
    by assumption.
  rewrite last_offset_exact by assumption.
  destruct (Z.ltb_spec start 0); [lia|].
  destruct (Z.gtb_spec start size); [lia|].
  destruct (Z.gtb_spec (start + length - 1) size); [lia|]. cbn [orb].
  unfold copyRange. rewrite CopyN_prefix by lia.
  rewrite CopyN_negative by assumption. reflexivity.
Qed.

(** The sum of a range that overflows: [start + length] lies above the
    largest 64-bit integer and wraps by [2^64]. *)
Lemma last_offset_wraps (start length : Z) :
  0 <= start <= maxInt64 → length <= maxInt64 →
  start + length - 1 > maxInt64 →
  int64_sub (int64_add start length) 1 = start + length - 1 - 2 ^ 64.
Proof.
  unfold maxInt64. intros Hs Hl Hover.
  assert (Hadd : int64_add start length = start + length - 2 ^ 64).
  { unfold int64_add, int64_wrap.
    replace (start + length + 2 ^ 63)
      with (start + length - 2 ^ 64 + 2 ^ 63 + 1 * 2 ^ 64) by lia.
    rewrite Z_mod_plus_full, Z.mod_small by lia. lia. }
  unfold int64_sub. rewrite Hadd.
  replace (start + length - 2 ^ 64 - 1) with (start + length - 1 - 2 ^ 64)
    by lia.
  apply int64_wrap_id. unfold is_int64, minInt64, maxInt64. lia.
Qed.

(** C1.  The range check misses an overflow.  On an existing object
    whose stream has exactly [size] bytes, take [0 <= start <= size]
    and a 64-bit [length] so large that [start + length - 1] is above
    the largest 64-bit integer: the range ends past the end of the
    object ([start + length - 1 > size]), where the claim has
    InvalidRange, but the sum wraps to a negative number, the check
    passes, and the call discards [start] bytes, writes all the bytes
    left and ends in the error of the end of the stream, with count
    0. *)
Theorem GetPartialObject_overflow_accepted (s : D) (ps : list string)
    (bucketName objectName : string) (start length : Z)
    (reader : GoIO.Reader) (size : Z) :
  IsValidBucket bucketName = true →
  GoStrings.Contains bucketName "." = false →
  IsValidObjectName objectName = true →
  GoStrings.TrimSpace objectName ≠ "" →
  donut.GetObject s bucketName objectName = Ok (reader, size) →
  Z.of_nat (List.length (GoIO.pending reader)) = size →
  0 <= start <= size → size <= maxInt64 → length <= maxInt64 →
  start + length - 1 > maxInt64 →
  start + length - 1 > size
  ∧ int64_sub (int64_add start length) 1 < 0
  ∧ GetPartialObject bucketName objectName start length
      (mkDriver (Some s) ps)
    = Ret (drop (Z.to_nat start) (GoIO.pending reader),
           (0, Some (IOError (GoIO.endOf reader))),
           mkDriver (Some s) ps, [CallGetObject bucketName objectName]).
Proof.
  intros Hb Hdot Ho Hblank Hget Hlen Hs Hsize Hl Hover.
  pose proof (last_offset_wraps start length ltac:(lia) Hl Hover) as Hwrap.
  split; [lia|]. unfold maxInt64 in *. split; [lia|].
  rewrite (GetPartialObject_existing s ps _ _ start length reader size)
    by assumption.
  rewrite Hwrap.
  destruct (Z.ltb_spec start 0); [lia|].
  destruct (Z.gtb_spec start size); [lia|].
  destruct (Z.gtb_spec (start + length - 1 - 2 ^ 64) size); [lia|].
  cbn [orb]. unfold copyRange. rewrite CopyN_prefix by lia.
  rewrite CopyN_short by (cbn; rewrite length_drop; lia).
  reflexivity.
Qed.

Lemma copyRange_count (reader : GoIO.Reader) (start length : Z) :
  ((copyRange reader start length).2.2 ≠ None →
   (copyRange reader start length).2.1 = 0)
  ∧ ((copyRange reader start length).2.2 = None →
     (copyRange reader start length).2.1
     = Z.of_nat (List.length (copyRange reader start length).1)).
Proof.
  unfold copyRange.
  destruct (GoIO.CopyN reader start) as [[o1 r1] [n1 [e1|]]]; cbn;
    [split; [reflexivity|discriminate]|].
  pose proof (CopyN_count r1 length) as Hc.
  destruct (GoIO.CopyN r1 length) as [[o2 r2] [n2 [e2|]]]; cbn in *;
    [split; [reflexivity|discriminate]|].
  split; [congruence|intros _; exact (Hc eq_refl)].
Qed.

Local Ltac failed_copy :=
  split; [intros _; reflexivity|]; split; [discriminate|auto].

(** X9.  GetPartialObject never panics and never changes the driver;
    when it reports an error the count is 0, even if bytes were written
    before the error, and when it reports none the count is the number
    of bytes written; it makes at most one call on the store. *)
Theorem GetPartialObject_count (d : donutDriver D)
    (bucketName objectName : string) (start length : Z) :
  ∃ out n err t,
    GetPartialObject bucketName objectName start length d
    = Ret (out, (n, err), d, t)
    ∧ (err ≠ None → n = 0)
    ∧ (err = None → n = Z.of_nat (List.length out))
    ∧ (t = [] ∨ t = [CallGetObject bucketName objectName]).
Proof.
  destruct d as [[s|] ps]; unfold GetPartialObject; run_op.
  2:{ eexists _, _, _, _. split; [reflexivity|].
      failed_copy. }
  destruct (negb (IsValidBucket bucketName) || _); cbn.
  { eexists _, _, _, _. split; [reflexivity|].
    failed_copy. }
  destruct (negb (IsValidObjectName objectName) || _); cbn.
  { eexists _, _, _, _. split; [reflexivity|].
    failed_copy. }
  destruct (start <? 0); cbn.
  { eexists _, _, _, _. split; [reflexivity|].
    failed_copy. }
  destruct (donut.GetObject s bucketName objectName) as [[reader size]|e]; cbn.
  2:{ eexists _, _, _, _. split; [reflexivity|].
      failed_copy. }
  destruct ((start >? size) || _); cbn.
  { eexists _, _, _, _. split; [reflexivity|].
    failed_copy. }
  pose proof (copyRange_count reader start length) as [Herr Hok].
  destruct (copyRange reader start length) as [out [n err]].
  exists out, n, err, [CallGetObject bucketName objectName].
  split; [reflexivity|]. repeat split; auto.
Qed.
End Ranges.

Lemma GetPartialObject_negative_start_witness :
  @driver.GetPartialObject specmodel.helpers specmodel.Store
    (specmodel.store_donut example.digest) "photos" "nothing" (-1) 5
    (driver.mkDriver (Some example.store) ["/mnt/disk"])
  = Ret ([], (0, Some (drivers.InvalidRange (-1) 5)),
         driver.mkDriver (Some example.store) ["/mnt/disk"], []).
Proof.
  apply (@GetPartialObject_negative_start specmodel.helpers
           specmodel.Store (specmodel.store_donut example.digest)
           example.store ["/mnt/disk"] "photos" "nothing" (-1) 5);
    [reflexivity|reflexivity|reflexivity|vm_compute; discriminate|lia].
Defined.

Lemma GetPartialObject_range_witness :
  @driver.GetPartialObject specmodel.helpers specmodel.Store
    (specmodel.store_donut example.digest) "photos" "cat" 1 2
    (driver.mkDriver (Some example.store) ["/mnt/disk"])
  = Ret ([x62; x63]%byte, (2, None),
         driver.mkDriver (Some example.store) ["/mnt/disk"],
         [driver.CallGetObject "photos" "cat"]).
Proof.
  apply (@GetPartialObject_range specmodel.helpers
           specmodel.Store (specmodel.store_donut example.digest)
           example.store ["/mnt/disk"] "photos" "cat" 1 2
           (GoIO.Build_Reader example.abc None) 3);
    [reflexivity|reflexivity|reflexivity|vm_compute; discriminate
    |reflexivity|reflexivity|vm_compute; split; discriminate|lia|lia|lia].
Defined.

(** C1 on the three-byte object photos/cat: the range from offset 2 of
    the largest length. *)
Lemma GetPartialObject_overflow_accepted_witness :
  2 + maxInt64 - 1 > 3
  ∧ int64_sub (int64_add 2 maxInt64) 1 < 0
  ∧ @driver.GetPartialObject specmodel.helpers specmodel.Store
      (specmodel.store_donut example.digest) "photos" "cat" 2 maxInt64
      (driver.mkDriver (Some example.store) ["/mnt/disk"])
    = Ret ([x63%byte], (0, Some (drivers.IOError GoIO.EOF)),
           driver.mkDriver (Some example.store) ["/mnt/disk"],
           [driver.CallGetObject "photos" "cat"]).
Proof.
  apply (@GetPartialObject_overflow_accepted specmodel.helpers
           specmodel.Store (specmodel.store_donut example.digest)
           example.store ["/mnt/disk"] "photos" "cat" 2 maxInt64
           (GoIO.Build_Reader example.abc None) 3);
    [reflexivity|reflexivity|reflexivity|vm_compute; discriminate
    |reflexivity|reflexivity|lia|vm_compute; discriminate
    |reflexivity|vm_compute; reflexivity].
Defined.

(** The other way round: from offset 0 with the least length the range
    ends before the object does, and the sum wraps to the largest
    integer: the call is refused. *)
Example GetPartialObject_wrapping_refused :
  0 + minInt64 - 1 <= 3
  ∧ int64_sub (int64_add 0 minInt64) 1 = maxInt64
  ∧ @driver.GetPartialObject specmodel.helpers specmodel.Store
      (specmodel.store_donut example.digest) "photos" "cat" 0 minInt64
      (driver.mkDriver (Some example.store) ["/mnt/disk"])
    = Ret ([], (0, Some (drivers.InvalidRange 0 minInt64)),
           driver.mkDriver (Some example.store) ["/mnt/disk"],
           [driver.CallGetObject "photos" "cat"]).
Proof.
  split; [vm_compute; discriminate|]. split; vm_compute; reflexivity.
Qed.

Lemma GetPartialObject_negative_length_witness :
  @driver.GetPartialObject specmodel.helpers specmodel.Store
    (specmodel.store_donut example.digest) "photos" "cat" 1 (-1)
    (driver.mkDriver (Some example.store) ["/mnt/disk"])
  = Ret ([], (0, None),
         driver.mkDriver (Some example.store) ["/mnt/disk"],
         [driver.CallGetObject "photos" "cat"]).
Proof.
  apply (@GetPartialObject_negative_length specmodel.helpers
           specmodel.Store (specmodel.store_donut example.digest)
           example.store ["/mnt/disk"] "photos" "cat" 1 (-1)
           (GoIO.Build_Reader example.abc None) 3);
    [reflexivity|reflexivity|reflexivity|vm_compute; discriminate
    |reflexivity|reflexivity|lia|lia|vm_compute; split; discriminate].
Defined.

(** ** The facade: errors and what reaches the store *)

Section Facade.
Import drivers driver.
Context `{RangeOrder} `{Helpers} {D : Type} `{!donut.Donut D}.

(** X10.  On an existing object GetObject copies [size] bytes of the
    stream to the writer with one call on the store: when the stream has
    them the count is [size] and there is no error; when it ends before,
    the writer has received all of it, the count is what was written and
    the error is the one the stream ended with. *)
Theorem GetObject_copies (s : D) (ps : list string)
    (bucketName objectName : string) (reader : GoIO.Reader) (size : Z) :
  IsValidBucket bucketName = true →
  GoStrings.Contains bucketName "." = false →
  IsValidObjectName objectName = true →
  GoStrings.TrimSpace objectName ≠ "" →
  donut.GetObject s bucketName objectName = Ok (reader, size) →
  0 <= size →
  let available := Z.of_nat (List.length (GoIO.pending reader)) in
  GetObject bucketName objectName (mkDriver (Some s) ps)
  = Ret (take (Z.to_nat size) (GoIO.pending reader),
         (if size <=? available then (size, None)
          else (available, Some (IOError (GoIO.endOf reader)))),
         mkDriver (Some s) ps, [CallGetObject bucketName objectName]).
Proof.
  intros Hb Hdot Ho Hblank Hget Hsize available. subst available.
  apply String.eqb_neq in Hblank.
  unfold GetObject. run_op. rewrite Hb, Hdot, Ho, Hblank. cbn.
  rewrite Hget.
  destruct (Z.leb_spec size (Z.of_nat (List.length (GoIO.pending reader)))).
  - rewrite CopyN_prefix by lia. reflexivity.
  - rewrite CopyN_short by lia. cbn.
    rewrite take_ge by lia. reflexivity.
Qed.

(** X11.  On a driver whose store is nil, every operation that uses the
    store answers InternalError, with no panic and no call. *)
Theorem nil_store_InternalError (ps : list string) :
  let d : donutDriver D := mkDriver None ps in
  ListBuckets d = Ret (Err InternalError, d, [])
  ∧ (∀ bucketName acl,
       CreateBucket bucketName acl d = Ret (Some InternalError, d, []))
  ∧ (∀ bucketName,
       GetBucketMetadata bucketName d = Ret (Err InternalError, d, []))
  ∧ (∀ bucketName acl,
       SetBucketMetadata bucketName acl d = Ret (Some InternalError, d, []))
  ∧ (∀ bucketName objectName,
       GetObject bucketName objectName d
       = Ret ([], (0, Some InternalError), d, []))
  ∧ (∀ bucketName objectName start length,
       GetPartialObject bucketName objectName start length d
       = Ret ([], (0, Some InternalError), d, []))
  ∧ (∀ bucketName objectName,
       GetObjectMetadata bucketName objectName d
       = Ret (Err InternalError, d, []))
  ∧ (∀ bucketName resources,
       ListObjects bucketName resources d = Ret (Err InternalError, d, []))
  ∧ (∀ bucketName objectName contentType expectedMD5Sum size reader,
       CreateObject bucketName objectName contentType expectedMD5Sum size
         reader d
       = Ret (Err InternalError, d, [])).
Proof. cbv zeta. repeat split. Qed.

(** X12.  With a valid bucket name on an opened store, an object name
    that is not valid or is blank is refused with ObjectNameInvalid by
    GetObject, GetPartialObject, GetObjectMetadata and CreateObject,
    with no call on the store. *)
Theorem blank_object_refused (s : D) (ps : list string)
    (bucketName objectName : string) :
  IsValidBucket bucketName = true →
  GoStrings.Contains bucketName "." = false →
  IsValidObjectName objectName = false
  ∨ GoStrings.TrimSpace objectName = "" →
  let d := mkDriver (Some s) ps in
  GetObject bucketName objectName d
  = Ret ([], (0, Some (ObjectNameInvalid objectName)), d, [])
  ∧ (∀ start length,
       GetPartialObject bucketName objectName start length d
       = Ret ([], (0, Some (ObjectNameInvalid objectName)), d, []))
  ∧ GetObjectMetadata bucketName objectName d
    = Ret (Err (ObjectNameInvalid objectName), d, [])
  ∧ (∀ contentType expectedMD5Sum size reader,
       CreateObject bucketName objectName contentType expectedMD5Sum size
         reader d
       = Ret (Err (ObjectNameInvalid objectName), d, [])).
Proof.
  intros Hb Hdot Hbad d. subst d.
  assert (Htest : negb (IsValidObjectName objectName)
                  || String.eqb (GoStrings.TrimSpace objectName) "" = true).
  { destruct Hbad as [->| ->]; [reflexivity|]. apply orb_true_r. }
  repeat split; intros;
    unfold GetObject, GetPartialObject, GetObjectMetadata, CreateObject;
    run_op; rewrite Hb, Hdot; cbn; rewrite Htest; reflexivity.
Qed.

(** X13.  Whatever error the store gives when it is asked for a bucket's
    metadata, an object or an object's metadata, the facade reports "not
    found": BucketNotFound from GetBucketMetadata and SetBucketMetadata,
    ObjectNotFound from GetObject, GetPartialObject and
    GetObjectMetadata.  The kind of the store's error is lost. *)
Theorem store_errors_become_not_found (s : D) (ps : list string)
    (bucketName objectName : string) :
  IsValidBucket bucketName = true →
  GoStrings.Contains bucketName "." = false →
  let d := mkDriver (Some s) ps in
  (∀ e, donut.GetBucketMetadata s bucketName = Err e →
   GetBucketMetadata bucketName d
   = Ret (Err (BucketNotFound bucketName), d,
          [CallGetBucketMetadata bucketName]))
  ∧ (∀ e acl,
       let acl' := if String.eqb (GoStrings.TrimSpace acl) "" then "private"
                   else acl in
       (donut.SetBucketMetadata s bucketName {[ "acl" := acl' ]}).1 = Some e →
       ∃ d' t, SetBucketMetadata bucketName acl d
               = Ret (Some (BucketNotFound bucketName), d', t))
  ∧ (∀ e, IsValidObjectName objectName = true →
     GoStrings.TrimSpace objectName ≠ "" →
     donut.GetObject s bucketName objectName = Err e →
     GetObject bucketName objectName d
     = Ret ([], (0, Some (ObjectNotFound bucketName objectName)), d,
            [CallGetObject bucketName objectName])
     ∧ ∀ start length, 0 <= start →
         GetPartialObject bucketName objectName start length d
         = Ret ([], (0, Some (ObjectNotFound bucketName objectName)), d,
                [CallGetObject bucketName objectName]))
  ∧ (∀ e, IsValidObjectName objectName = true →
     GoStrings.TrimSpace objectName ≠ "" →
     donut.GetObjectMetadata s bucketName objectName = Err e →
     GetObjectMetadata bucketName objectName d
     = Ret (Err (ObjectNotFound bucketName objectName), d,
            [CallGetObjectMetadata bucketName objectName])).
Proof.
  intros Hb Hdot d. subst d.
  split; [|split; [|split]].
  - intros e Hget. unfold GetBucketMetadata. run_op.
    rewrite Hb, Hdot. cbn. rewrite Hget. reflexivity.
  - intros e acl acl' Hset. unfold SetBucketMetadata. run_op.
    rewrite Hb, Hdot. cbn. fold acl'. rewrite Hset. eauto.
  - intros e Ho Hblank Hget. apply String.eqb_neq in Hblank. split.
    + unfold GetObject. run_op. rewrite Hb, Hdot, Ho, Hblank. cbn.
      rewrite Hget. reflexivity.
    + intros start length Hs. unfold GetPartialObject. run_op.
      rewrite Hb, Hdot, Ho, Hblank. cbn.
      destruct (Z.ltb_spec start 0); [lia|]. cbn.
      rewrite Hget. reflexivity.
  - intros e Ho Hblank Hget. apply String.eqb_neq in Hblank.
    unfold GetObjectMetadata. run_op. rewrite Hb, Hdot, Ho, Hblank. cbn.
    rewrite Hget. reflexivity.
Qed.

(** X14.  The errors of the store that the facade hands on as they are:
    those of the two listings and those of MakeBucket other than
    BucketExists, which becomes the BucketExists of the facade with the
    bucket name. *)
Theorem store_errors_passed_on (s : D) (ps : list string)
    (bucketName : string) :
  IsValidBucket bucketName = true →
  GoStrings.Contains bucketName "." = false →
  let d := mkDriver (Some s) ps in
  (∀ e, donut.ListBuckets s = Err e →
   ListBuckets d = Ret (Err (Lower e), d, [CallListBuckets]))
  ∧ ((∀ e resources,
        IsValidObjectName (BucketResourcesMetadata.Prefix resources) = true →
        donut.ListObjects s bucketName
          (BucketResourcesMetadata.Prefix resources)
          (BucketResourcesMetadata.Marker resources)
          (BucketResourcesMetadata.Delimiter resources)
          (BucketResourcesMetadata.Maxkeys resources) = Err e →
        ∃ t, ListObjects bucketName resources d = Ret (Err (Lower e), d, t))
     ∧ (∀ e acl,
          IsValidBucketACL acl = true →
          let acl' := if String.eqb (GoStrings.TrimSpace acl) "" then "private"
                      else acl in
          (donut.MakeBucket s bucketName acl').1 = Some e →
          ∃ d' t,
            CreateBucket bucketName acl d
            = Ret (Some (match e with
                         | donut.BucketExists => BucketExists bucketName
                         | _ => Lower e
                         end), d', t))).
Proof.
  intros Hb Hdot d. subst d. split.
  - intros e Hlist. unfold ListBuckets. run_op. rewrite Hlist. reflexivity.
  - split.
    + intros e resources Hp Hlist. unfold ListObjects. run_op.
      rewrite Hb, Hdot, Hp. cbn. rewrite Hlist. eauto.
    + intros e acl Hacl acl' Hmake. unfold CreateBucket. run_op.
      rewrite Hacl, Hb, Hdot. cbn. fold acl'. rewrite Hmake.
      destruct e; eauto.
Qed.

(** What CreateBucket and SetBucketMetadata hand to the store, and what
    they make of its answer. *)
Lemma CreateBucket_opened (s : D) (ps : list string) (bucketName acl : string) :
  IsValidBucket bucketName = true →
  GoStrings.Contains bucketName "." = false →
  IsValidBucketACL acl = true →
  let acl' := if String.eqb (GoStrings.TrimSpace acl) "" then "private"
              else acl in
  CreateBucket bucketName acl (mkDriver (Some s) ps)
  = Ret (match (donut.MakeBucket s bucketName acl').1 with
         | Some donut.BucketExists => Some (BucketExists bucketName)
         | Some e => Some (Lower e)
         | None => None
         end,
         mkDriver (Some (donut.MakeBucket s bucketName acl').2) ps,
         [CallMakeBucket bucketName acl']).
Proof.
  intros Hb Hdot Hacl acl'. unfold CreateBucket. run_op.
  rewrite Hacl, Hb, Hdot. cbn. fold acl'.
  destruct (donut.MakeBucket s bucketName acl') as [[e|] s']; cbn;
    [destruct e|]; reflexivity.
Qed.

Lemma SetBucketMetadata_opened (s : D) (ps : list string)
    (bucketName acl : string) :
  IsValidBucket bucketName = true →
  GoStrings.Contains bucketName "." = false →
  let acl' := if String.eqb (GoStrings.TrimSpace acl) "" then "private"
              else acl in
  let metadata : gmap string string := {[ "acl" := acl' ]} in
  SetBucketMetadata bucketName acl (mkDriver (Some s) ps)
  = Ret (match (donut.SetBucketMetadata s bucketName metadata).1 with
         | Some _ => Some (BucketNotFound bucketName)
         | None => None
         end,
         mkDriver (Some (donut.SetBucketMetadata s bucketName metadata).2) ps,
         [CallSetBucketMetadata bucketName metadata]).
Proof.
  intros Hb Hdot acl' metadata. unfold SetBucketMetadata. run_op.
  rewrite Hb, Hdot. cbn. fold acl'. fold metadata.
  destruct (donut.SetBucketMetadata s bucketName metadata) as [[e|] s'];
    reflexivity.
Qed.

(** X15.  A blank ACL reaches the store as private: with a valid bucket
    name, CreateBucket (the blank ACL being one the package accepts) and
    SetBucketMetadata make exactly one call on the store, MakeBucket
    with the ACL private and SetBucketMetadata with the map that holds
    acl = private and nothing else. *)
Theorem blank_acl_is_private (s : D) (ps : list string)
    (bucketName acl : string) :
  IsValidBucket bucketName = true →
  GoStrings.Contains bucketName "." = false →
  GoStrings.TrimSpace acl = "" →
  (IsValidBucketACL acl = true →
   ∃ r d', CreateBucket bucketName acl (mkDriver (Some s) ps)
           = Ret (r, d', [CallMakeBucket bucketName "private"]))
  ∧ (∃ r d', SetBucketMetadata bucketName acl (mkDriver (Some s) ps)
             = Ret (r, d', [CallSetBucketMetadata bucketName
                              {[ "acl" := "private" ]}])).
Proof.
  intros Hb Hdot Hblank. split.
  - intros Hacl. rewrite (CreateBucket_opened s ps _ _ Hb Hdot Hacl).
    cbv zeta. rewrite Hblank. change (String.eqb "" "") with true.
    cbv iota. eauto.
  - rewrite (SetBucketMetadata_opened s ps _ acl Hb Hdot).
    cbv zeta. rewrite Hblank. change (String.eqb "" "") with true.
    cbv iota. eauto.
Qed.

(** X16.  SetBucketMetadata does not check the ACL: an ACL that is not
    blank is written to the store as it is given, under the key acl,
    whether or not the package accepts it (CreateBucket refuses the same
    ACL with InvalidACL when it does not). *)
Theorem SetBucketMetadata_unchecked_acl (s : D) (ps : list string)
    (bucketName acl : string) :
  IsValidBucket bucketName = true →
  GoStrings.Contains bucketName "." = false →
  GoStrings.TrimSpace acl ≠ "" →
  (∃ r d', SetBucketMetadata bucketName acl (mkDriver (Some s) ps)
           = Ret (r, d', [CallSetBucketMetadata bucketName
                            {[ "acl" := acl ]}]))
  ∧ (IsValidBucketACL acl = false →
     CreateBucket bucketName acl (mkDriver (Some s) ps)
     = Ret (Some (InvalidACL acl), mkDriver (Some s) ps, [])).
Proof.
  intros Hb Hdot Hblank. apply String.eqb_neq in Hblank. split.
  - rewrite (SetBucketMetadata_opened s ps _ acl Hb Hdot).
    cbv zeta. rewrite Hblank. eauto.
  - intros Hacl. unfold CreateBucket. run_op. rewrite Hacl. reflexivity.
Qed.
End Facade.

Lemma GetObject_copies_witness :
  @driver.GetObject specmodel.helpers specmodel.Store
    (specmodel.store_donut example.digest) "photos" "cat"
    (driver.mkDriver (Some example.store) ["/mnt/disk"])
  = Ret (example.abc, (3, None),
         driver.mkDriver (Some example.store) ["/mnt/disk"],
         [driver.CallGetObject "photos" "cat"]).
Proof.
  apply (@GetObject_copies specmodel.helpers
           specmodel.Store (specmodel.store_donut example.digest)
           example.store ["/mnt/disk"] "photos" "cat"
           (GoIO.Build_Reader example.abc None) 3);
    [reflexivity|reflexivity|reflexivity|vm_compute; discriminate
    |reflexivity|lia].
Defined.

Lemma blank_object_refused_witness :
  let d := driver.mkDriver (Some example.store) ["/mnt/disk"] in
  @driver.GetObject specmodel.helpers specmodel.Store
    (specmodel.store_donut example.digest) "photos" " " d
  = Ret ([], (0, Some (drivers.ObjectNameInvalid " ")), d, [])
  ∧ @driver.GetObjectMetadata specmodel.helpers specmodel.Store
      (specmodel.store_donut example.digest) "photos" " " d
    = Ret (Err (drivers.ObjectNameInvalid " "), d, []).
Proof.
  intros d.
  pose proof (@blank_object_refused specmodel.helpers specmodel.Store
                (specmodel.store_donut example.digest) example.store
                ["/mnt/disk"] "photos" " " eq_refl eq_refl
                (or_intror eq_refl)) as Hrefused.
  cbv zeta in Hrefused. destruct Hrefused as (Hget & _ & Hmeta & _).
  exact (conj Hget Hmeta).
Defined.

Lemma store_errors_become_not_found_witness :
  let d := driver.mkDriver (Some example.store) ["/mnt/disk"] in
  @driver.GetBucketMetadata specmodel.helpers specmodel.Store
    (specmodel.store_donut example.digest) "videos" d
  = Ret (Err (drivers.BucketNotFound "videos"), d,
         [driver.CallGetBucketMetadata "videos"]).
Proof.
  intros d.
  pose proof (@store_errors_become_not_found specmodel.helpers
                specmodel.Store (specmodel.store_donut example.digest)
                example.store ["/mnt/disk"] "videos" "cat" eq_refl eq_refl)
    as Hlost.
  cbv zeta in Hlost. destruct Hlost as (Hmeta & _).
  exact (Hmeta donut.BucketNotFound eq_refl).
Defined.

Lemma store_errors_passed_on_witness :
  let d := driver.mkDriver (Some example.store) ["/mnt/disk"] in
  ∃ d' t,
    @driver.CreateBucket specmodel.helpers specmodel.Store
      (specmodel.store_donut example.digest) "photos" "private" d
    = Ret (Some (drivers.BucketExists "photos"), d', t).
Proof.
  intros d.
  pose proof (@store_errors_passed_on ascending specmodel.helpers
                specmodel.Store (specmodel.store_donut example.digest)
                example.store ["/mnt/disk"] "photos" eq_refl eq_refl)
    as Hsame.
  cbv zeta in Hsame. destruct Hsame as (_ & _ & Hmake).
  exact (Hmake donut.BucketExists "private" eq_refl eq_refl).
Defined.

Lemma blank_acl_is_private_witness :
  let d := driver.mkDriver (Some example.store) ["/mnt/disk"] in
  (∃ r d', @driver.CreateBucket specmodel.helpers specmodel.Store
             (specmodel.store_donut example.digest) "videos" "" d
           = Ret (r, d', [driver.CallMakeBucket "videos" "private"]))
  ∧ (∃ r d', @driver.SetBucketMetadata specmodel.helpers specmodel.Store
               (specmodel.store_donut example.digest) "videos" "" d
             = Ret (r, d', [driver.CallSetBucketMetadata "videos"
                              {[ "acl" := "private" ]}])).
Proof.
  intros d.
  destruct (@blank_acl_is_private specmodel.helpers specmodel.Store
              (specmodel.store_donut example.digest) example.store
              ["/mnt/disk"] "videos" "" eq_refl eq_refl eq_refl)
    as [Hcreate Hset].
  exact (conj (Hcreate eq_refl) Hset).
Defined.

Lemma SetBucketMetadata_unchecked_acl_witness :
  let d := driver.mkDriver (Some example.store) ["/mnt/disk"] in
  (∃ r d', @driver.SetBucketMetadata specmodel.helpers specmodel.Store
             (specmodel.store_donut example.digest) "photos" "bogus" d
           = Ret (r, d', [driver.CallSetBucketMetadata "photos"
                            {[ "acl" := "bogus" ]}]))
  ∧ @driver.CreateBucket specmodel.helpers specmodel.Store
      (specmodel.store_donut example.digest) "photos" "bogus" d
    = Ret (Some (drivers.InvalidACL "bogus"), d, []).
Proof.
  intros d.
  assert (Hbogus : GoStrings.TrimSpace "bogus" ≠ "")
    by (vm_compute; discriminate).
  destruct (@SetBucketMetadata_unchecked_acl specmodel.helpers
              specmodel.Store (specmodel.store_donut example.digest)
              example.store ["/mnt/disk"] "photos" "bogus" eq_refl eq_refl
              Hbogus)
    as [Hset Hcreate].
  exact (conj Hset (Hcreate eq_refl)).
Defined.

(** ** The facade never panics, ListObjects apart *)

Section NoPanic.
Import drivers driver.
Context `{RangeOrder} `{Helpers} {D : Type} `{!donut.Donut D}.


(** X17.  Whatever the driver (its store nil or not) and the arguments,
    ListBuckets, CreateBucket, GetBucketMetadata, SetBucketMetadata,
    GetObject, GetObjectMetadata and CreateObject return: none of them
    panics.  (GetPartialObject is X9; ListObjects can panic, C9.) *)
Theorem facade_returns (d : donutDriver D) :
  (∃ r d' t, ListBuckets d = Ret (r, d', t))
  ∧ (∀ bucketName acl, ∃ r d' t,
       CreateBucket bucketName acl d = Ret (r, d', t))
  ∧ (∀ bucketName, ∃ r d' t, GetBucketMetadata bucketName d = Ret (r, d', t))
  ∧ (∀ bucketName acl, ∃ r d' t,
       SetBucketMetadata bucketName acl d = Ret (r, d', t))
  ∧ (∀ bucketName objectName, ∃ r d' t,
       GetObject bucketName objectName d = Ret (r, d', t))
  ∧ (∀ bucketName objectName, ∃ r d' t,
       GetObjectMetadata bucketName objectName d = Ret (r, d', t))
  ∧ (∀ bucketName objectName contentType expectedMD5Sum size reader,
       ∃ r d' t,
         CreateObject bucketName objectName contentType expectedMD5Sum size
           reader d = Ret (r, d', t)).
Proof.
  destruct d as [[s|] ps].
  2:{ repeat split; intros; eexists _, _, _; reflexivity. }
  split; [|split; [|split; [|split; [|split; [|split]]]]]; intros.
  - unfold ListBuckets. run_op. destruct (donut.ListBuckets s); eauto.
  - unfold CreateBucket. run_op.
    destruct (negb (IsValidBucketACL acl)); cbn; [eauto|].
    destruct (IsValidBucket bucketName && _); cbn; [|eauto].
    destruct (donut.MakeBucket s bucketName _) as [[[]|] s']; cbn; eauto.
  - unfold GetBucketMetadata. run_op.
    destruct (negb (IsValidBucket bucketName) || _); cbn; [eauto|].
    destruct (donut.GetBucketMetadata s bucketName); eauto.
  - unfold SetBucketMetadata. run_op.
    destruct (negb (IsValidBucket bucketName) || _); cbn; [eauto|].
    destruct (donut.SetBucketMetadata s bucketName _) as [[|] s']; cbn; eauto.
  - unfold GetObject. run_op.
    destruct (negb (IsValidBucket bucketName) || _); cbn; [eauto|].
    destruct (negb (IsValidObjectName objectName) || _); cbn; [eauto|].
    destruct (donut.GetObject s bucketName objectName) as [[reader size]|];
      cbn; [|eauto].
    destruct (GoIO.CopyN reader size) as [[o r] [n e]]. eauto.
  - unfold GetObjectMetadata. run_op.
    destruct (negb (IsValidBucket bucketName) || _); cbn; [eauto|].
    destruct (negb (IsValidObjectName objectName) || _); cbn; [eauto|].
    destruct (donut.GetObjectMetadata s bucketName objectName); eauto.
  - unfold CreateObject. run_op.
    destruct (negb (IsValidBucket bucketName) || _); cbn; [eauto|].
    destruct (negb (IsValidObjectName objectName) || _); cbn; [eauto|].
    destruct (negb (String.eqb (GoStrings.TrimSpace expectedMD5Sum) ""));
      cbn.
    + destruct (GoBase64.DecodeString _); cbn; [|eauto].
      destruct (donut.PutObject s _ _ _ _ _) as [[|] s']; cbn; eauto.
    + destruct (donut.PutObject s _ _ _ _ _) as [[|] s']; cbn; eauto.
Qed.
End NoPanic.

(** ** The listings *)

Section Listings.
Import drivers driver.
Context `{RangeOrder} `{Helpers} {D : Type} `{!donut.Donut D}.

(** The loop of ListObjects when it succeeds: one call per key, in the
    order of the keys, and one record per key. *)
Lemma listMetadata_ok (s : D) (ps : list string) (bucketName : string)
    (names : list string) :
  ∀ acc results d' t,
    listMetadata bucketName names acc (mkDriver (Some s) ps)
    = Ret (Ok results, d', t) →
    d' = mkDriver (Some s) ps
    ∧ t = CallGetObjectMetadata bucketName <$> names
    ∧ ∃ rs, results = acc ++ rs
            ∧ ObjectMetadata.Key <$> rs = names
            ∧ Forall (listedRecord s bucketName) rs.
Proof.
  induction names as [|name names IH]; intros acc results d' t.
  { cbn. intros [= <- <- <-]. repeat split. exists [].
    rewrite app_nil_r. repeat split. constructor. }
  cbn [listMetadata]. run_op.
  destruct (donut.GetObjectMetadata s bucketName name) as [stored|e] eqn:Hget;
    [|discriminate].
  set (m := ObjectMetadata.mk "" name ""
              (donut.ObjectMetadata.Created stored) ""
              (donut.ObjectMetadata.Size stored)).
  destruct (listMetadata bucketName names (acc ++ [m]) (mkDriver (Some s) ps))
    as [[[r d1] t1]|] eqn:Hrun; [|discriminate].
  intros [= -> <- <-].
  destruct (IH _ _ _ _ Hrun) as (-> & -> & rs & -> & Hkeys & Hall).
  repeat split. exists (m :: rs). rewrite <- app_assoc.
  split; [reflexivity|]. split; [cbn; by rewrite Hkeys|].
  constructor; [|exact Hall].
  repeat split. exists stored. repeat split. exact Hget.
Qed.

(** A successful run of ListObjects, step by step. *)
Lemma ListObjects_ok (s : D) (ps : list string) (bucketName : string)
    (resources resources' : BucketResourcesMetadata.t)
    (results : list ObjectMetadata.t) (d' : donutDriver D) (t : list Call) :
  ListObjects bucketName resources (mkDriver (Some s) ps)
  = Ret (Ok (results, resources'), d', t) →
  ∃ keys commonPrefixes isTruncated rs,
    donut.ListObjects s bucketName
      (BucketResourcesMetadata.Prefix resources)
      (BucketResourcesMetadata.Marker resources)
      (BucketResourcesMetadata.Delimiter resources)
      (BucketResourcesMetadata.Maxkeys resources)
    = Ok (keys, commonPrefixes, isTruncated)
    ∧ results = GoSort.Sort byObjectKey_Less rs
    ∧ ObjectMetadata.Key <$> rs = keys
    ∧ Forall (listedRecord s bucketName) rs
    ∧ d' = mkDriver (Some s) ps
    ∧ t = CallListObjects bucketName
            (BucketResourcesMetadata.Prefix resources)
            (BucketResourcesMetadata.Marker resources)
            (BucketResourcesMetadata.Delimiter resources)
            (BucketResourcesMetadata.Maxkeys resources)
          :: (CallGetObjectMetadata bucketName <$> keys)
    ∧ let listed :=
        BucketResourcesMetadata.setIsTruncated isTruncated
          (BucketResourcesMetadata.setCommonPrefixes commonPrefixes
             resources) in
      resources'
      = if isTruncated && IsDelimiterSet listed
        then BucketResourcesMetadata.setNextMarker (List.last keys "") listed
        else listed.
Proof.
  unfold ListObjects; run_op.
  destruct (IsValidBucket bucketName); cbn; [|discriminate].
  destruct (GoStrings.Contains bucketName "."); cbn; [discriminate|].
  destruct (IsValidObjectName (BucketResourcesMetadata.Prefix resources));
    cbn; [|discriminate].
  destruct (donut.ListObjects s bucketName _ _ _ _)
    as [[[keys cps] trunc]|e]; cbn; [|discriminate].
  intros Hrun. exists keys, cps, trunc.
  destruct (trunc && IsDelimiterSet _) eqn:Hset.
  - induction keys as [|k keys' _] using rev_ind; [discriminate|].
    rewrite index_last in Hrun. cbn in Hrun.
    destruct (listMetadata bucketName (keys' ++ [k]) [] (mkDriver (Some s) ps))
      as [[[r d1] t1]|] eqn:Hloop; [|discriminate].
    destruct r as [rs|e]; [|discriminate].
    destruct (listMetadata_ok _ _ _ _ _ _ _ _ Hloop)
      as (-> & -> & rs' & Hrs & Hkeys & Hall).
    cbn [app] in Hrs. subst rs'. injection Hrun as <- <- <- <-.
    exists rs.
    repeat split; try assumption;
      rewrite ?app_nil_r, ?List.last_last; reflexivity.
  - cbn in Hrun.
    destruct (listMetadata bucketName keys [] (mkDriver (Some s) ps))
      as [[[r d1] t1]|] eqn:Hloop; [|discriminate].
    destruct r as [rs|e]; [|discriminate].
    destruct (listMetadata_ok _ _ _ _ _ _ _ _ Hloop)
      as (-> & -> & rs' & Hrs & Hkeys & Hall).
    cbn [app] in Hrs. subst rs'. injection Hrun as <- <- <- <-.
    exists rs.
    repeat split; try assumption; rewrite ?app_nil_r; reflexivity.
Qed.

(** X18.  When ListObjects succeeds, the records it returns are the
    keys that the store listed, one record per key, put in ascending
    order of key (strictly ascending when the store listed no key
    twice); it has made one ListObjects call on the store and then one
    GetObjectMetadata call per key, in the order of the store's list,
    and has left the driver as it was. *)
Theorem ListObjects_sorted (s : D) (ps : list string) (bucketName : string)
    (resources resources' : BucketResourcesMetadata.t)
    (results : list ObjectMetadata.t) (d' : donutDriver D) (t : list Call) :
  ListObjects bucketName resources (mkDriver (Some s) ps)
  = Ret (Ok (results, resources'), d', t) →
  ∃ keys commonPrefixes isTruncated,
    donut.ListObjects s bucketName
      (BucketResourcesMetadata.Prefix resources)
      (BucketResourcesMetadata.Marker resources)
      (BucketResourcesMetadata.Delimiter resources)
      (BucketResourcesMetadata.Maxkeys resources)
    = Ok (keys, commonPrefixes, isTruncated)
    ∧ ObjectMetadata.Key <$> results ≡ₚ keys
    ∧ StronglySorted
        (λ a b, String.leb (ObjectMetadata.Key a) (ObjectMetadata.Key b)
                = true) results
    ∧ (NoDup keys →
       StronglySorted
         (λ a b, String.ltb (ObjectMetadata.Key a) (ObjectMetadata.Key b)
                 = true) results)
    ∧ d' = mkDriver (Some s) ps
    ∧ t = CallListObjects bucketName
            (BucketResourcesMetadata.Prefix resources)
            (BucketResourcesMetadata.Marker resources)
            (BucketResourcesMetadata.Delimiter resources)
            (BucketResourcesMetadata.Maxkeys resources)
          :: (CallGetObjectMetadata bucketName <$> keys).
Proof.
  intros Hrun.
  destruct (ListObjects_ok _ _ _ _ _ _ _ _ Hrun)
    as (keys & cps & trunc & rs & Hlist & -> & Hkeys & _ & Hd & Ht & _).
  exists keys, cps, trunc. split; [exact Hlist|].
  split; [by rewrite (Sort_Permutation ObjectMetadata.Key), Hkeys|].
  split; [exact (Sort_sorted ObjectMetadata.Key rs)|].
  split; [|split; assumption].
  intros Hnd. apply (Sort_strict ObjectMetadata.Key). by rewrite Hkeys.
Qed.

(** X19.  The resources that a successful ListObjects returns are those
    of the request with the common prefixes and the truncation flag of
    the store's answer; the next marker is set, to the last key of the
    store's list in the store's order, exactly when the answer is
    truncated and [IsDelimiterSet] holds, and is otherwise the one of
    the request. *)
Theorem ListObjects_resources (s : D) (ps : list string) (bucketName : string)
    (resources resources' : BucketResourcesMetadata.t)
    (results : list ObjectMetadata.t) (d' : donutDriver D) (t : list Call) :
  ListObjects bucketName resources (mkDriver (Some s) ps)
  = Ret (Ok (results, resources'), d', t) →
  ∃ keys commonPrefixes isTruncated,
    donut.ListObjects s bucketName
      (BucketResourcesMetadata.Prefix resources)
      (BucketResourcesMetadata.Marker resources)
      (BucketResourcesMetadata.Delimiter resources)
      (BucketResourcesMetadata.Maxkeys resources)
    = Ok (keys, commonPrefixes, isTruncated)
    ∧ BucketResourcesMetadata.Prefix resources'
      = BucketResourcesMetadata.Prefix resources
    ∧ BucketResourcesMetadata.Marker resources'
      = BucketResourcesMetadata.Marker resources
    ∧ BucketResourcesMetadata.Maxkeys resources'
      = BucketResourcesMetadata.Maxkeys resources
    ∧ BucketResourcesMetadata.Delimiter resources'
      = BucketResourcesMetadata.Delimiter resources
    ∧ BucketResourcesMetadata.EncodingType resources'
      = BucketResourcesMetadata.EncodingType resources
    ∧ BucketResourcesMetadata.CommonPrefixes resources' = commonPrefixes
    ∧ BucketResourcesMetadata.IsTruncated resources' = isTruncated
    ∧ BucketResourcesMetadata.NextMarker resources'
      = if isTruncated
           && IsDelimiterSet
                (BucketResourcesMetadata.setIsTruncated isTruncated
                   (BucketResourcesMetadata.setCommonPrefixes commonPrefixes
                      resources))
        then List.last keys ""
        else BucketResourcesMetadata.NextMarker resources.
Proof.
  intros Hrun.
  destruct (ListObjects_ok _ _ _ _ _ _ _ _ Hrun)
    as (keys & cps & trunc & rs & Hlist & _ & _ & _ & _ & _ & Hres).
  exists keys, cps, trunc. split; [exact Hlist|].
  cbv zeta in Hres. rewrite Hres.
  destruct (trunc && IsDelimiterSet _); repeat split.
Qed.

(** X20.  A listing and a metadata request agree: for every record that
    ListObjects returns whose key is a valid object name and not blank,
    GetObjectMetadata for that key succeeds on the same driver and gives
    the same size and creation time (with, besides, the bucket, the
    content type and the MD5 digest, which the listed record leaves
    empty). *)
Theorem ListObjects_agrees_with_GetObjectMetadata (s : D) (ps : list string)
    (bucketName : string)
    (resources resources' : BucketResourcesMetadata.t)
    (results : list ObjectMetadata.t) (d' : donutDriver D) (t : list Call)
    (r : ObjectMetadata.t) :
  ListObjects bucketName resources (mkDriver (Some s) ps)
  = Ret (Ok (results, resources'), d', t) →
  r ∈ results →
  IsValidObjectName (ObjectMetadata.Key r) = true →
  GoStrings.TrimSpace (ObjectMetadata.Key r) ≠ "" →
  ∃ m, GetObjectMetadata bucketName (ObjectMetadata.Key r) d'
       = Ret (Ok m, d',
              [CallGetObjectMetadata bucketName (ObjectMetadata.Key r)])
       ∧ ObjectMetadata.Key m = ObjectMetadata.Key r
       ∧ ObjectMetadata.Size m = ObjectMetadata.Size r
       ∧ ObjectMetadata.Created m = ObjectMetadata.Created r
       ∧ ObjectMetadata.Bucket m = bucketName.
Proof.
  intros Hrun Hin Ho Hblank. apply String.eqb_neq in Hblank.
  assert (Hvalid : IsValidBucket bucketName = true
                   ∧ GoStrings.Contains bucketName "." = false).
  { revert Hrun. unfold ListObjects; run_op.
    destruct (IsValidBucket bucketName); cbn; [|discriminate].
    destruct (GoStrings.Contains bucketName "."); cbn; [discriminate|].
    by intros _. }
  destruct Hvalid as [Hb Hdot].
  destruct (ListObjects_ok _ _ _ _ _ _ _ _ Hrun)
    as (keys & cps & trunc & rs & _ & -> & _ & Hall & -> & _ & _).
  rewrite (Sort_Permutation ObjectMetadata.Key) in Hin.
  rewrite Forall_forall in Hall.
  destruct (Hall r Hin) as (_ & _ & _ & stored & Hget & Hcreated & Hsize).
  unfold GetObjectMetadata. run_op. rewrite Hb, Hdot, Ho, Hblank. cbn.
  rewrite Hget. eexists. split; [reflexivity|].
  cbn. repeat split; congruence.
Qed.

(** X21.  Every record that ListBuckets returns names a bucket of the
    map that the store listed and carries the creation time recorded
    there; its ACL is empty, whatever ACL the store holds for the bucket
    (GetBucketMetadata is the operation that returns the ACL). *)
Theorem ListBuckets_records (s : D) (ps : list string)
    (buckets : gmap string donut.BucketMetadata.t)
    (results : list BucketMetadata.t) (d' : donutDriver D) (t : list Call) :
  donut.ListBuckets s = Ok buckets →
  ListBuckets (mkDriver (Some s) ps) = Ret (Ok results, d', t) →
  Forall (λ r, BucketMetadata.ACL r = ""
               ∧ ∃ stored,
                   buckets !! BucketMetadata.Name r = Some stored
                   ∧ BucketMetadata.Created r
                     = donut.BucketMetadata.Created stored) results
  ∧ List.length results = size buckets.
Proof.
  intros Hlist. unfold ListBuckets. run_op. rewrite Hlist.
  intros [= <- _ _]. split.
  - apply Forall_forall. intros r Hin.
    change (r ∈ GoSort.Sort (keyLess BucketMetadata.Name)
                  (bucketRecord <$> range buckets)) in Hin.
    rewrite (Sort_Permutation BucketMetadata.Name) in Hin.
    apply list_elem_of_fmap in Hin as ([name stored] & -> & Hin).
    apply range_elem in Hin. split; [reflexivity|].
    exists stored. split; [exact Hin|reflexivity].
  - change (List.length (GoSort.Sort (keyLess BucketMetadata.Name)
                           (bucketRecord <$> range buckets)) = size buckets).
    rewrite (Sort_Permutation BucketMetadata.Name), length_fmap.
    rewrite (range_perm _ buckets). apply length_map_to_list.
Qed.
End Listings.

(** The run that the two examples below are about: two keys listed in
    descending order, returned in ascending order. *)
Lemma ListObjects_catalogue :
  @driver.ListObjects specmodel.helpers specmodel.Store
    (specmodel.store_donut example.digest) "photos" catalogue.request
    (driver.mkDriver (Some catalogue.store) ["/mnt/disk"])
  = Ret (Ok ([catalogue.cat; catalogue.dogRecord], catalogue.answer),
         driver.mkDriver (Some catalogue.store) ["/mnt/disk"],
         catalogue.calls).
Proof. vm_compute. reflexivity. Defined.

(** X18 on that run: the store lists pets-dog before pets-cat and is
    asked for their metadata in that order; the records come back with
    pets-cat first. *)
Lemma ListObjects_sorted_witness :
  drivers.ObjectMetadata.Key <$> [catalogue.cat; catalogue.dogRecord]
    ≡ₚ ["pets-dog"; "pets-cat"]
  ∧ StronglySorted
      (λ a b, String.leb (drivers.ObjectMetadata.Key a)
                (drivers.ObjectMetadata.Key b) = true)
      [catalogue.cat; catalogue.dogRecord]
  ∧ (NoDup ["pets-dog"; "pets-cat"] →
     StronglySorted
       (λ a b, String.ltb (drivers.ObjectMetadata.Key a)
                 (drivers.ObjectMetadata.Key b) = true)
       [catalogue.cat; catalogue.dogRecord])
  ∧ catalogue.calls
    = driver.CallListObjects "photos" "pets-" "pets-b" "/" 2
      :: (driver.CallGetObjectMetadata "photos"
          <$> ["pets-dog"; "pets-cat"]).
Proof.
  destruct (@ListObjects_sorted specmodel.helpers specmodel.Store
              (specmodel.store_donut example.digest) catalogue.store
              ["/mnt/disk"] "photos" _ _ _ _ _ ListObjects_catalogue)
    as (keys & cps & trunc & Hlist & Hperm & Hle & Hlt & _ & Hcalls).
  injection Hlist as <- _ _.
  exact (conj Hperm (conj Hle (conj Hlt Hcalls))).
Defined.

(** X19 on that run: the fields of the request are kept, the common
    prefix and the truncation flag are the store's, and the next marker
    is pets-cat, the last key in the order of the store, not pets-dog,
    the last one returned. *)
Lemma ListObjects_resources_witness :
  let answer := catalogue.answer in
  drivers.BucketResourcesMetadata.Prefix answer = "pets-"
  ∧ drivers.BucketResourcesMetadata.Marker answer = "pets-b"
  ∧ drivers.BucketResourcesMetadata.Maxkeys answer = 2
  ∧ drivers.BucketResourcesMetadata.Delimiter answer = "/"
  ∧ drivers.BucketResourcesMetadata.EncodingType answer = "url"
  ∧ drivers.BucketResourcesMetadata.CommonPrefixes answer = ["pets-a/"]
  ∧ drivers.BucketResourcesMetadata.IsTruncated answer = true
  ∧ drivers.BucketResourcesMetadata.NextMarker answer
    = List.last ["pets-dog"; "pets-cat"] "".
Proof.
  intros answer.
  destruct (@ListObjects_resources specmodel.helpers specmodel.Store
              (specmodel.store_donut example.digest) catalogue.store
              ["/mnt/disk"] "photos" _ _ _ _ _ ListObjects_catalogue)
    as (keys & cps & trunc & Hlist & Hp & Hm & Hk & Hd & He & Hc & Ht & Hn).
  injection Hlist as <- <- <-.
  exact (conj Hp (conj Hm (conj Hk (conj Hd (conj He (conj Hc
           (conj Ht Hn))))))).
Defined.

Lemma ListObjects_agrees_with_GetObjectMetadata_witness :
  let d := driver.mkDriver (Some example.store) ["/mnt/disk"] in
  ∃ m, @driver.GetObjectMetadata specmodel.helpers specmodel.Store
         (specmodel.store_donut example.digest) "photos" "cat" d
       = Ret (Ok m, d, [driver.CallGetObjectMetadata "photos" "cat"])
       ∧ drivers.ObjectMetadata.Key m = "cat"
       ∧ drivers.ObjectMetadata.Size m = 3
       ∧ drivers.ObjectMetadata.Created m = 7
       ∧ drivers.ObjectMetadata.Bucket m = "photos".
Proof.
  intros d.
  assert (Hrun :
    @driver.ListObjects specmodel.helpers specmodel.Store
      (specmodel.store_donut example.digest) "photos"
      drivers.BucketResourcesMetadata.zero d
    = Ret (Ok ([drivers.ObjectMetadata.mk "" "cat" "" 7 "" 3],
               drivers.BucketResourcesMetadata.zero),
           d,
           [driver.CallListObjects "photos" "" "" "" 0;
            driver.CallGetObjectMetadata "photos" "cat"]))
    by (vm_compute; reflexivity).
  assert (Hcat : GoStrings.TrimSpace "cat" ≠ "")
    by (vm_compute; discriminate).
  exact (@ListObjects_agrees_with_GetObjectMetadata specmodel.helpers
           specmodel.Store (specmodel.store_donut example.digest)
           example.store ["/mnt/disk"] "photos" _ _ _ _ _
           (drivers.ObjectMetadata.mk "" "cat" "" 7 "" 3) Hrun
           (list_elem_of_here _ _) eq_refl Hcat).
Defined.

Lemma ListBuckets_records_witness :
  let results := [drivers.BucketMetadata.mk "music" 2 "";
                  drivers.BucketMetadata.mk "photos" 1 ""] in
  Forall (λ r, drivers.BucketMetadata.ACL r = ""
               ∧ ∃ stored,
                   specmodel.buckets example.store
                     !! drivers.BucketMetadata.Name r = Some stored
                   ∧ drivers.BucketMetadata.Created r
                     = donut.BucketMetadata.Created stored) results
  ∧ List.length results = size (specmodel.buckets example.store).
Proof.
  intros results.
  assert (Hrun :
    @driver.ListBuckets ascending specmodel.Store
      (specmodel.store_donut example.digest)
      (driver.mkDriver (Some example.store) ["/mnt/disk"])
    = Ret (Ok results, driver.mkDriver (Some example.store) ["/mnt/disk"],
           [driver.CallListBuckets]))
    by (vm_compute; reflexivity).
  exact (@ListBuckets_records ascending specmodel.Store
           (specmodel.store_donut example.digest) example.store
           ["/mnt/disk"] _ _ _ _ eq_refl Hrun).
Defined.

(** ** Cleaning a path *)

Section CleanPaths.
Import paths.

(** The embedding of path/filepath on the examples of the library. *)
Lemma Clean_table :
  Forall (λ t, GoFilepath.Clean t.1 = t.2) cleanTable
  ∧ Forall (λ t, GoFilepath.Dir t.1 = t.2) dirTable
  ∧ Forall (λ t, GoFilepath.Join t.1 = t.2) joinTable.
Proof. repeat split; repeat constructor. Qed.

Lemma split_nonempty p : split p ≠ [].
Proof. destruct p as [|c p]; cbn; [done|]. by repeat case_match. Qed.

Lemma split_cons_nonsep c p :
  GoFilepath.IsPathSeparator c = false →
  split (c :: p) = (c :: hd [] (split p)) :: tl (split p).
Proof.
  intros Hc. cbn. rewrite Hc.
  destruct (split p) eqn:E; [by destruct (split_nonempty p)|done].
Qed.

Lemma split_sepfree p : Forall sepfree (split p).
Proof.
  induction p as [|c p IH]; cbn.
  - repeat constructor.
  - destruct (GoFilepath.IsPathSeparator c) eqn:Hc.
    + constructor; [constructor|done].
    + destruct (split p) as [|e es]; [repeat constructor; done|].
      inversion IH; subst. constructor; [by constructor|done].
Qed.

Lemma endsElement_hd rest :
  GoFilepath.endsElement rest = bool_decide (hd [] (split rest) = []).
Proof.
  destruct rest as [|c rest]; cbn; [done|].
  destruct (GoFilepath.IsPathSeparator c); cbn; [done|].
  by destruct (split rest).
Qed.

Lemma step_skip rooted st e : e = [] ∨ e = dot → step rooted st e = st.
Proof. intros He. unfold step. by rewrite bool_decide_true. Qed.

Lemma foldl_step_hd rooted st r :
  hd [] (split r) = [] →
  (foldl (step rooted) st (split r)).1
  = (foldl (step rooted) st (tl (split r))).1.
Proof.
  destruct (split r) as [|e es] eqn:E; [done|]. cbn. intros ->.
  by rewrite step_skip by (by left).
Qed.

Lemma scan_split rooted n :
  ∀ p, (length p ≤ n)%nat → ∀ out dd,
    GoFilepath.scan rooted p false out dd
    = (foldl (step rooted) (out, dd) (split p)).1
    ∧ GoFilepath.scan rooted p true out dd
      = (foldl (step rooted) (rev (hd [] (split p)) ++ out, dd)
           (tl (split p))).1.
Proof.
  induction n as [|n IH]; intros p Hn out dd.
  { destruct p; [|cbn in Hn; lia]. done. }
  destruct p as [|c rest]; [done|]. cbn [length] in Hn.
  assert (Hrest : (length rest ≤ n)%nat) by lia.
  destruct (GoFilepath.IsPathSeparator c) eqn:Hc.
  { cbn. rewrite Hc. split; apply (IH rest Hrest). }
  rewrite (split_cons_nonsep _ _ Hc). split.
  2:{ cbn. rewrite Hc. rewrite (proj2 (IH rest Hrest _ _)).
      by rewrite <- app_assoc. }
  cbn [GoFilepath.scan]. rewrite Hc. rewrite endsElement_hd.
  assert (Hne : c :: hd [] (split rest) ≠ []) by done.
  destruct (Ascii.eqb_spec c ".") as [->|Hdot]; cbn [andb].
  - case_bool_decide as He.
    + (* . element *)
      rewrite (proj1 (IH rest Hrest _ _)), He. cbn [foldl].
      rewrite (step_skip rooted (out, dd) ["."%char]) by (by right).
      by apply foldl_step_hd.
    + destruct rest as [|d r2]; [done|].
      destruct (GoFilepath.IsPathSeparator d) eqn:Hd.
      { exfalso. apply He. cbn. by rewrite Hd. }
      assert (Hr2 : (length r2 ≤ n)%nat) by (cbn [length] in Hrest; lia).
      rewrite (split_cons_nonsep _ _ Hd). cbn [hd tl].
      rewrite endsElement_hd.
      destruct (Ascii.eqb_spec d ".") as [->|Hdd]; cbn [andb].
      * case_bool_decide as He2.
        -- (* .. element *)
           rewrite He2. cbn [foldl]. unfold step at 2.
           rewrite bool_decide_false by (intros [?|?]; discriminate).
           rewrite bool_decide_true by done. cbn [fst snd].
           assert (Hskip : ∀ o k, GoFilepath.scan rooted r2 false o k
                   = (foldl (step rooted) (o, k) (tl (split r2))).1).
           { intros o k. rewrite (proj1 (IH r2 ltac:(lia) _ _)).
             by apply foldl_step_hd. }
           destruct (dd <? length out)%nat; [apply Hskip|].
           destruct rooted; cbn [negb]; apply Hskip.
        -- cbn [foldl]. unfold step at 2.
           rewrite bool_decide_false by (intros [?|?]; discriminate).
           rewrite bool_decide_false
             by (intros [= E]; by destruct (hd [] (split r2))).
           cbn [fst snd].
           rewrite (proj2 (IH _ Hrest _ _)).
           rewrite (split_cons_nonsep _ _ Hd). cbn [hd tl].
           unfold addSeparator. cbn [rev]. by rewrite <- !app_assoc.
      * cbn [foldl]. unfold step at 2.
        rewrite bool_decide_false by (intros [?|?]; discriminate).
        rewrite bool_decide_false by (intros [= E]; congruence).
        cbn [fst snd].
        rewrite (proj2 (IH _ Hrest _ _)).
        rewrite (split_cons_nonsep _ _ Hd). cbn [hd tl].
        unfold addSeparator. cbn [rev]. by rewrite <- !app_assoc.
  - assert (Hreal :
      (let w := length out in
       let out0 := if rooted && negb (w =? 1)%nat
                      || negb rooted && negb (w =? 0)%nat
                   then GoFilepath.Separator :: out else out in
       GoFilepath.scan rooted rest true (c :: out0) dd)
      = (foldl (step rooted) (out, dd)
           ((c :: hd [] (split rest)) :: tl (split rest))).1).
    { cbn [foldl]. unfold step at 2.
      rewrite bool_decide_false
        by (intros [?|E]; [discriminate|injection E; intros; congruence]).
      rewrite bool_decide_false by (intros [= E]; congruence).
      cbn [fst snd]. cbv zeta.
      rewrite (proj2 (IH _ Hrest _ _)).
      unfold addSeparator. cbn [rev]. by rewrite <- !app_assoc. }
    destruct rest as [|d r2]; [exact Hreal|exact Hreal].
Qed.

Lemma addSeparator_length rooted out :
  (length out ≤ length (addSeparator rooted out))%nat.
Proof. unfold addSeparator. case_match; cbn; lia. Qed.

Lemma buf_length rooted ups names :
  (length (buf rooted ups []) ≤ length (buf rooted ups names))%nat.
Proof.
  induction names as [|e names IH]; [done|].
  change (buf rooted ups (e :: names))
    with (rev e ++ addSeparator rooted (buf rooted ups names)).
  rewrite length_app.
  pose proof (addSeparator_length rooted (buf rooted ups names)). lia.
Qed.

Lemma buf_rooted ups names :
  ∃ pre, buf true ups names = pre ++ [GoFilepath.Separator].
Proof.
  induction names as [|e names [pre IH]]; [by exists []|].
  cbn [buf]. rewrite IH. unfold addSeparator.
  case_match.
  - exists (rev e ++ GoFilepath.Separator :: pre). by rewrite <- app_assoc.
  - exists (rev e ++ pre). by rewrite <- app_assoc.
Qed.

(** Backing over one name, with and without the separator before it. *)
Lemma backtrack_name dd r b :
  r ≠ [] → sepfree r → (dd ≤ length b)%nat →
  GoFilepath.backtrack dd (r ++ GoFilepath.Separator :: b) = b
  ∧ (length b = dd → GoFilepath.backtrack dd (r ++ b) = b).
Proof.
  intros Hne Hfree Hdd.
  induction r as [|c r IH]; [done|].
  inversion Hfree as [|? ? Hc Hfree']; subst.
  cbn [app GoFilepath.backtrack]. rewrite Hc. cbn [negb].
  destruct r as [|c' r].
  - cbn [app length]. split.
    + rewrite (proj2 (Nat.ltb_lt _ _)) by lia. cbn.
      change (GoFilepath.IsPathSeparator GoFilepath.Separator) with true.
      cbn. by rewrite andb_false_r.
    + intros Hb. by rewrite (proj2 (Nat.ltb_ge _ _)) by lia.
  - destruct (IH ltac:(done) Hfree') as [IH1 IH2]. split.
    + rewrite (proj2 (Nat.ltb_lt _ _)); [exact IH1|].
      rewrite length_app. cbn. lia.
    + intros Hb. rewrite (proj2 (Nat.ltb_lt _ _)); [by apply IH2|].
      rewrite length_app. cbn. lia.
Qed.

Lemma sepfree_rev e : sepfree e → sepfree (rev e).
Proof. apply List.Forall_rev. Qed.

Lemma step_buf rooted ups names e :
  sepfree e → Forall real names →
  step rooted (buf rooted ups names, length (buf rooted ups [])) e
  = (buf rooted (stepNames rooted (ups, names) e).1
       (stepNames rooted (ups, names) e).2,
     length (buf rooted (stepNames rooted (ups, names) e).1 []))
  ∧ Forall real (stepNames rooted (ups, names) e).2.
Proof.
  intros Hfree Hnames. unfold step, stepNames.
  case_bool_decide as Hskip; [done|].
  case_bool_decide as Hup; cbn [fst snd].
  - destruct names as [|top below].
    + rewrite (proj2 (Nat.ltb_ge _ _)) by done.
      destruct rooted; cbn [negb]; [done|]. done.
    + inversion Hnames as [|? ? (Htop & _ & _ & Hfreetop) Hbelow]; subst.
      split; [|done].
      assert (Hlt : (length (buf rooted ups [])
                     < length (buf rooted ups (top :: below)))%nat).
      { pose proof (buf_length rooted ups below).
        change (buf rooted ups (top :: below))
          with (rev top ++ addSeparator rooted (buf rooted ups below)).
        rewrite length_app, length_rev.
        pose proof (addSeparator_length rooted (buf rooted ups below)).
        destruct top; [done|cbn [length]; lia]. }
      rewrite (proj2 (Nat.ltb_lt _ _)) by exact Hlt.
      f_equal. cbn [buf].
      assert (Hr : rev top ≠ []).
      { intros E. apply Htop. by rewrite <- (rev_involutive top), E. }
      destruct (backtrack_name (length (buf rooted ups [])) (rev top)
                  (buf rooted ups below) Hr (sepfree_rev _ Hfreetop)
                  (buf_length _ _ _)) as [H1 H2].
      unfold addSeparator.
      destruct (rooted && negb (length (buf rooted ups below) =? 1)%nat
                || negb rooted && negb (length (buf rooted ups below) =? 0)%nat)
        eqn:Hsep; [exact H1|].
      apply H2. pose proof (buf_length rooted ups below) as Hle.
      destruct rooted; cbn in Hsep, Hle |- *.
      * rewrite orb_false_r in Hsep. apply negb_false_iff, Nat.eqb_eq in Hsep.
        done.
      * apply negb_false_iff, Nat.eqb_eq in Hsep. lia.
  - split; [done|]. constructor; [|done].
    repeat split; [| |done..]; intros ->; apply Hskip; auto.
Qed.

Lemma foldl_step_buf rooted es : ∀ ups names,
  Forall sepfree es → Forall real names →
  foldl (step rooted) (buf rooted ups names, length (buf rooted ups [])) es
  = (buf rooted (foldl (stepNames rooted) (ups, names) es).1
       (foldl (stepNames rooted) (ups, names) es).2,
     length (buf rooted (foldl (stepNames rooted) (ups, names) es).1 []))
  ∧ Forall real (foldl (stepNames rooted) (ups, names) es).2.
Proof.
  induction es as [|e es IH]; intros ups names Hes Hnames; [done|].
  inversion Hes; subst. cbn [foldl].
  destruct (step_buf rooted ups names e) as [-> Hreal]; [done..|].
  destruct (stepNames rooted (ups, names) e) as [ups' names'] eqn:E.
  by apply IH.
Qed.

(** [Clean] by the elements of the path. *)
Lemma Clean_names path :
  GoFilepath.Clean path
  = match list_ascii_of_string path with
    | [] => "."
    | c :: rest =>
        if GoFilepath.IsPathSeparator c then render true (namesOf true rest)
        else render false (namesOf false (c :: rest))
    end.
Proof.
  unfold GoFilepath.Clean.
  destruct (list_ascii_of_string path) as [|c rest]; [done|].
  cbv zeta. destruct (GoFilepath.IsPathSeparator c) eqn:Hc.
  - rewrite (proj1 (scan_split true _ rest (le_n _) _ _)).
    change ([GoFilepath.Separator], 1%nat)
      with (buf true 0 [], length (buf true 0 [])).
    rewrite (proj1 (foldl_step_buf true (split rest) 0%nat []
                      (split_sepfree _) (List.Forall_nil _))).
    reflexivity.
  - rewrite (proj1 (scan_split false _ (c :: rest) (le_n _) _ _)).
    change ([] : list ascii, 0%nat)
      with (buf false 0 [], length (buf false 0 [])).
    rewrite (proj1 (foldl_step_buf false (split (c :: rest)) 0%nat []
                      (split_sepfree _) (List.Forall_nil _))).
    reflexivity.
Qed.

Lemma Clean_render path :
  GoFilepath.Clean path = render (isRooted path) (pathNames path).
Proof.
  rewrite Clean_names. unfold isRooted, pathNames.
  destruct (list_ascii_of_string path) as [|c rest]; [done|].
  by destruct (GoFilepath.IsPathSeparator c).
Qed.

Lemma list_ascii_of_string_app (a b : string) :
  list_ascii_of_string (a +:+ b)
  = list_ascii_of_string a ++ list_ascii_of_string b.
Proof.
  induction a as [|c a IH]; [done|].
  simpl. by rewrite IH.
Qed.

Lemma string_of_list_ascii_app (a b : list ascii) :
  string_of_list_ascii (a ++ b)
  = string_of_list_ascii a +:+ string_of_list_ascii b.
Proof.
  induction a as [|c a IH]; [done|].
  simpl. by rewrite IH.
Qed.

Lemma split_app a b :
  split (a ++ GoFilepath.Separator :: b) = split a ++ split b.
Proof.
  induction a as [|c a IH]; [done|].
  cbn [app split]. rewrite IH.
  destruct (GoFilepath.IsPathSeparator c); [done|].
  destruct (split a) eqn:E; [by destruct (split_nonempty a)|done].
Qed.

Lemma namesOf_real rooted p : Forall real (namesOf rooted p).2.
Proof.
  unfold namesOf.
  exact (proj2 (foldl_step_buf rooted (split p) 0%nat []
                  (split_sepfree _) (List.Forall_nil _))).
Qed.

Lemma pathNames_real path : Forall real (pathNames path).2.
Proof.
  unfold pathNames. destruct (list_ascii_of_string path); [constructor|].
  case_match; apply namesOf_real.
Qed.

(** [Join] of a directory and a name, by elements. *)
Lemma Join_render root name :
  root ≠ "" →
  GoFilepath.Join [root; name]
  = render (isRooted root)
      (foldl (stepNames (isRooted root)) (pathNames root)
         (split (list_ascii_of_string name))).
Proof.
  intros Hroot. cbn [GoFilepath.Join].
  rewrite (proj2 (String.eqb_neq _ _) Hroot).
  cbn [GoStrings.Join]. rewrite Clean_render.
  unfold isRooted, pathNames, namesOf.
  rewrite !list_ascii_of_string_app.
  destruct (list_ascii_of_string root) as [|c rest] eqn:E.
  { destruct root; [done|discriminate]. }
  cbn [app list_ascii_of_string].
  change ("/"%char) with GoFilepath.Separator.
  destruct (GoFilepath.IsPathSeparator c) eqn:Hc.
  - by rewrite split_app, foldl_app.
  - by rewrite app_comm_cons, split_app, foldl_app.
Qed.

(** Elements other than "..", pushed one after the other. *)
Lemma stepNames_push rooted es : ∀ ups names,
  dotdot ∉ es →
  foldl (stepNames rooted) (ups, names) es
  = (ups, rev (List.filter (λ e, negb (bool_decide (e = [] ∨ e = dot))) es)
          ++ names).
Proof.
  induction es as [|e es IH]; intros ups names Hes; [done|].
  apply not_elem_of_cons in Hes as [He Hes].
  cbn [foldl List.filter]. unfold stepNames at 2.
  case_bool_decide as Hskip; cbn [negb].
  - by apply IH.
  - rewrite bool_decide_false by done. cbn [fst snd].
    rewrite IH by done. cbn [rev]. by rewrite <- app_assoc.
Qed.

Lemma buf_extend rooted ups ext names :
  buf rooted ups names ≠ [] →
  ∃ more,
    buf rooted ups (ext ++ names) = more ++ buf rooted ups names
    ∧ (more = [] ∨ buf rooted ups names = [GoFilepath.Separator]
       ∨ ∃ more', more = more' ++ [GoFilepath.Separator]).
Proof.
  intros Hne. induction ext as [|e ext (more & Hmore & Hcases)].
  { exists []. auto. }
  cbn [app buf]. rewrite Hmore. unfold addSeparator.
  destruct (rooted && negb (length (more ++ buf rooted ups names) =? 1)%nat
            || negb rooted
               && negb (length (more ++ buf rooted ups names) =? 0)%nat)
    eqn:Hsep.
  - exists (rev e ++ GoFilepath.Separator :: more). split.
    + by rewrite <- app_assoc.
    + destruct Hcases as [->|[Hb|[more' ->]]].
      * right. right. by exists (rev e).
      * right. by left.
      * right. right. exists (rev e ++ GoFilepath.Separator :: more').
        by rewrite <- app_assoc.
  - exists (rev e ++ more). split; [by rewrite <- app_assoc|].
    right. left.
    assert (Hlen : length (buf rooted ups names) ≠ 0%nat)
      by (by destruct (buf rooted ups names)).
    rewrite length_app in Hsep.
    destruct rooted; cbn in Hsep.
    + rewrite orb_false_r in Hsep. apply negb_false_iff, Nat.eqb_eq in Hsep.
      destruct (buf_rooted ups names) as [pre Hpre].
      rewrite Hpre in Hsep |- *. rewrite length_app in Hsep. cbn in Hsep.
      destruct pre; [done|cbn in Hsep; lia].
    + apply negb_false_iff, Nat.eqb_eq in Hsep. lia.
Qed.

Lemma render_nonempty rooted st :
  buf rooted st.1 st.2 ≠ [] →
  render rooted st = string_of_list_ascii (rev (buf rooted st.1 st.2)).
Proof. unfold render. cbv zeta. by destruct (buf rooted st.1 st.2). Qed.

Lemma render_empty rooted st :
  buf rooted st.1 st.2 = [] → render rooted st = ".".
Proof. unfold render. cbv zeta. by intros ->. Qed.

Lemma render_dot rooted st :
  render rooted st ≠ "." → buf rooted st.1 st.2 ≠ [].
Proof. intros Hne Hb. by apply Hne, render_empty. Qed.

Lemma render_extend rooted ups ext names :
  buf rooted ups names ≠ [] →
  under (render rooted (ups, names)) (render rooted (ups, ext ++ names)).
Proof.
  intros Hne.
  destruct (buf_extend rooted ups ext names Hne) as (more & Hmore & Hcases).
  rewrite (render_nonempty rooted (ups, names)) by done.
  rewrite (render_nonempty rooted (ups, ext ++ names))
    by (cbn [fst snd]; rewrite Hmore; by destruct more).
  cbn [fst snd]. rewrite Hmore, rev_app_distr, string_of_list_ascii_app.
  eexists. split; [reflexivity|].
  destruct Hcases as [->|[->|[more' ->]]].
  - by left.
  - right. by left.
  - right. right. rewrite rev_app_distr. cbn.
    by destruct (string_of_list_ascii (rev more')).
Qed.

Lemma Join_under root name :
  GoFilepath.Clean root ≠ "." →
  dotdot ∉ split (list_ascii_of_string name) →
  under (GoFilepath.Clean root) (GoFilepath.Join [root; name]).
Proof.
  intros Hdot Hname.
  assert (Hroot : root ≠ "") by (by intros ->).
  rewrite Join_render by done. rewrite Clean_render in Hdot |- *.
  destruct (pathNames root) as [ups names].
  rewrite stepNames_push by done.
  apply render_extend. by apply (render_dot _ (ups, names)).
Qed.

Lemma Join_empty root : root ≠ "" → GoFilepath.Join [root; ""] = GoFilepath.Clean root.
Proof.
  intros Hroot. rewrite Join_render by done. by rewrite Clean_render.
Qed.

(** *** Reading a cleaned path again *)

Lemma split_one e : sepfree e → split e = [e].
Proof.
  induction 1 as [|c e Hc _ IH]; [done|]. cbn. by rewrite Hc, IH.
Qed.

Lemma stepNames_real rooted st e :
  real e → stepNames rooted st e = (st.1, e :: st.2).
Proof.
  intros (H1 & H2 & H3 & _). unfold stepNames.
  rewrite bool_decide_false by (by intros [?|?]).
  by rewrite bool_decide_false.
Qed.

Lemma reparse_rooted names :
  Forall real names →
  ∃ pre, buf true 0 names = pre ++ [GoFilepath.Separator]
         ∧ namesOf true (rev pre) = (0%nat, names).
Proof.
  unfold namesOf.
  induction 1 as [|e below He _ (pre & Hpre & IH)]; [by exists []|].
  cbn [buf]. rewrite Hpre. unfold addSeparator. cbn [andb negb orb].
  rewrite length_app. cbn [length].
  destruct pre as [|c pre].
  - cbn in IH. injection IH as <-. exists (rev e). split; [done|].
    rewrite rev_involutive, split_one by apply He. cbn [foldl].
    by apply stepNames_real.
  - rewrite (proj2 (Nat.eqb_neq (length (c :: pre) + 1) 1))
      by (cbn [length]; lia).
    cbn [andb negb orb].
    exists (rev e ++ GoFilepath.Separator :: c :: pre). split.
    + by rewrite <- app_assoc.
    + rewrite rev_app_distr, rev_involutive.
      change (rev (GoFilepath.Separator :: c :: pre))
        with (rev (c :: pre) ++ [GoFilepath.Separator]).
      rewrite <- app_assoc. cbn [app].
      rewrite split_app, foldl_app, IH, split_one by apply He.
      cbn [foldl]. by apply stepNames_real.
Qed.

Lemma startsElement_app a b :
  a ≠ [] → startsElement a → startsElement (a ++ b).
Proof. by destruct a. Qed.

Lemma reparse_ups ups :
  startsElement (rev (bufUps ups))
  ∧ namesOf false (rev (bufUps ups)) = (ups, []).
Proof.
  unfold namesOf.
  induction ups as [|k [IH1 IH2]]; [done|].
  cbn [bufUps]. destruct (bufUps k) as [|c b] eqn:E.
  - destruct k; [|discriminate]. done.
  - cbn [length Nat.ltb Nat.leb].
    change (rev ("."%char :: "."%char :: GoFilepath.Separator :: c :: b))
      with (((rev (c :: b) ++ [GoFilepath.Separator]) ++ ["."%char])
            ++ ["."%char]).
    rewrite <- !app_assoc. cbn [app]. split.
    + apply startsElement_app; [|done].
      intros Hnil. apply (f_equal (@length _)) in Hnil.
      rewrite length_rev in Hnil. done.
    + by rewrite split_app, foldl_app, IH2.
Qed.

Lemma reparse_unrooted ups names :
  Forall real names →
  startsElement (rev (buf false ups names))
  ∧ namesOf false (rev (buf false ups names)) = (ups, names).
Proof.
  induction 1 as [|e below He _ [IH1 IH2]]; [apply reparse_ups|].
  cbn [buf]. unfold addSeparator. cbn [andb negb orb].
  destruct He as (Hne & Hd & Hdd & Hfree).
  assert (Hreal : real e) by done.
  destruct (buf false ups below) as [|c b] eqn:E.
  - cbn [length Nat.eqb negb]. rewrite app_nil_r, rev_involutive.
    unfold namesOf in IH2 |- *. cbn in IH2. injection IH2 as <- <-.
    split.
    + destruct Hfree; done.
    + rewrite split_one by done. cbn [foldl]. by apply stepNames_real.
  - cbn [length Nat.eqb negb].
    rewrite rev_app_distr, rev_involutive.
    change (rev (GoFilepath.Separator :: c :: b))
      with (rev (c :: b) ++ [GoFilepath.Separator]).
    rewrite <- app_assoc. cbn [app]. split.
    + apply startsElement_app; [|done].
      intros Hnil. apply (f_equal (@length _)) in Hnil.
      rewrite length_rev in Hnil. done.
    + unfold namesOf in IH2 |- *.
      rewrite split_app, foldl_app, IH2, split_one by done.
      cbn [foldl]. by apply stepNames_real.
Qed.

Lemma namesOf_rooted_ups p : (namesOf true p).1 = 0%nat.
Proof.
  unfold namesOf. generalize (@nil (list ascii)).
  induction (split p) as [|e es IH]; intros names; [done|].
  cbn [foldl]. unfold stepNames at 2.
  repeat case_match; cbn [fst snd]; apply IH.
Qed.

Lemma namesOf_slash rooted p :
  namesOf rooted (p ++ [GoFilepath.Separator]) = namesOf rooted p.
Proof. unfold namesOf. by rewrite split_app, foldl_app. Qed.

(** A cleaned path, with or without a separator after it, cleans to
    itself. *)
Lemma Clean_buf rooted ups names (slash : bool) :
  Forall real names → (rooted = true → ups = 0%nat) →
  buf rooted ups names ≠ [] →
  GoFilepath.Clean
    (string_of_list_ascii
       (rev (buf rooted ups names)
        ++ if slash then [GoFilepath.Separator] else []))
  = render rooted (ups, names).
Proof.
  intros Hreal Hups Hne. rewrite Clean_names.
  rewrite list_ascii_of_string_of_list_ascii.
  destruct rooted.
  - rewrite (Hups eq_refl) in *.
    destruct (reparse_rooted names Hreal) as (pre & Hpre & Hnames).
    rewrite Hpre, rev_app_distr. cbn [rev app].
    change (GoFilepath.IsPathSeparator GoFilepath.Separator) with true.
    cbv iota. destruct slash.
    + by rewrite namesOf_slash, Hnames.
    + by rewrite app_nil_r, Hnames.
  - destruct (reparse_unrooted ups names Hreal) as [Hstart Hnames].
    destruct (rev (buf false ups names)) as [|c p] eqn:E.
    { apply (f_equal (@length _)) in E. rewrite length_rev in E.
      by destruct (buf false ups names). }
    cbn in Hstart. cbn [app]. rewrite Hstart.
    destruct slash.
    + by rewrite app_comm_cons, namesOf_slash, Hnames.
    + by rewrite app_nil_r, Hnames.
Qed.

Lemma upToSeparator_name r rest :
  sepfree r →
  GoFilepath.upToSeparator (r ++ rest) = GoFilepath.upToSeparator rest.
Proof. induction 1 as [|c r Hc _ IH]; [done|]. cbn. by rewrite Hc. Qed.

(** [Dir] takes the last name off a cleaned path. *)
Lemma Dir_render rooted ups e names :
  Forall real (e :: names) → (rooted = true → ups = 0%nat) →
  GoFilepath.Dir (render rooted (ups, e :: names))
  = render rooted (ups, names).
Proof.
  intros Hreal Hups. inversion Hreal as [|? ? He Hnames]; subst.
  destruct He as (Hne & _ & _ & Hfree).
  assert (Hbuf : buf rooted ups (e :: names) ≠ []).
  { cbn [buf]. destruct e; [done|]. intros Hnil.
    apply (f_equal (@length _)) in Hnil.
    rewrite length_app, length_rev in Hnil. done. }
  rewrite (render_nonempty rooted (ups, e :: names)) by done.
  unfold GoFilepath.Dir.
  rewrite list_ascii_of_string_of_list_ascii, rev_involutive.
  cbn [fst snd buf].
  rewrite upToSeparator_name by (by apply sepfree_rev).
  unfold addSeparator.
  destruct (rooted && negb (length (buf rooted ups names) =? 1)%nat
            || negb rooted && negb (length (buf rooted ups names) =? 0)%nat)
    eqn:Hsep.
  - cbn [GoFilepath.upToSeparator].
    change (GoFilepath.IsPathSeparator GoFilepath.Separator) with true.
    cbv iota. cbn [rev].
    apply (Clean_buf rooted ups names true); [done..|].
    intros Hnil. rewrite Hnil in Hsep.
    destruct rooted; [|done].
    destruct (buf_rooted ups names) as [pre Hpre].
    rewrite Hnil in Hpre. by destruct pre.
  - destruct rooted; cbn in Hsep.
    + rewrite orb_false_r in Hsep. apply negb_false_iff, Nat.eqb_eq in Hsep.
      destruct (buf_rooted ups names) as [pre Hpre].
      assert (pre = []) as ->.
      { rewrite Hpre, length_app in Hsep. cbn in Hsep.
        destruct pre; [done|cbn in Hsep; lia]. }
      rewrite (render_nonempty true (ups, names))
        by (cbn [fst snd]; by rewrite Hpre).
      cbn [fst snd]. rewrite Hpre. reflexivity.
    + apply negb_false_iff, Nat.eqb_eq in Hsep.
      assert (buf false ups names = []) as Hnil
        by (by destruct (buf false ups names)).
      rewrite (render_empty false (ups, names)) by done.
      rewrite Hnil. reflexivity.
Qed.

(** *** The ".." element *)

Lemma Join_dotdot root :
  isRooted root = true → GoFilepath.Clean root ≠ "/" →
  GoFilepath.Join [root; ".."] = GoFilepath.Dir (GoFilepath.Clean root)
  ∧ ¬ under (GoFilepath.Clean root) (GoFilepath.Join [root; ".."]).
Proof.
  intros Hrooted Hslash.
  assert (Hroot : root ≠ "") by (by intros ->).
  rewrite Join_render by done. rewrite Clean_render in Hslash |- *.
  pose proof (pathNames_real root) as Hreal.
  assert (Hups : (pathNames root).1 = 0%nat).
  { unfold pathNames, isRooted in *.
    destruct (list_ascii_of_string root) as [|c rest]; [done|].
    rewrite Hrooted. apply namesOf_rooted_ups. }
  rewrite Hrooted in *.
  destruct (pathNames root) as [ups [|e names]]; cbn in Hups; subst ups.
  { by destruct Hslash. }
  change (split (list_ascii_of_string "..")) with [dotdot].
  cbn [foldl].
  assert (stepNames true (0%nat, e :: names) dotdot = (0%nat, names))
    as -> by reflexivity.
  rewrite Dir_render by done. split; [done|].
  intros (rest & Heq & _).
  apply (f_equal String.length) in Heq. revert Heq.
  assert (Hlen : ∀ a b, String.length (a +:+ b)
                        = (String.length a + String.length b)%nat).
  { intros a b. induction a as [|c a IH]; [done|]. simpl. by rewrite IH. }
  assert (Hlist : ∀ l, String.length (string_of_list_ascii l) = length l).
  { induction l as [|c l IH]; [done|]. simpl. by rewrite IH. }
  inversion Hreal as [|? ? (Hne & _) Hnames]; subst.
  destruct (buf_rooted 0 names) as [pre Hpre].
  rewrite Hlen, (render_nonempty true (0%nat, names))
    by (cbn [fst snd]; rewrite Hpre; by destruct pre).
  rewrite (render_nonempty true (0%nat, e :: names)).
  2:{ cbn [fst snd buf]. destruct e; [done|]. intros Hnil.
      apply (f_equal (@length _)) in Hnil.
      rewrite length_app, length_rev in Hnil. done. }
  rewrite !Hlist, !length_rev. cbn [fst snd buf].
  rewrite length_app, length_rev.
  pose proof (addSeparator_length true (buf true 0 names)).
  destruct e; [done|]. cbn [length]. lia.
Qed.

(** *** Names of disks: decimal numbers *)

Lemma pretty_N_char_digit x : isDigit (pretty_N_char x) = true.
Proof.
  destruct x as [|p]; [done|].
  do 4 (destruct p as [p|p|]; try done).
Qed.

Lemma pretty_N_go_digits x : ∀ s,
  s ≠ "" → Forall (λ c, isDigit c = true) (list_ascii_of_string s) →
  pretty_N_go x s ≠ ""
  ∧ Forall (λ c, isDigit c = true) (list_ascii_of_string (pretty_N_go x s)).
Proof.
  induction (N.lt_wf_0 x) as [x _ IH]. intros s Hs Hdigits.
  destruct (decide (x = 0)%N) as [->|Hx]; [done|].
  rewrite pretty_N_go_step by lia.
  apply IH; [apply N.div_lt; lia|done|].
  constructor; [apply pretty_N_char_digit|done].
Qed.

Lemma Itoa_digits i :
  0 ≤ i →
  GoStrconv.Itoa i ≠ ""
  ∧ Forall (λ c, isDigit c = true) (list_ascii_of_string (GoStrconv.Itoa i)).
Proof.
  intros Hi. unfold GoStrconv.Itoa, GoStrconv.FormatInt.
  destruct i as [|p|p]; [by repeat constructor| |lia].
  unfold pretty, pretty_Z, pretty, pretty_positive, pretty, pretty_N.
  rewrite decide_False by done.
  rewrite pretty_N_go_step by lia.
  apply pretty_N_go_digits; [done|].
  constructor; [apply pretty_N_char_digit|constructor].
Qed.

Lemma Itoa_real i : 0 ≤ i → real (list_ascii_of_string (GoStrconv.Itoa i)).
Proof.
  intros Hi. destruct (Itoa_digits i Hi) as [Hne Hdigits].
  destruct (list_ascii_of_string (GoStrconv.Itoa i)) as [|c l] eqn:E.
  { destruct (GoStrconv.Itoa i); [done|discriminate]. }
  inversion Hdigits as [|? ? Hc Hl]; subst.
  repeat split.
  - done.
  - intros [= -> ->]. discriminate.
  - intros [= -> ->]. discriminate.
  - eapply Forall_impl; [exact Hdigits|].
    intros d Hd. destruct (Ascii.eqb_spec d GoFilepath.Separator) as [->|Hn].
    + discriminate.
    + unfold GoFilepath.IsPathSeparator. by apply Ascii.eqb_neq.
Qed.

(** [Join] with a name as its last element. *)
Lemma Join_name root d :
  real (list_ascii_of_string d) →
  ∃ rooted ups names,
    GoFilepath.Join [root; d]
    = render rooted (ups, list_ascii_of_string d :: names).
Proof.
  intros Hd.
  assert (Hsplit : split (list_ascii_of_string d) = [list_ascii_of_string d])
    by (apply split_one, Hd).
  destruct (decide (root = "")) as [->|Hroot].
  - exists false, 0%nat, [].
    assert (Hne : d ≠ "") by (intros ->; by destruct Hd).
    cbn [GoFilepath.Join String.eqb].
    rewrite (proj2 (String.eqb_neq _ _) Hne). cbn [GoStrings.Join].
    rewrite Clean_names.
    destruct (list_ascii_of_string d) as [|c l] eqn:E; [by destruct Hd|].
    pose proof Hd as (_ & _ & _ & Hfree).
    inversion Hfree as [|? ? Hc _]; subst.
    rewrite Hc. unfold namesOf. rewrite Hsplit. cbn [foldl].
    by rewrite stepNames_real by done.
  - exists (isRooted root), (pathNames root).1, (pathNames root).2.
    rewrite Join_render, Hsplit by done. cbn [foldl].
    by rewrite stepNames_real by done.
Qed.

Lemma addSeparator_buf rooted ups names :
  addSeparator rooted (buf rooted ups names) = []
  ∨ ∃ l, addSeparator rooted (buf rooted ups names)
         = GoFilepath.Separator :: l.
Proof.
  unfold addSeparator.
  destruct (rooted && negb (length (buf rooted ups names) =? 1)%nat
            || negb rooted && negb (length (buf rooted ups names) =? 0)%nat)
    eqn:Hsep; [right; by eexists|].
  destruct rooted; cbn in Hsep.
  - rewrite orb_false_r in Hsep. apply negb_false_iff, Nat.eqb_eq in Hsep.
    destruct (buf_rooted ups names) as [pre Hpre]. right.
    rewrite Hpre in Hsep |- *. rewrite length_app in Hsep. cbn in Hsep.
    destruct pre; [by eexists|cbn in Hsep; lia].
  - apply negb_false_iff, Nat.eqb_eq in Hsep. left.
    by destruct (buf false ups names).
Qed.

Lemma name_before_separator x1 : ∀ x2 y1 y2,
  sepfree x1 → sepfree x2 →
  (y1 = [] ∨ ∃ l, y1 = GoFilepath.Separator :: l) →
  (y2 = [] ∨ ∃ l, y2 = GoFilepath.Separator :: l) →
  x1 ++ y1 = x2 ++ y2 → x1 = x2.
Proof.
  unfold sepfree.
  induction x1 as [|c x1 IH]; intros x2 y1 y2 H1 H2 Hy1 Hy2 Heq.
  - destruct x2 as [|d x2]; [done|]. cbn in Heq.
    apply Forall_cons in H2 as [Hd _].
    destruct Hy1 as [->|[l ->]]; [done|].
    injection Heq as Hsep _. rewrite <- Hsep in Hd. discriminate Hd.
  - apply Forall_cons in H1 as [Hc H1].
    destruct x2 as [|d x2].
    + cbn in Heq. destruct Hy2 as [->|[l ->]]; [done|].
      injection Heq as Hsep _. rewrite Hsep in Hc. discriminate Hc.
    + apply Forall_cons in H2 as [_ H2].
      injection Heq as -> Heq. f_equal.
      exact (IH _ _ _ H1 H2 Hy1 Hy2 Heq).
Qed.

Lemma string_of_list_ascii_inj l1 l2 :
  string_of_list_ascii l1 = string_of_list_ascii l2 → l1 = l2.
Proof.
  intros H. apply (f_equal list_ascii_of_string) in H.
  by rewrite !list_ascii_of_string_of_list_ascii in H.
Qed.

Lemma render_top_inj r1 u1 e1 n1 r2 u2 e2 n2 :
  real e1 → real e2 →
  render r1 (u1, e1 :: n1) = render r2 (u2, e2 :: n2) → e1 = e2.
Proof.
  intros (Hne1 & _ & _ & Hf1) (Hne2 & _ & _ & Hf2) Heq.
  assert (Hbuf : ∀ r u e n, e ≠ [] → buf r u (e :: n) ≠ []).
  { intros r u e n He. cbn [buf]. destruct e; [done|]. intros Hnil.
    apply (f_equal (@length _)) in Hnil.
    rewrite length_app, length_rev in Hnil. done. }
  rewrite !render_nonempty in Heq by (by apply Hbuf).
  apply string_of_list_ascii_inj in Heq.
  apply (f_equal (@rev _)) in Heq. rewrite !rev_involutive in Heq.
  cbn [fst snd buf] in Heq.
  apply name_before_separator in Heq;
    [|by apply sepfree_rev|by apply sepfree_rev
     |apply addSeparator_buf|apply addSeparator_buf].
  apply (f_equal (@rev _)) in Heq. by rewrite !rev_involutive in Heq.
Qed.

(** Disks numbered differently have different paths, whatever the
    directories they are in. *)
Lemma Join_Itoa_inj p q i j :
  0 ≤ i → 0 ≤ j →
  GoFilepath.Join [p; GoStrconv.Itoa i] = GoFilepath.Join [q; GoStrconv.Itoa j] →
  i = j.
Proof.
  intros Hi Hj Heq.
  destruct (Join_name p _ (Itoa_real i Hi)) as (r1 & u1 & n1 & H1).
  destruct (Join_name q _ (Itoa_real j Hj)) as (r2 & u2 & n2 & H2).
  rewrite H1, H2 in Heq.
  apply render_top_inj in Heq; [|by apply Itoa_real..].
  apply (f_equal string_of_list_ascii) in Heq.
  rewrite !string_of_list_ascii_of_string in Heq.
  by apply (inj pretty).
Qed.
End CleanPaths.

(** ** The methods of Disk *)

Ltac run_io :=
  unfold mbind, GoOS.IO_bind, mret, GoOS.IO_ret, GoOS.Open, GoOS.OpenFile,
    GoOS.MkdirAll, GoOS.Readdir, GoOS.Close, GoOS.Stat;
  cbn [fst snd app].

Ltac each_call :=
  repeat first [apply List.Forall_nil | apply List.Forall_cons].

Section DiskFiles.
Import paths.
Context {FS File : Type} `{!GoOS.FileSystem FS File}.

Lemma elements_dotdot (name : string) :
  ".." ∉ elements name → dotdot ∉ split (list_ascii_of_string name).
Proof.
  intros Hname Hin. apply Hname. unfold elements.
  change ".." with (string_of_list_ascii dotdot).
  by apply list_elem_of_fmap_2.
Qed.

Lemma pathNames_rooted_ups (root : string) :
  isRooted root = true → (pathNames root).1 = 0%nat.
Proof.
  unfold isRooted, pathNames.
  destruct (list_ascii_of_string root) as [|c rest]; [done|].
  intros ->. apply namesOf_rooted_ups.
Qed.

(** The directory of a file below the root is at or below the root. *)
Lemma Dir_Join_under (root name : string) :
  GoFilepath.Clean root ≠ "." →
  ".." ∉ elements name → namesSomething name →
  under (GoFilepath.Clean root)
    (GoFilepath.Dir (GoFilepath.Join [root; name])).
Proof.
  intros Hdot Hname (e & He & Hne & Hnd).
  apply elements_dotdot in Hname.
  assert (Hroot : root ≠ "") by (by intros ->).
  rewrite Join_render by done. rewrite Clean_render in Hdot |- *.
  pose proof (pathNames_real root) as Hreal.
  pose proof (pathNames_rooted_ups root) as Hups.
  destruct (pathNames root) as [ups names]. cbn [fst snd] in *.
  rewrite stepNames_push by done.
  set (pushed := List.filter _ _).
  assert (Hpushed : Forall real pushed).
  { apply Forall_forall. intros x Hx.
    apply list_elem_of_In, filter_In in Hx as [Hx Hkeep].
    apply list_elem_of_In in Hx.
    apply negb_true_iff, bool_decide_eq_false in Hkeep.
    pose proof (split_sepfree (list_ascii_of_string name)) as Hfree.
    rewrite Forall_forall in Hfree.
    repeat split; [| | |by apply Hfree].
    - intros ->. apply Hkeep. by left.
    - intros ->. apply Hkeep. by right.
    - by intros ->. }
  assert (Hsome : pushed ≠ []).
  { unfold elements in He.
    apply list_elem_of_fmap in He as (x & -> & Hx).
    assert (Hin : x ∈ pushed).
    { apply list_elem_of_In, filter_In. split; [by apply list_elem_of_In|].
      apply negb_true_iff, bool_decide_eq_false. intros [->| ->]; done. }
    intros Hnil. rewrite Hnil in Hin. by apply elem_of_nil in Hin. }
  destruct pushed as [|x pushed _] using rev_ind; [done|].
  rewrite rev_app_distr. cbn [rev app].
  apply Forall_app in Hpushed as [Hpushed Hx].
  rewrite Dir_render.
  - apply render_extend. by apply (render_dot _ (ups, names)).
  - constructor; [by inversion Hx|].
    apply Forall_app. split; [by apply List.Forall_rev|done].
  - exact Hups.
Qed.

(** X22.  A name with no ".." element stays inside the disk: when the
    cleaned root of the disk is not ".", every path that MakeDir,
    ListDir, ListFiles and OpenFile hand to the file system is the
    cleaned root or lies below it, and so is every path that CreateFile
    hands to it (the directory it creates and the file it opens) when
    the name has an element other than "." and the empty one. *)
Theorem disk_confined (d : disk.Disk) (name : string) (fs : FS) :
  GoFilepath.Clean (disk.path d) ≠ "." →
  ".." ∉ elements name →
  let root := GoFilepath.Clean (disk.path d) in
  Forall (confined root) (disk.MakeDir d name fs).2
  ∧ Forall (confined root) (disk.ListDir d name fs).2
  ∧ Forall (confined root) (disk.ListFiles d name fs).2
  ∧ Forall (confined root) (disk.OpenFile d name fs).2
  ∧ (namesSomething name →
     Forall (confined root) (disk.CreateFile d name fs).2).
Proof.
  intros Hdot Hname root.
  pose proof (Join_under (disk.path d) name Hdot (elements_dotdot _ Hname))
    as Hunder.
  assert (Hpath : ∀ c : GoOS.Call File,
            GoOS.callPath c = Some (GoFilepath.Join [disk.path d; name]) →
            confined root c).
  { intros c Hc p Hp. rewrite Hc in Hp. by injection Hp as <-. }
  assert (Hnone : ∀ c : GoOS.Call File,
            GoOS.callPath c = None → confined root c).
  { intros c Hc p Hp. by rewrite Hc in Hp. }
  split; [|split; [|split; [|split]]].
  - unfold disk.MakeDir. run_io. each_call. by apply Hpath.
  - unfold disk.ListDir. run_io.
    destruct (GoOS.openFile _ _ _ fs) as [[dir|e] fs1]; cbn.
    + destruct (GoOS.readdir dir (-1) fs1) as [[contents|e] fs2]; cbn;
        each_call; first [by apply Hpath|by apply Hnone].
    + each_call. by apply Hpath.
  - unfold disk.ListFiles. run_io.
    destruct (GoOS.openFile _ _ _ fs) as [[dir|e] fs1]; cbn.
    + destruct (GoOS.readdir dir (-1) fs1) as [[contents|e] fs2]; cbn;
        each_call; first [by apply Hpath|by apply Hnone].
    + each_call. by apply Hpath.
  - unfold disk.OpenFile.
    destruct (String.eqb name ""); [constructor|]. run_io.
    destruct (GoOS.openFile _ _ _ fs) as [[f|e] fs1]; cbn;
      each_call; by apply Hpath.
  - intros Hsome.
    pose proof (Dir_Join_under (disk.path d) name Hdot Hname Hsome) as Hdir.
    assert (Hmk : ∀ c : GoOS.Call File,
              GoOS.callPath c
              = Some (GoFilepath.Dir (GoFilepath.Join [disk.path d; name])) →
              confined root c).
    { intros c Hc p Hp. rewrite Hc in Hp. by injection Hp as <-. }
    unfold disk.CreateFile.
    destruct (String.eqb name ""); [constructor|]. run_io.
    destruct (GoOS.mkdirAll _ _ fs) as [[e|] fs1]; cbn.
    + each_call. by apply Hmk.
    + destruct (GoOS.openFile _ _ _ fs1) as [[f|e] fs2]; cbn;
        each_call; first [by apply Hmk|by apply Hpath].
Qed.

(** X23.  The name ".." leaves the disk: on a disk whose path is
    absolute and whose cleaned root is not "/", OpenFile, MakeDir,
    ListDir and ListFiles hand to the file system the directory that
    holds the root, which is not at or below the root. *)
Theorem dotdot_leaves_disk (d : disk.Disk) (fs : FS) :
  isRooted (disk.path d) = true →
  GoFilepath.Clean (disk.path d) ≠ "/" →
  let root := GoFilepath.Clean (disk.path d) in
  let parent := GoFilepath.Dir root in
  ¬ under root parent
  ∧ (disk.OpenFile d ".." fs).2 = [GoOS.CallOpenFile parent GoOS.O_RDONLY 0]
  ∧ (disk.MakeDir d ".." fs).2 = [GoOS.CallMkdirAll parent GoOS.perm0700]
  ∧ head (disk.ListDir d ".." fs).2
    = Some (GoOS.CallOpenFile parent GoOS.O_RDONLY 0)
  ∧ head (disk.ListFiles d ".." fs).2
    = Some (GoOS.CallOpenFile parent GoOS.O_RDONLY 0).
Proof.
  intros Hrooted Hslash root parent. subst root parent.
  destruct (Join_dotdot (disk.path d) Hrooted Hslash) as [Hjoin Hout].
  rewrite <- Hjoin. split; [exact Hout|].
  split; [|split; [|split]].
  - unfold disk.OpenFile. cbn [String.eqb]. run_io.
    by destruct (GoOS.openFile _ _ _ fs) as [[f|e] fs1].
  - unfold disk.MakeDir. by run_io.
  - unfold disk.ListDir. run_io.
    destruct (GoOS.openFile _ _ _ fs) as [[dir|e] fs1]; cbn; [|done].
    by destruct (GoOS.readdir dir (-1) fs1) as [[contents|e] fs2].
  - unfold disk.ListFiles. run_io.
    destruct (GoOS.openFile _ _ _ fs) as [[dir|e] fs1]; cbn; [|done].
    by destruct (GoOS.readdir dir (-1) fs1) as [[contents|e] fs2].
Qed.

(** X24.  The empty name is refused for files and denotes the root for
    directories: CreateFile and OpenFile answer InvalidArgument without
    a call on the file system, whereas, the path of the disk not being
    empty, MakeDir with the empty name is MkdirAll on the cleaned root,
    and ListDir and ListFiles open the cleaned root. *)
Theorem empty_name (d : disk.Disk) (fs : FS) :
  disk.CreateFile d "" fs = (Err disk.InvalidArgument, fs, [])
  ∧ disk.OpenFile d "" fs = (Err disk.InvalidArgument, fs, [])
  ∧ (disk.path d ≠ "" →
     let root := GoFilepath.Clean (disk.path d) in
     (disk.MakeDir d "" fs).2 = [GoOS.CallMkdirAll root GoOS.perm0700]
     ∧ head (disk.ListDir d "" fs).2
       = Some (GoOS.CallOpenFile root GoOS.O_RDONLY 0)
     ∧ head (disk.ListFiles d "" fs).2
       = Some (GoOS.CallOpenFile root GoOS.O_RDONLY 0)).
Proof.
  split; [reflexivity|]. split; [reflexivity|].
  intros Hpath root. subst root. rewrite <- (Join_empty _ Hpath).
  split; [|split].
  - unfold disk.MakeDir. by run_io.
  - unfold disk.ListDir. run_io.
    destruct (GoOS.openFile _ _ _ fs) as [[dir|e] fs1]; cbn; [|done].
    by destruct (GoOS.readdir dir (-1) fs1) as [[contents|e] fs2].
  - unfold disk.ListFiles. run_io.
    destruct (GoOS.openFile _ _ _ fs) as [[dir|e] fs1]; cbn; [|done].
    by destruct (GoOS.readdir dir (-1) fs1) as [[contents|e] fs2].
Qed.

Lemma IsDir_not_regular (m : GoOS.FileMode.t) :
  GoOS.FileMode.IsDir m = true → GoOS.FileMode.IsRegular m = false.
Proof.
  unfold GoOS.FileMode.IsDir, GoOS.FileMode.IsRegular.
  intros Hdir. apply negb_true_iff, Z.eqb_neq in Hdir.
  apply Z.eqb_neq. intros Hreg. apply Hdir.
  unfold GoOS.FileMode.ModeType in Hreg.
  rewrite Z.land_lor_distr_r in Hreg.
  by apply Z.lor_eq_0_iff in Hreg as [-> _].
Qed.

(** X25.  ListDir and ListFiles on the same directory and file system,
    when both succeed: the directory was opened, Readdir(-1) on it gave
    a list of entries, and the two results are the directories and the
    regular files of that list, in its order; no entry is in both
    results, and an entry of the list in neither is neither a directory
    nor a regular file (a symbolic link, a device, a socket, a pipe). *)
Theorem ListDir_ListFiles (d : disk.Disk) (name : string) (fs fs1 fs2 : FS)
    (dirs files : list GoOS.FileInfo.t) (t1 t2 : list (GoOS.Call File)) :
  disk.ListDir d name fs = (Ok dirs, fs1, t1) →
  disk.ListFiles d name fs = (Ok files, fs2, t2) →
  ∃ dir fs' contents fs'',
    GoOS.openFile (GoFilepath.Join [disk.path d; name]) GoOS.O_RDONLY 0 fs
    = (Ok dir, fs')
    ∧ GoOS.readdir dir (-1) fs' = (Ok contents, fs'')
    ∧ dirs = List.filter GoOS.FileInfo.IsDir contents
    ∧ files = List.filter
                (λ c, GoOS.FileMode.IsRegular (GoOS.FileInfo.Mode c)) contents
    ∧ (∀ c, c ∈ dirs → c ∉ files)
    ∧ (∀ c, c ∈ contents → c ∉ dirs → c ∉ files →
         GoOS.FileInfo.IsDir c = false
         ∧ GoOS.FileMode.IsRegular (GoOS.FileInfo.Mode c) = false)
    ∧ fs1 = (GoOS.close dir fs'').2 ∧ fs2 = fs1 ∧ t1 = t2.
Proof.
  unfold disk.ListDir, disk.ListFiles. run_io.
  destruct (GoOS.openFile _ _ _ fs) as [[dir|e] fs'] eqn:Hopen; cbn;
    [|discriminate].
  destruct (GoOS.readdir dir (-1) fs') as [[contents|e] fs''] eqn:Hread; cbn;
    [|discriminate].
  intros [= <- <- <-] [= <- <- <-]. exists dir, fs', contents, fs''.
  split; [reflexivity|]. split; [exact Hread|].
  split; [reflexivity|]. split; [reflexivity|].
  split; [|split; [|done]].
  - intros c Hd Hf.
    apply list_elem_of_In, filter_In in Hd as [_ Hd].
    apply list_elem_of_In, filter_In in Hf as [_ Hf].
    apply IsDir_not_regular in Hd. congruence.
  - intros c Hc Hd Hf. split.
    + destruct (GoOS.FileInfo.IsDir c) eqn:E; [|done].
      exfalso. apply Hd, list_elem_of_In, filter_In.
      split; [by apply list_elem_of_In|done].
    + destruct (GoOS.FileMode.IsRegular (GoOS.FileInfo.Mode c)) eqn:E; [|done].
      exfalso. apply Hf, list_elem_of_In, filter_In.
      split; [by apply list_elem_of_In|done].
Qed.

(** X26.  ListDir and ListFiles close the directory they opened: every
    run either fails to open the directory, having made that one call,
    or makes exactly three calls, Open, Readdir(-1) and Close on the
    file that Open gave, also when Readdir fails. *)
Theorem listing_closes (d : disk.Disk) (name : string) (fs : FS) :
  let p := GoFilepath.Join [disk.path d; name] in
  let opening := GoOS.CallOpenFile p GoOS.O_RDONLY 0 in
  (((∃ e, (disk.ListDir d name fs).1.1 = Err (disk.SysError e)
          ∧ (GoOS.openFile p GoOS.O_RDONLY 0 fs).1 = Err e)
    ∧ (disk.ListDir d name fs).2 = [opening])
   ∨ ∃ dir, (GoOS.openFile p GoOS.O_RDONLY 0 fs).1 = Ok dir
            ∧ (disk.ListDir d name fs).2
              = [opening; GoOS.CallReaddir dir (-1); GoOS.CallClose dir])
  ∧ (((∃ e, (disk.ListFiles d name fs).1.1 = Err (disk.SysError e)
            ∧ (GoOS.openFile p GoOS.O_RDONLY 0 fs).1 = Err e)
      ∧ (disk.ListFiles d name fs).2 = [opening])
     ∨ ∃ dir, (GoOS.openFile p GoOS.O_RDONLY 0 fs).1 = Ok dir
              ∧ (disk.ListFiles d name fs).2
                = [opening; GoOS.CallReaddir dir (-1); GoOS.CallClose dir]).
Proof.
  intros p opening. subst p opening.
  unfold disk.ListDir, disk.ListFiles. run_io.
  destruct (GoOS.openFile _ _ _ fs) as [[dir|e] fs']; cbn.
  - destruct (GoOS.readdir dir (-1) fs') as [[contents|e] fs'']; cbn;
      split; right; by exists dir.
  - split; left; (split; [by exists e|done]).
Qed.
End DiskFiles.

Lemma disk_confined_witness :
  let root := GoFilepath.Clean (disk.path memfs.disk0) in
  Forall (confined root)
    (@disk.MakeDir _ _ memfs.fileSystem memfs.disk0 "bucket/object"
       memfs.mounted).2
  ∧ Forall (confined root)
      (@disk.ListDir _ _ memfs.fileSystem memfs.disk0 "bucket/object"
         memfs.mounted).2
  ∧ Forall (confined root)
      (@disk.ListFiles _ _ memfs.fileSystem memfs.disk0 "bucket/object"
         memfs.mounted).2
  ∧ Forall (confined root)
      (@disk.OpenFile _ _ memfs.fileSystem memfs.disk0 "bucket/object"
         memfs.mounted).2
  ∧ Forall (confined root)
      (@disk.CreateFile _ _ memfs.fileSystem memfs.disk0 "bucket/object"
         memfs.mounted).2.
Proof.
  intros root.
  assert (Hroot : GoFilepath.Clean (disk.path memfs.disk0) ≠ ".")
    by (vm_compute; discriminate).
  assert (Hname : ".." ∉ paths.elements "bucket/object").
  { vm_compute. intros Hin.
    repeat (apply elem_of_cons in Hin as [Heq|Hin]; [discriminate Heq|]).
    inversion Hin. }
  assert (Hsome : namesSomething "bucket/object").
  { exists "bucket". split; [vm_compute; apply list_elem_of_here|].
    split; discriminate. }
  destruct (@disk_confined _ _ memfs.fileSystem memfs.disk0 "bucket/object"
              memfs.mounted Hroot Hname)
    as (Hmk & Hdir & Hfiles & Hopen & Hcreate).
  exact (conj Hmk (conj Hdir (conj Hfiles (conj Hopen (Hcreate Hsome))))).
Defined.

Lemma dotdot_leaves_disk_witness :
  let root := GoFilepath.Clean (disk.path memfs.disk0) in
  let parent := GoFilepath.Dir root in
  parent = "/mnt"
  ∧ ¬ paths.under root parent
  ∧ (@disk.OpenFile _ _ memfs.fileSystem memfs.disk0 ".." memfs.mounted).2
    = [GoOS.CallOpenFile parent GoOS.O_RDONLY 0]
  ∧ (@disk.MakeDir _ _ memfs.fileSystem memfs.disk0 ".." memfs.mounted).2
    = [GoOS.CallMkdirAll parent GoOS.perm0700].
Proof.
  intros root parent.
  assert (Hslash : GoFilepath.Clean (disk.path memfs.disk0) ≠ "/")
    by (vm_compute; discriminate).
  destruct (@dotdot_leaves_disk _ _ memfs.fileSystem memfs.disk0
              memfs.mounted eq_refl Hslash)
    as (Hout & Hopen & Hmk & _).
  split; [vm_compute; reflexivity|].
  exact (conj Hout (conj Hopen Hmk)).
Defined.

(** X25 on the disk of the examples: the three entries of the root,
    of which the directory bucket and the regular file object are
    returned, and the symbolic link link by neither. *)
Lemma ListDir_ListFiles_witness :
  let dirs := [GoOS.FileInfo.mk "bucket" 4096
                 (Z.lor GoOS.FileMode.ModeDir 448) 1] in
  let files := [GoOS.FileInfo.mk "object" 3 384 2] in
  ∃ dir fs' contents fs'',
    @GoOS.openFile _ _ memfs.fileSystem
      (GoFilepath.Join [disk.path memfs.disk0; ""]) GoOS.O_RDONLY 0
      memfs.mounted
    = (Ok dir, fs')
    ∧ @GoOS.readdir _ _ memfs.fileSystem dir (-1) fs' = (Ok contents, fs'')
    ∧ dirs = List.filter GoOS.FileInfo.IsDir contents
    ∧ files = List.filter
                (λ c, GoOS.FileMode.IsRegular (GoOS.FileInfo.Mode c)) contents
    ∧ (∀ c, c ∈ dirs → c ∉ files)
    ∧ (∀ c, c ∈ contents → c ∉ dirs → c ∉ files →
         GoOS.FileInfo.IsDir c = false
         ∧ GoOS.FileMode.IsRegular (GoOS.FileInfo.Mode c) = false)
    ∧ contents = memfs.entries.
Proof.
  intros dirs files.
  assert (Hdirs :
    @disk.ListDir _ _ memfs.fileSystem memfs.disk0 "" memfs.mounted
    = (Ok dirs, memfs.mounted,
       [GoOS.CallOpenFile "/mnt/disk" 0 0; GoOS.CallReaddir "/mnt/disk" (-1);
        GoOS.CallClose "/mnt/disk"]))
    by (vm_compute; reflexivity).
  assert (Hfiles :
    @disk.ListFiles _ _ memfs.fileSystem memfs.disk0 "" memfs.mounted
    = (Ok files, memfs.mounted,
       [GoOS.CallOpenFile "/mnt/disk" 0 0; GoOS.CallReaddir "/mnt/disk" (-1);
        GoOS.CallClose "/mnt/disk"]))
    by (vm_compute; reflexivity).
  destruct (@ListDir_ListFiles _ _ memfs.fileSystem memfs.disk0 ""
              memfs.mounted _ _ _ _ _ _ Hdirs Hfiles)
    as (dir & fs' & contents & fs'' & Hopen & Hread & H1 & H2 & H3 & H4 & _).
  assert (Hentries : contents = memfs.entries)
    by (injection Hread as Hread _; exact (eq_sym Hread)).
  exact (ex_intro _ dir (ex_intro _ fs' (ex_intro _ contents
           (ex_intro _ fs''
              (conj Hopen (conj Hread (conj H1 (conj H2 (conj H3
                 (conj H4 Hentries)))))))))).
Defined.

(** ** The disks of a node *)

Section NodeDisks.
Context {FS File : Type} `{!GoOS.FileSystem FS File}.

(** One disk laid out: what is asked depends on the answer of Stat. *)
Lemma diskVisit_run (diskPath : string) (fs : FS) :
  ∃ (fs' : FS) (visit : list (GoOS.Call File)),
    diskVisit fs diskPath visit fs'
    ∧ ∀ (A : Type) (rest : GoOS.IO FS File A),
        (st ← GoOS.Stat diskPath;
         _ ← match st with
             | Err err =>
                 if GoOS.IsNotExist err
                 then _ ← GoOS.MkdirAll diskPath GoOS.perm0700; mret ()
                 else mret ()
             | Ok _ => mret ()
             end;
         rest) fs
        = let r := rest fs' in (r.1.1, r.1.2, visit ++ r.2).
Proof.
  destruct (GoOS.stat diskPath fs) as [info|err] eqn:Hstat.
  - exists fs, [GoOS.CallStat diskPath]. split.
    + right. rewrite Hstat. by repeat split.
    + intros A rest. run_io. rewrite Hstat. cbn.
      by destruct (rest fs) as [[??]?].
  - destruct (GoOS.IsNotExist err) eqn:Hmissing.
    + apply Z.eqb_eq in Hmissing. subst err.
      exists (GoOS.mkdirAll diskPath GoOS.perm0700 fs).2,
        [GoOS.CallStat diskPath; GoOS.CallMkdirAll diskPath GoOS.perm0700].
      split; [by left|].
      intros A rest. run_io. rewrite Hstat.
      change (GoOS.IsNotExist GoOS.ENOENT) with true. run_io. cbn.
      by destruct (rest _) as [[??]?].
    + exists fs, [GoOS.CallStat diskPath]. split.
      * right. rewrite Hstat. repeat split; [|done..].
        intros [= ->]. discriminate Hmissing.
      * intros A rest. run_io. rewrite Hstat, Hmissing. cbn.
        by destruct (rest fs) as [[??]?].
Qed.

Lemma overwrite_next (disks new : list string) (n c : nat) (d : string) :
  (n < length disks)%nat →
  take (S n) (<[ n := d ]> disks) ++ new
    ++ drop (S n + c) (<[ n := d ]> disks)
  = take n disks ++ (d :: new) ++ drop (n + S c) disks.
Proof.
  intros Hn.
  rewrite (take_S_r _ _ d) by (by apply list_lookup_insert_eq).
  rewrite take_insert_ge by done. rewrite drop_insert_lt by lia.
  replace (S n + c)%nat with (n + S c)%nat by lia.
  by rewrite <- app_assoc.
Qed.

Lemma createNodeDiskMap_loop_run (p : string) (count : nat) :
  ∀ (i : Z) (nodes : gmap string (list string)) (disks : list string)
    (fs : FS),
    nodes !! "localhost" = Some disks →
    (Z.to_nat i + count ≤ length disks)%nat → 0 ≤ i →
    let new := (λ k : nat, GoFilepath.Join
                             [p; GoStrconv.Itoa (i + Z.of_nat k)])
               <$> seq 0 count in
    let run := driver.createNodeDiskMap_loop p count i nodes fs in
    run.1.1
    = <[ "localhost" := take (Z.to_nat i) disks ++ new
                        ++ drop (Z.to_nat i + count) disks ]> nodes
    ∧ ∃ visits, run.2 = concat visits
                ∧ diskVisits fs new visits run.1.2.
Proof.
  induction count as [|count IH];
    intros i nodes disks fs Hdisks Hlen Hi new run.
  - subst new run. cbn [seq fmap list_fmap app]. split.
    + rewrite Nat.add_0_r, take_drop. symmetry. by apply insert_id.
    + by exists [].
  - subst run. cbn [driver.createNodeDiskMap_loop].
    set (d := GoFilepath.Join [p; GoStrconv.Itoa i]) in *.
    destruct (diskVisit_run d fs) as (fs' & visit & Hvisit & ->).
    cbv zeta. cbn [fst snd].
    rewrite (lookup_total_correct _ _ _ Hdisks).
    destruct (IH (i + 1) (<[ "localhost" := <[ Z.to_nat i := d ]> disks ]> nodes)
                (<[ Z.to_nat i := d ]> disks) fs')
      as [Hnodes (visits & Htrace & Hvisits)].
    { apply lookup_insert_eq. }
    { rewrite length_insert. lia. }
    { lia. }
    assert (Hnew : new
      = d :: ((λ k : nat, GoFilepath.Join
                            [p; GoStrconv.Itoa (i + 1 + Z.of_nat k)])
              <$> seq 0 count)).
    { subst new d. cbn [seq fmap list_fmap]. rewrite Z.add_0_r. f_equal.
      rewrite <- fmap_S_seq, <- list_fmap_compose.
      apply list_fmap_ext. intros _ k _. unfold compose.
      by replace (i + Z.of_nat (S k)) with (i + 1 + Z.of_nat k) by lia. }
    split.
    + rewrite Hnodes, insert_insert_eq, Hnew. f_equal.
      replace (Z.to_nat (i + 1)) with (S (Z.to_nat i)) by lia.
      apply overwrite_next. lia.
    + exists (visit :: visits). split; [by rewrite Htrace|].
      rewrite Hnew. by exists fs'.
Qed.

Lemma createNodeDiskMapFromSlice_loop_run (ps : list string) :
  ∀ (i : Z) (diskPaths : list string) (fs : FS),
    (Z.to_nat i + length ps ≤ length diskPaths)%nat → 0 ≤ i →
    let new := imap (λ (k : nat) (p : string),
                       GoFilepath.Join [p; GoStrconv.Itoa (i + Z.of_nat k)])
                 ps in
    let run := driver.createNodeDiskMapFromSlice_loop ps i diskPaths fs in
    run.1.1
    = take (Z.to_nat i) diskPaths ++ new
      ++ drop (Z.to_nat i + length ps) diskPaths
    ∧ ∃ visits, run.2 = concat visits
                ∧ diskVisits fs new visits run.1.2.
Proof.
  induction ps as [|p ps IH]; intros i diskPaths fs Hlen Hi new run.
  - subst new run. cbn [imap app length]. split.
    + by rewrite Nat.add_0_r, take_drop.
    + by exists [].
  - subst run. cbn [driver.createNodeDiskMapFromSlice_loop].
    set (d := GoFilepath.Join [p; GoStrconv.Itoa i]) in *.
    destruct (diskVisit_run d fs) as (fs' & visit & Hvisit & ->).
    cbv zeta. cbn [fst snd].
    cbn [length] in Hlen.
    destruct (IH (i + 1) (<[ Z.to_nat i := d ]> diskPaths) fs')
      as [Hdisks (visits & Htrace & Hvisits)].
    { rewrite length_insert. lia. }
    { lia. }
    assert (Hnew : new
      = d :: imap (λ (k : nat) (q : string),
                     GoFilepath.Join
                       [q; GoStrconv.Itoa (i + 1 + Z.of_nat k)]) ps).
    { subst new d. cbn [imap]. rewrite Z.add_0_r. f_equal.
      apply imap_ext. intros k q _. unfold compose.
      by replace (i + Z.of_nat (S k)) with (i + 1 + Z.of_nat k) by lia. }
    split.
    + rewrite Hdisks, Hnew.
      replace (Z.to_nat (i + 1)) with (S (Z.to_nat i)) by lia.
      cbn [length]. apply overwrite_next. lia.
    + exists (visit :: visits). split; [by rewrite Htrace|].
      rewrite Hnew. by exists fs'.
Qed.

(** X27.  Whatever the path and the state of the file system,
    createNodeDiskMap returns a map with the one node localhost and
    sixteen disks, the [i]-th being the path joined with the decimal
    number [i]; the sixteen paths are distinct; and the file system is
    asked, for each disk in turn and on the state that the disks before
    left, Stat and then, exactly when Stat answers that there is no such
    directory, MkdirAll with permissions 0700, the result of which is
    not looked at. *)
Theorem createNodeDiskMap_layout (p : string) (fs : FS) :
  let disks := (λ i : nat, GoFilepath.Join
                             [p; GoStrconv.Itoa (Z.of_nat i)])
               <$> seq 0 16 in
  let run := driver.createNodeDiskMap p fs in
  run.1.1 = {[ "localhost" := disks ]}
  ∧ NoDup disks
  ∧ ∃ visits, run.2 = concat visits
              ∧ diskVisits fs disks visits run.1.2.
Proof.
  intros disks run. subst run. unfold driver.createNodeDiskMap. cbv zeta.
  rewrite lookup_total_insert_eq.
  destruct (createNodeDiskMap_loop_run p (length (replicate 16 ""))
              0 (<[ "localhost" := replicate 16 "" ]> ∅)
              (replicate 16 "") fs) as [Hnodes Htrace];
    [apply lookup_insert_eq|done|done|].
  split; [|split].
  - rewrite Hnodes, insert_insert_eq, insert_empty. reflexivity.
  - apply NoDup_fmap_2_strong; [|apply NoDup_seq].
    intros i j _ _ Heq. apply Join_Itoa_inj in Heq; lia.
  - exact Htrace.
Qed.

(** X28.  createNodeDiskMapFromSlice returns a map with the one node
    localhost and one disk per path, the [i]-th being the [i]-th path
    joined with the decimal number [i]; the disks are distinct, also
    when a path is given more than once; and the file system is asked,
    for each disk in turn and on the state that the disks before left,
    Stat and then, exactly when Stat answers that there is no such
    directory, MkdirAll with permissions 0700. *)
Theorem createNodeDiskMapFromSlice_layout (ps : list string) (fs : FS) :
  let disks := imap (λ (i : nat) (p : string),
                       GoFilepath.Join [p; GoStrconv.Itoa (Z.of_nat i)])
                 ps in
  let run := driver.createNodeDiskMapFromSlice ps fs in
  run.1.1 = {[ "localhost" := disks ]}
  ∧ NoDup disks
  ∧ ∃ visits, run.2 = concat visits
              ∧ diskVisits fs disks visits run.1.2.
Proof.
  intros disks run. subst run.
  unfold driver.createNodeDiskMapFromSlice. run_io.
  destruct (createNodeDiskMapFromSlice_loop_run ps 0
              (replicate (length ps) "") fs) as [Hdisks Htrace];
    [rewrite length_replicate; cbn; lia|done|].
  destruct (driver.createNodeDiskMapFromSlice_loop ps 0 _ fs)
    as [[diskPaths fs'] t]. cbn [fst snd] in *.
  split; [|split].
  - rewrite Hdisks, insert_empty. cbn [Z.to_nat take app Nat.add].
    rewrite drop_ge by (by rewrite length_replicate).
    by rewrite app_nil_r.
  - apply NoDup_alt. intros i j x Hi Hj. subst disks.
    rewrite list_lookup_imap in Hi, Hj.
    destruct (ps !! i) as [p|]; [|done]. destruct (ps !! j) as [q|]; [|done].
    cbn in Hi, Hj. injection Hi as <-. injection Hj as Hj.
    apply Join_Itoa_inj in Hj; lia.
  - rewrite app_nil_r. exact Htrace.
Qed.
End NodeDisks.

(** X28 on the file system of the examples, with the same path given
    twice and the second disk there already: the disks are /mnt/a/0 and
    /mnt/a/1, and only the first is created. *)
Lemma createNodeDiskMapFromSlice_layout_witness :
  let fs : memfs.FS := ["/mnt/a/1"] in
  let disks := ["/mnt/a/0"; "/mnt/a/1"] in
  let run := @driver.createNodeDiskMapFromSlice _ _ memfs.fileSystem
               ["/mnt/a"; "/mnt/a"] fs in
  run.1.1 = {[ "localhost" := disks ]}
  ∧ NoDup disks
  ∧ (∃ visits, run.2 = concat visits
               ∧ @diskVisits _ _ memfs.fileSystem fs disks visits run.1.2)
  ∧ run.2 = [GoOS.CallStat "/mnt/a/0";
             GoOS.CallMkdirAll "/mnt/a/0" GoOS.perm0700;
             GoOS.CallStat "/mnt/a/1"].
Proof.
  intros fs disks run.
  destruct (@createNodeDiskMapFromSlice_layout _ _ memfs.fileSystem
              ["/mnt/a"; "/mnt/a"] fs) as (Hmap & Hdistinct & Hvisits).
  split; [exact Hmap|]. split; [exact Hdistinct|].
  split; [exact Hvisits|]. vm_compute. reflexivity.
Defined.
